(** * The TCC thermostat accessory of homebridge-resideo

    A shallow embedding of [class TCCthermostat] (src/devices/device.ts): the
    object that mirrors a cloud thermostat into HomeKit characteristics,
    polls it, and pushes host edits back after a debounce.

    Conventions of the embedding.
    - A JavaScript number is an IEEE double.  In the fields of the object
      it is an exact rational ([Qc], rationals in lowest terms, so that [=]
      is numeric equality), next to the two non-numbers that reach this
      code: [undefined] (an unset field, an absent JSON member) and [NaN]
      (arithmetic on [undefined]); infinities and the rounding of doubles
      are not represented there.  The only arithmetic of the class is in
      [toCelsius] and [toFahrenheit]: module [Double] has the two once
      more on binary64 numbers, as the code computes them, and what is
      stated of the numbers they return is stated there.
    - A method is a computation over the object [this] that also records,
      in order, what it does to the outside: characteristic updates, HTTP
      requests, token refresh, signals on the debounced subjects and the
      HomeKit callback.  A rejected promise is an exception.
    - The answers of the HTTP client are the [Network] argument of the
      methods that await it.  A handler runs to completion: callbacks that
      the JavaScript runtime may interleave at an [await] are not part of
      the model. *)

From Stdlib Require Import ZArith QArith Qcanon Qround Qabs Qcabs List String Bool Lia Lqa.
From Stdlib Require PrimFloat FloatOps SpecFloat.
Import ListNotations.
Local Open Scope string_scope.

(** ** JavaScript values and operators used by the class *)

Module JS.

Inductive value : Type :=
| undefined
| NaN
| Num (q : Qc).

Definition num (z : Z) : Qc := Q2Qc (inject_Z z).

(** A numeric literal. *)
Definition lit (z : Z) : value := Num (num z).

(** [ToNumber]: [undefined] becomes [NaN]. *)
Definition ToNumber (a : value) : option Qc :=
  match a with
  | Num q => Some q
  | undefined | NaN => None
  end.

(** [ToBoolean]: [undefined], [NaN] and [0] are falsy. *)
Definition ToBoolean (a : value) : bool :=
  match a with
  | Num q => negb (Qc_eq_bool q (num 0))
  | undefined | NaN => false
  end.

(** [a === b]; [NaN] is not equal to itself. *)
Definition strict_eq (a b : value) : bool :=
  match a, b with
  | undefined, undefined => true
  | Num p, Num q => Qc_eq_bool p q
  | _, _ => false
  end.

(** [a !== b] *)
Definition strict_neq (a b : value) : bool := negb (strict_eq a b).

(** [a > b]; false as soon as one side is not a number. *)
Definition gt (a b : value) : bool :=
  match ToNumber a, ToNumber b with
  | Some p, Some q => match (p ?= q)%Qc with Gt => true | _ => false end
  | _, _ => false
  end.

Definition arith (f : Qc -> Qc -> Qc) (a b : value) : value :=
  match ToNumber a, ToNumber b with
  | Some p, Some q => Num (f p q)
  | _, _ => NaN
  end.

Definition add : value -> value -> value := arith Qcplus.
Definition sub : value -> value -> value := arith Qcminus.
Definition mul : value -> value -> value := arith Qcmult.

(** Division; every divisor in this class is a non-zero literal, a zero
    divisor (an infinity or [NaN] in JavaScript) is mapped to [NaN]. *)
Definition div (a b : value) : value :=
  match ToNumber a, ToNumber b with
  | Some p, Some q => if Qc_eq_bool q (num 0) then NaN else Num (p / q)%Qc
  | _, _ => NaN
  end.

(** [Math.round]: the nearest integer, a tie going up. *)
Definition round (q : Qc) : Z := Qfloor (q + Q2Qc (1 # 2))%Qc.

Definition Math_round (a : value) : value :=
  match ToNumber a with
  | Some q => Num (num (round q))
  | None => NaN
  end.

(** [l[i]]: the element at an index in range, [None] for the
    [undefined] any other key gives. *)
Definition index {A : Type} (l : list A) (i : value) : option A :=
  match i with
  | Num q =>
      let z := Qfloor q in
      if Qc_eq_bool (num z) q && (0 <=? z)%Z then nth_error l (Z.to_nat z) else None
  | undefined | NaN => None
  end.

(** [Array.prototype.includes] on an array of strings. *)
Definition includes (l : list string) (s : string) : bool :=
  existsb (String.eqb s) l.

(** [Array.prototype.push] and [pop], as used on a local array. *)
Definition push {A : Type} (l : list A) (x : A) : list A := (l ++ [x])%list.
Definition pop {A : Type} (l : list A) : list A := removelast l.

End JS.

Declare Scope js_scope.
Delimit Scope js_scope with js.
Bind Scope js_scope with JS.value.
Infix "+" := JS.add : js_scope.
Infix "-" := JS.sub : js_scope.
Infix "*" := JS.mul : js_scope.
Infix "/" := JS.div : js_scope.
Infix "===" := JS.strict_eq (at level 70, no associativity) : js_scope.
Infix "!==" := JS.strict_neq (at level 70, no associativity) : js_scope.
Infix ">" := JS.gt : js_scope.
Abbreviation lit := JS.lit.

(** ** Constants of the host framework *)

(** Modelled from the spec: the enum values of the HomeKit characteristics
    (the homebridge package is not under src/).  The heating-cooling values
    are the ones the spec and the comment in the constructor give
    (OFF = 0, HEAT = 1, COOL = 2, AUTO = 3); the others are the values of
    the HomeKit accessory protocol. *)
Module Characteristic.
Module TargetHeatingCoolingState.
Definition OFF : JS.value := JS.lit 0.
Definition HEAT : JS.value := JS.lit 1.
Definition COOL : JS.value := JS.lit 2.
Definition AUTO : JS.value := JS.lit 3.
End TargetHeatingCoolingState.
Module TemperatureDisplayUnits.
Definition CELSIUS : JS.value := JS.lit 0.
Definition FAHRENHEIT : JS.value := JS.lit 1.
End TemperatureDisplayUnits.
Module Active.
Definition INACTIVE : JS.value := JS.lit 0.
Definition ACTIVE : JS.value := JS.lit 1.
End Active.
Module TargetFanState.
Definition MANUAL : JS.value := JS.lit 0.
Definition AUTO : JS.value := JS.lit 1.
End TargetFanState.
End Characteristic.

(** ** The remote resources *)

(** [device.changeableValues] *)
Record ChangeableValues : Type := {
  mode : string;
  heatSetpoint : JS.value;
  coolSetpoint : JS.value
}.

(** The thermostat resource of the vendor API, with the members the class
    reads.  [settings_fan] is the truth value of [device.settings?.fan]. *)
Record TCCDevice : Type := {
  units : string;
  indoorTemperature : JS.value;
  indoorHumidity : JS.value;
  changeableValues : ChangeableValues;
  operationStatus_mode : string;
  allowedModes : list string;
  minHeatSetpoint : JS.value;
  minCoolSetpoint : JS.value;
  settings_fan : bool
}.

(** The fan sub-resource. *)
Record FanChangeableValues : Type := {
  fan_mode : string
}.

(** [platform.config.options?.thermostat]: [hide_fan] as a truth value. *)
Record Platform : Type := {
  hide_fan : bool;
  thermostatSetpointStatus : option string
}.

(** ** The object *)

(** The fields of [this].  [fanService] tells whether the optional Fanv2
    service exists; [doFanUpdate_subscribed] whether the constructor
    subscribed the fan pipeline; [interval_skipping] is the latch of the
    [skipWhile] operator on the refresh interval (it starts set and is
    dropped for good by the first tick that passes). *)
Record TCCthermostat : Type := mkTCCthermostat {
  platform : Platform;
  fanService : bool;
  doFanUpdate_subscribed : bool;
  interval_skipping : bool;
  device : TCCDevice;
  deviceFan : option FanChangeableValues;
  CurrentTemperature : JS.value;
  TargetTemperature : JS.value;
  CurrentHeatingCoolingState : JS.value;
  TargetHeatingCoolingState : JS.value;
  CoolingThresholdTemperature : JS.value;
  HeatingThresholdTemperature : JS.value;
  CurrentRelativeHumidity : JS.value;
  TemperatureDisplayUnits : JS.value;
  Active : JS.value;
  TargetFanState : JS.value;
  thermostatUpdateInProgress : bool;
  fanUpdateInProgress : bool
}.

Definition set_interval_skipping (v : bool) (this : TCCthermostat) : TCCthermostat :=
  {| platform := platform this; fanService := fanService this;
     doFanUpdate_subscribed := doFanUpdate_subscribed this; interval_skipping := v;
     device := device this; deviceFan := deviceFan this;
     CurrentTemperature := CurrentTemperature this; TargetTemperature := TargetTemperature this;
     CurrentHeatingCoolingState := CurrentHeatingCoolingState this;
     TargetHeatingCoolingState := TargetHeatingCoolingState this;
     CoolingThresholdTemperature := CoolingThresholdTemperature this;
     HeatingThresholdTemperature := HeatingThresholdTemperature this;
     CurrentRelativeHumidity := CurrentRelativeHumidity this;
     TemperatureDisplayUnits := TemperatureDisplayUnits this; Active := Active this;
     TargetFanState := TargetFanState this;
     thermostatUpdateInProgress := thermostatUpdateInProgress this;
     fanUpdateInProgress := fanUpdateInProgress this |}.

Definition set_device (v : TCCDevice) (this : TCCthermostat) : TCCthermostat :=
  {| platform := platform this; fanService := fanService this;
     doFanUpdate_subscribed := doFanUpdate_subscribed this;
     interval_skipping := interval_skipping this; device := v; deviceFan := deviceFan this;
     CurrentTemperature := CurrentTemperature this; TargetTemperature := TargetTemperature this;
     CurrentHeatingCoolingState := CurrentHeatingCoolingState this;
     TargetHeatingCoolingState := TargetHeatingCoolingState this;
     CoolingThresholdTemperature := CoolingThresholdTemperature this;
     HeatingThresholdTemperature := HeatingThresholdTemperature this;
     CurrentRelativeHumidity := CurrentRelativeHumidity this;
     TemperatureDisplayUnits := TemperatureDisplayUnits this; Active := Active this;
     TargetFanState := TargetFanState this;
     thermostatUpdateInProgress := thermostatUpdateInProgress this;
     fanUpdateInProgress := fanUpdateInProgress this |}.

Definition set_deviceFan (v : option FanChangeableValues) (this : TCCthermostat) : TCCthermostat :=
  {| platform := platform this; fanService := fanService this;
     doFanUpdate_subscribed := doFanUpdate_subscribed this;
     interval_skipping := interval_skipping this; device := device this; deviceFan := v;
     CurrentTemperature := CurrentTemperature this; TargetTemperature := TargetTemperature this;
     CurrentHeatingCoolingState := CurrentHeatingCoolingState this;
     TargetHeatingCoolingState := TargetHeatingCoolingState this;
     CoolingThresholdTemperature := CoolingThresholdTemperature this;
     HeatingThresholdTemperature := HeatingThresholdTemperature this;
     CurrentRelativeHumidity := CurrentRelativeHumidity this;
     TemperatureDisplayUnits := TemperatureDisplayUnits this; Active := Active this;
     TargetFanState := TargetFanState this;
     thermostatUpdateInProgress := thermostatUpdateInProgress this;
     fanUpdateInProgress := fanUpdateInProgress this |}.

Definition set_CurrentTemperature (v : JS.value) (this : TCCthermostat) : TCCthermostat :=
  {| platform := platform this; fanService := fanService this;
     doFanUpdate_subscribed := doFanUpdate_subscribed this;
     interval_skipping := interval_skipping this; device := device this;
     deviceFan := deviceFan this; CurrentTemperature := v;
     TargetTemperature := TargetTemperature this;
     CurrentHeatingCoolingState := CurrentHeatingCoolingState this;
     TargetHeatingCoolingState := TargetHeatingCoolingState this;
     CoolingThresholdTemperature := CoolingThresholdTemperature this;
     HeatingThresholdTemperature := HeatingThresholdTemperature this;
     CurrentRelativeHumidity := CurrentRelativeHumidity this;
     TemperatureDisplayUnits := TemperatureDisplayUnits this; Active := Active this;
     TargetFanState := TargetFanState this;
     thermostatUpdateInProgress := thermostatUpdateInProgress this;
     fanUpdateInProgress := fanUpdateInProgress this |}.

Definition set_TargetTemperature (v : JS.value) (this : TCCthermostat) : TCCthermostat :=
  {| platform := platform this; fanService := fanService this;
     doFanUpdate_subscribed := doFanUpdate_subscribed this;
     interval_skipping := interval_skipping this; device := device this;
     deviceFan := deviceFan this; CurrentTemperature := CurrentTemperature this;
     TargetTemperature := v; CurrentHeatingCoolingState := CurrentHeatingCoolingState this;
     TargetHeatingCoolingState := TargetHeatingCoolingState this;
     CoolingThresholdTemperature := CoolingThresholdTemperature this;
     HeatingThresholdTemperature := HeatingThresholdTemperature this;
     CurrentRelativeHumidity := CurrentRelativeHumidity this;
     TemperatureDisplayUnits := TemperatureDisplayUnits this; Active := Active this;
     TargetFanState := TargetFanState this;
     thermostatUpdateInProgress := thermostatUpdateInProgress this;
     fanUpdateInProgress := fanUpdateInProgress this |}.

Definition set_CurrentHeatingCoolingState (v : JS.value) (this : TCCthermostat) : TCCthermostat :=
  {| platform := platform this; fanService := fanService this;
     doFanUpdate_subscribed := doFanUpdate_subscribed this;
     interval_skipping := interval_skipping this; device := device this;
     deviceFan := deviceFan this; CurrentTemperature := CurrentTemperature this;
     TargetTemperature := TargetTemperature this; CurrentHeatingCoolingState := v;
     TargetHeatingCoolingState := TargetHeatingCoolingState this;
     CoolingThresholdTemperature := CoolingThresholdTemperature this;
     HeatingThresholdTemperature := HeatingThresholdTemperature this;
     CurrentRelativeHumidity := CurrentRelativeHumidity this;
     TemperatureDisplayUnits := TemperatureDisplayUnits this; Active := Active this;
     TargetFanState := TargetFanState this;
     thermostatUpdateInProgress := thermostatUpdateInProgress this;
     fanUpdateInProgress := fanUpdateInProgress this |}.

Definition set_TargetHeatingCoolingState (v : JS.value) (this : TCCthermostat) : TCCthermostat :=
  {| platform := platform this; fanService := fanService this;
     doFanUpdate_subscribed := doFanUpdate_subscribed this;
     interval_skipping := interval_skipping this; device := device this;
     deviceFan := deviceFan this; CurrentTemperature := CurrentTemperature this;
     TargetTemperature := TargetTemperature this;
     CurrentHeatingCoolingState := CurrentHeatingCoolingState this;
     TargetHeatingCoolingState := v;
     CoolingThresholdTemperature := CoolingThresholdTemperature this;
     HeatingThresholdTemperature := HeatingThresholdTemperature this;
     CurrentRelativeHumidity := CurrentRelativeHumidity this;
     TemperatureDisplayUnits := TemperatureDisplayUnits this; Active := Active this;
     TargetFanState := TargetFanState this;
     thermostatUpdateInProgress := thermostatUpdateInProgress this;
     fanUpdateInProgress := fanUpdateInProgress this |}.

Definition set_CoolingThresholdTemperature (v : JS.value) (this : TCCthermostat) : TCCthermostat :=
  {| platform := platform this; fanService := fanService this;
     doFanUpdate_subscribed := doFanUpdate_subscribed this;
     interval_skipping := interval_skipping this; device := device this;
     deviceFan := deviceFan this; CurrentTemperature := CurrentTemperature this;
     TargetTemperature := TargetTemperature this;
     CurrentHeatingCoolingState := CurrentHeatingCoolingState this;
     TargetHeatingCoolingState := TargetHeatingCoolingState this;
     CoolingThresholdTemperature := v;
     HeatingThresholdTemperature := HeatingThresholdTemperature this;
     CurrentRelativeHumidity := CurrentRelativeHumidity this;
     TemperatureDisplayUnits := TemperatureDisplayUnits this; Active := Active this;
     TargetFanState := TargetFanState this;
     thermostatUpdateInProgress := thermostatUpdateInProgress this;
     fanUpdateInProgress := fanUpdateInProgress this |}.

Definition set_HeatingThresholdTemperature (v : JS.value) (this : TCCthermostat) : TCCthermostat :=
  {| platform := platform this; fanService := fanService this;
     doFanUpdate_subscribed := doFanUpdate_subscribed this;
     interval_skipping := interval_skipping this; device := device this;
     deviceFan := deviceFan this; CurrentTemperature := CurrentTemperature this;
     TargetTemperature := TargetTemperature this;
     CurrentHeatingCoolingState := CurrentHeatingCoolingState this;
     TargetHeatingCoolingState := TargetHeatingCoolingState this;
     CoolingThresholdTemperature := CoolingThresholdTemperature this;
     HeatingThresholdTemperature := v; CurrentRelativeHumidity := CurrentRelativeHumidity this;
     TemperatureDisplayUnits := TemperatureDisplayUnits this; Active := Active this;
     TargetFanState := TargetFanState this;
     thermostatUpdateInProgress := thermostatUpdateInProgress this;
     fanUpdateInProgress := fanUpdateInProgress this |}.

Definition set_CurrentRelativeHumidity (v : JS.value) (this : TCCthermostat) : TCCthermostat :=
  {| platform := platform this; fanService := fanService this;
     doFanUpdate_subscribed := doFanUpdate_subscribed this;
     interval_skipping := interval_skipping this; device := device this;
     deviceFan := deviceFan this; CurrentTemperature := CurrentTemperature this;
     TargetTemperature := TargetTemperature this;
     CurrentHeatingCoolingState := CurrentHeatingCoolingState this;
     TargetHeatingCoolingState := TargetHeatingCoolingState this;
     CoolingThresholdTemperature := CoolingThresholdTemperature this;
     HeatingThresholdTemperature := HeatingThresholdTemperature this;
     CurrentRelativeHumidity := v; TemperatureDisplayUnits := TemperatureDisplayUnits this;
     Active := Active this; TargetFanState := TargetFanState this;
     thermostatUpdateInProgress := thermostatUpdateInProgress this;
     fanUpdateInProgress := fanUpdateInProgress this |}.

Definition set_TemperatureDisplayUnits (v : JS.value) (this : TCCthermostat) : TCCthermostat :=
  {| platform := platform this; fanService := fanService this;
     doFanUpdate_subscribed := doFanUpdate_subscribed this;
     interval_skipping := interval_skipping this; device := device this;
     deviceFan := deviceFan this; CurrentTemperature := CurrentTemperature this;
     TargetTemperature := TargetTemperature this;
     CurrentHeatingCoolingState := CurrentHeatingCoolingState this;
     TargetHeatingCoolingState := TargetHeatingCoolingState this;
     CoolingThresholdTemperature := CoolingThresholdTemperature this;
     HeatingThresholdTemperature := HeatingThresholdTemperature this;
     CurrentRelativeHumidity := CurrentRelativeHumidity this; TemperatureDisplayUnits := v;
     Active := Active this; TargetFanState := TargetFanState this;
     thermostatUpdateInProgress := thermostatUpdateInProgress this;
     fanUpdateInProgress := fanUpdateInProgress this |}.

Definition set_Active (v : JS.value) (this : TCCthermostat) : TCCthermostat :=
  {| platform := platform this; fanService := fanService this;
     doFanUpdate_subscribed := doFanUpdate_subscribed this;
     interval_skipping := interval_skipping this; device := device this;
     deviceFan := deviceFan this; CurrentTemperature := CurrentTemperature this;
     TargetTemperature := TargetTemperature this;
     CurrentHeatingCoolingState := CurrentHeatingCoolingState this;
     TargetHeatingCoolingState := TargetHeatingCoolingState this;
     CoolingThresholdTemperature := CoolingThresholdTemperature this;
     HeatingThresholdTemperature := HeatingThresholdTemperature this;
     CurrentRelativeHumidity := CurrentRelativeHumidity this;
     TemperatureDisplayUnits := TemperatureDisplayUnits this; Active := v;
     TargetFanState := TargetFanState this;
     thermostatUpdateInProgress := thermostatUpdateInProgress this;
     fanUpdateInProgress := fanUpdateInProgress this |}.

Definition set_TargetFanState (v : JS.value) (this : TCCthermostat) : TCCthermostat :=
  {| platform := platform this; fanService := fanService this;
     doFanUpdate_subscribed := doFanUpdate_subscribed this;
     interval_skipping := interval_skipping this; device := device this;
     deviceFan := deviceFan this; CurrentTemperature := CurrentTemperature this;
     TargetTemperature := TargetTemperature this;
     CurrentHeatingCoolingState := CurrentHeatingCoolingState this;
     TargetHeatingCoolingState := TargetHeatingCoolingState this;
     CoolingThresholdTemperature := CoolingThresholdTemperature this;
     HeatingThresholdTemperature := HeatingThresholdTemperature this;
     CurrentRelativeHumidity := CurrentRelativeHumidity this;
     TemperatureDisplayUnits := TemperatureDisplayUnits this; Active := Active this;
     TargetFanState := v; thermostatUpdateInProgress := thermostatUpdateInProgress this;
     fanUpdateInProgress := fanUpdateInProgress this |}.

Definition set_thermostatUpdateInProgress (v : bool) (this : TCCthermostat) : TCCthermostat :=
  {| platform := platform this; fanService := fanService this;
     doFanUpdate_subscribed := doFanUpdate_subscribed this;
     interval_skipping := interval_skipping this; device := device this;
     deviceFan := deviceFan this; CurrentTemperature := CurrentTemperature this;
     TargetTemperature := TargetTemperature this;
     CurrentHeatingCoolingState := CurrentHeatingCoolingState this;
     TargetHeatingCoolingState := TargetHeatingCoolingState this;
     CoolingThresholdTemperature := CoolingThresholdTemperature this;
     HeatingThresholdTemperature := HeatingThresholdTemperature this;
     CurrentRelativeHumidity := CurrentRelativeHumidity this;
     TemperatureDisplayUnits := TemperatureDisplayUnits this; Active := Active this;
     TargetFanState := TargetFanState this; thermostatUpdateInProgress := v;
     fanUpdateInProgress := fanUpdateInProgress this |}.

Definition set_fanUpdateInProgress (v : bool) (this : TCCthermostat) : TCCthermostat :=
  {| platform := platform this; fanService := fanService this;
     doFanUpdate_subscribed := doFanUpdate_subscribed this;
     interval_skipping := interval_skipping this; device := device this;
     deviceFan := deviceFan this; CurrentTemperature := CurrentTemperature this;
     TargetTemperature := TargetTemperature this;
     CurrentHeatingCoolingState := CurrentHeatingCoolingState this;
     TargetHeatingCoolingState := TargetHeatingCoolingState this;
     CoolingThresholdTemperature := CoolingThresholdTemperature this;
     HeatingThresholdTemperature := HeatingThresholdTemperature this;
     CurrentRelativeHumidity := CurrentRelativeHumidity this;
     TemperatureDisplayUnits := TemperatureDisplayUnits this; Active := Active this;
     TargetFanState := TargetFanState this;
     thermostatUpdateInProgress := thermostatUpdateInProgress this; fanUpdateInProgress := v |}.

(** ** What a method does to the outside *)

(** The characteristics the accessory publishes: eight on the Thermostat
    service, two on the Fanv2 service. *)
Module Kind.
Inductive t : Type :=
| TemperatureDisplayUnits
| CurrentTemperature
| CurrentRelativeHumidity
| TargetTemperature
| HeatingThresholdTemperature
| CoolingThresholdTemperature
| TargetHeatingCoolingState
| CurrentHeatingCoolingState
| TargetFanState
| Active.

Definition eqb (a b : t) : bool :=
  match a, b with
  | TemperatureDisplayUnits, TemperatureDisplayUnits
  | CurrentTemperature, CurrentTemperature
  | CurrentRelativeHumidity, CurrentRelativeHumidity
  | TargetTemperature, TargetTemperature
  | HeatingThresholdTemperature, HeatingThresholdTemperature
  | CoolingThresholdTemperature, CoolingThresholdTemperature
  | TargetHeatingCoolingState, TargetHeatingCoolingState
  | CurrentHeatingCoolingState, CurrentHeatingCoolingState
  | TargetFanState, TargetFanState
  | Active, Active => true
  | _, _ => false
  end.

Definition thermostat : list t :=
  [TemperatureDisplayUnits; CurrentTemperature; CurrentRelativeHumidity;
   TargetTemperature; HeatingThresholdTemperature; CoolingThresholdTemperature;
   TargetHeatingCoolingState; CurrentHeatingCoolingState].

Definition fan : list t := [TargetFanState; Active].
End Kind.

(** The error object of a rejected request. *)
Record error : Type := {
  message : string
}.

(** The second argument of [updateCharacteristic]: a value, or the error
    object that [apiError] passes in its place. *)
Inductive published : Type :=
| Value (v : JS.value)
| Failure (e : error).

(** The body of the thermostat POST. *)
Record Payload : Type := {
  payload_mode : option string;
  payload_thermostatSetpointStatus : option string;
  payload_heatSetpoint : JS.value;
  payload_coolSetpoint : JS.value
}.

Definition with_heatSetpoint (v : JS.value) (p : Payload) : Payload :=
  {| payload_mode := payload_mode p;
     payload_thermostatSetpointStatus := payload_thermostatSetpointStatus p;
     payload_heatSetpoint := v;
     payload_coolSetpoint := payload_coolSetpoint p |}.

Definition with_coolSetpoint (v : JS.value) (p : Payload) : Payload :=
  {| payload_mode := payload_mode p;
     payload_thermostatSetpointStatus := payload_thermostatSetpointStatus p;
     payload_heatSetpoint := payload_heatSetpoint p;
     payload_coolSetpoint := v |}.

(** The two debounced subjects. *)
Inductive subject : Type :=
| doThermostatUpdate
| doFanUpdate.

Inductive event : Type :=
| updateCharacteristic (k : Kind.t) (v : published)
| axios_get_thermostat
| axios_get_fan
| axios_post_thermostat (payload : Payload)
| axios_post_fan (payload : FanChangeableValues)
| refreshAccessToken
| next (s : subject)
| callback (e : option error).

(** A request on the wire. *)
Definition is_request (ev : event) : bool :=
  match ev with
  | axios_get_thermostat | axios_get_fan
  | axios_post_thermostat _ | axios_post_fan _ => true
  | _ => false
  end.

(** A write on the wire. *)
Definition is_post (ev : event) : bool :=
  match ev with
  | axios_post_thermostat _ | axios_post_fan _ => true
  | _ => false
  end.

(** What the HTTP client answers during one run of a handler: the data of
    a resolved request ([inr]) or the error of a rejected one ([inl]). *)
Record Network : Type := {
  get_thermostat : error + TCCDevice;
  get_fan : error + FanChangeableValues;
  post_thermostat : error + unit;
  post_fan : error + unit
}.

(** ** Computations over [this] *)

Inductive completion (A : Type) : Type :=
| Normal (a : A)
| Throw (e : error).
Arguments Normal {A} a.
Arguments Throw {A} e.

Definition M (A : Type) : Type :=
  TCCthermostat -> completion A * TCCthermostat * list event.

Definition ret {A : Type} (a : A) : M A :=
  fun this => (Normal a, this, []).

Definition bind {A B : Type} (m : M A) (k : A -> M B) : M B :=
  fun this =>
    let '(r, this1, t1) := m this in
    match r with
    | Normal a => let '(r2, this2, t2) := k a this1 in (r2, this2, (t1 ++ t2)%list)
    | Throw e => (Throw e, this1, t1)
    end.

Definition get_this : M TCCthermostat :=
  fun this => (Normal this, this, []).

Definition modify (f : TCCthermostat -> TCCthermostat) : M unit :=
  fun this => (Normal tt, f this, []).

Definition emit (ev : event) : M unit :=
  fun this => (Normal tt, this, [ev]).

Definition throw {A : Type} (e : error) : M A :=
  fun this => (Throw e, this, []).

(** [try { body } catch (e) { handler(e) }] *)
Definition try_catch {A : Type} (body : M A) (handler : error -> M A) : M A :=
  fun this =>
    let '(r, this1, t1) := body this in
    match r with
    | Normal a => (Normal a, this1, t1)
    | Throw e => let '(r2, this2, t2) := handler e this1 in (r2, this2, (t1 ++ t2)%list)
    end.

Definition when (b : bool) (m : M unit) : M unit :=
  if b then m else ret tt.

(** [await] of a request: the request goes out, then its answer comes. *)
Definition await {A : Type} (ev : event) (answer : error + A) : M A :=
  fun this =>
    match answer with
    | inr a => (Normal a, this, [ev])
    | inl e => (Throw e, this, [ev])
    end.

Declare Scope M_scope.
Delimit Scope M_scope with M.
Notation "x <- m ;; k" := (bind m (fun x => k))
  (at level 61, m at next level, right associativity) : M_scope.
Notation "m ;; k" := (bind m (fun _ => k))
  (at level 61, right associativity) : M_scope.
Local Open Scope M_scope.

(** The state and the trace a computation leaves. *)
Definition state_of {A : Type} (r : completion A * TCCthermostat * list event)
  : TCCthermostat := snd (fst r).
Definition trace_of {A : Type} (r : completion A * TCCthermostat * list event)
  : list event := snd r.
Definition result_of {A : Type} (r : completion A * TCCthermostat * list event)
  : completion A := fst (fst r).

(** ** The methods of [TCCthermostat] *)

Import Characteristic.

(** [this.modes], a lookup by mode name: the four own keys of the object.
    A key that the object inherits from [Object.prototype] ("constructor",
    "toString", ...) gives a function in JavaScript, which is not among the
    values here; the keys looked up are the mode names of the API. *)
Definition modes (key : string) : JS.value :=
  if key =? "Off" then TargetHeatingCoolingState.OFF
  else if key =? "Heat" then TargetHeatingCoolingState.HEAT
  else if key =? "Cool" then TargetHeatingCoolingState.COOL
  else if key =? "Auto" then TargetHeatingCoolingState.AUTO
  else JS.undefined.

(** [this.honeywellMode] *)
Definition honeywellMode : list string := ["Off"; "Heat"; "Cool"; "Auto"].

(** [this.device.settings?.fan && !this.platform.config.options?.thermostat?.hide_fan] *)
Definition fan_enabled (this : TCCthermostat) : bool :=
  settings_fan (device this) && negb (hide_fan (platform this)).

(** Converts the value to celsius if the temperature units are in Fahrenheit;
    celsius should be to the nearest 0.5 degree.  The arithmetic is exact
    here; [Double.toCelsius] below rounds as the code does. *)
Definition toCelsius (this : TCCthermostat) (value : JS.value) : JS.value :=
  if (TemperatureDisplayUnits this === TemperatureDisplayUnits.CELSIUS)%js then value
  else (JS.Math_round ((lit 5 / lit 9) * (value - lit 32) * lit 2) / lit 2)%js.

(** Converts the value to fahrenheit if the temperature units are in
    Fahrenheit.  The arithmetic is exact here; [Double.toFahrenheit] below
    rounds as the code does. *)
Definition toFahrenheit (this : TCCthermostat) (value : JS.value) : JS.value :=
  if (TemperatureDisplayUnits this === TemperatureDisplayUnits.CELSIUS)%js then value
  else JS.Math_round ((value * lit 9) / lit 5 + lit 32)%js.

(** ** The conversions in double precision

    The exact rationals above idealise the arithmetic of the two
    conversions.  Here they are once more as the code computes them: on
    binary64 numbers (the primitive floats of the kernel), every operation
    rounded to nearest, ties to even. *)

Module Double.

Import SpecFloat PrimFloat FloatOps.

(** A JavaScript number. *)
Definition number : Type := float.

(** An integer literal. *)
Definition of_Z (z : Z) : number := SF2Prim (binary_normalize prec emax z 0 false).

(** A literal with one decimal, [k / 10]: the double nearest to it, which
    is what the division of the two integers rounds to. *)
Definition tenth (k : Z) : number := (of_Z k / 10)%float.

(** A half degree, [k / 2]; the division is exact. *)
Definition half (k : Z) : number := (of_Z k / 2)%float.

(** The exact value of a finite double. *)
Definition to_Q (x : number) : option Q :=
  match Prim2SF x with
  | S754_zero _ => Some 0%Q
  | S754_finite s m e => Some (inject_Z (cond_Zopp s (Zpos m)) * Qpower 2 e)%Q
  | S754_infinity _ | S754_nan => None
  end.

(** [a === b] on numbers: [NaN] differs from itself, the two zeros are
    equal. *)
Definition strict_eq (a b : number) : bool := (a =? b)%float.

(** [Math.round]: the integer nearest to [x], a tie going up; an integer,
    an infinity and [NaN] are returned as they are, and a result of zero
    keeps the sign of [x].  With [x = M * 2^e] and [e < 0], the result is
    the floor of [x + 1/2 = (2 * M + 2^-e) / 2^(1-e)], computed on
    integers. *)
Definition Math_round (x : number) : number :=
  match Prim2SF x with
  | S754_finite s m e =>
      if (0 <=? e)%Z then x
      else
        let n := ((2 * cond_Zopp s (Zpos m) + 2 ^ (- e)) / 2 ^ (1 - e))%Z in
        if (n =? 0)%Z then (if s then neg_zero else zero) else of_Z n
  | S754_zero _ | S754_infinity _ | S754_nan => x
  end.

(** Converts the value to celsius if the temperature units are in Fahrenheit;
    celsius should be to the nearest 0.5 degree. *)
Definition toCelsius (this : TCCthermostat) (value : number) : number :=
  if (TemperatureDisplayUnits this === TemperatureDisplayUnits.CELSIUS)%js then value
  else (Math_round ((5 / 9) * (value - 32) * 2) / 2)%float.

(** Converts the value to fahrenheit if the temperature units are in
    Fahrenheit. *)
Definition toFahrenheit (this : TCCthermostat) (value : number) : number :=
  if (TemperatureDisplayUnits this === TemperatureDisplayUnits.CELSIUS)%js then value
  else Math_round ((value * 9) / 5 + 32)%float.

(** [r] is a finite double whose exact value is a multiple of [step] and
    lies within [bound] of [target]. *)
Definition quantized (step bound target : Q) (r : number) : Prop :=
  exists (q : Q) (n : Z),
    to_Q r = Some q /\ q == inject_Z n * step /\ Qabs (q - target) <= bound.

(** The two doubles are finite and their exact values differ by [bound] at
    most. *)
Definition close (bound : Q) (a b : number) : Prop :=
  exists p q : Q, to_Q a = Some p /\ to_Q b = Some q /\ Qabs (p - q) <= bound.

(** The two predicates, decided. *)
Definition quantized_bool (step bound target : Q) (r : number) : bool :=
  match to_Q r with
  | Some q =>
      Qeq_bool q (inject_Z (Qfloor (q / step)) * step)
      && Qle_bool (Qabs (q - target)) bound
  | None => false
  end.

Definition close_bool (bound : Q) (a b : number) : bool :=
  match to_Q a, to_Q b with
  | Some p, Some q => Qle_bool (Qabs (p - q)) bound
  | _, _ => false
  end.

End Double.

(** Deciding a property of every integer of a range, one by one. *)
Fixpoint for_each (n : nat) (lo : Z) (p : Z -> bool) : bool :=
  match n with
  | O => true
  | S n => p lo && for_each n (lo + 1) p
  end.

Definition for_range (lo hi : Z) (p : Z -> bool) : bool :=
  for_each (Z.to_nat (hi - lo + 1)) lo p.

(** *** [parseStatus]

    The method is a sequence of seven blocks; each is a step below, in the
    order of the source. *)

(** [if (this.device.units === 'Fahrenheit') ...; if (... === 'Celsius') ...] *)
Definition parse_units (this : TCCthermostat) : TCCthermostat :=
  let this :=
    if units (device this) =? "Fahrenheit"
    then set_TemperatureDisplayUnits TemperatureDisplayUnits.FAHRENHEIT this else this in
  if units (device this) =? "Celsius"
  then set_TemperatureDisplayUnits TemperatureDisplayUnits.CELSIUS this else this.

(** [this.CurrentTemperature = ...; this.CurrentRelativeHumidity = ...] *)
Definition parse_readings (this : TCCthermostat) : TCCthermostat :=
  let this := set_CurrentTemperature (toCelsius this (indoorTemperature (device this))) this in
  set_CurrentRelativeHumidity (indoorHumidity (device this)) this.

(** [if (heatSetpoint > 0) ...; if (coolSetpoint > 0) ...] *)
Definition parse_thresholds (this : TCCthermostat) : TCCthermostat :=
  let this :=
    if (heatSetpoint (changeableValues (device this)) > lit 0)%js
    then set_HeatingThresholdTemperature
           (toCelsius this (heatSetpoint (changeableValues (device this)))) this
    else this in
  if (coolSetpoint (changeableValues (device this)) > lit 0)%js
  then set_CoolingThresholdTemperature
         (toCelsius this (coolSetpoint (changeableValues (device this)))) this
  else this.

(** [this.TargetHeatingCoolingState = this.modes[this.device.changeableValues.mode]] *)
Definition parse_target_state (this : TCCthermostat) : TCCthermostat :=
  set_TargetHeatingCoolingState (modes (mode (changeableValues (device this)))) this.

(** [switch (this.device.operationStatus.mode) ...]:
    CurrentHeatingCoolingState = OFF = 0, HEAT = 1, COOL = 2 *)
Definition parse_current_state (this : TCCthermostat) : TCCthermostat :=
  if operationStatus_mode (device this) =? "Heat"
  then set_CurrentHeatingCoolingState (lit 1) this
  else if operationStatus_mode (device this) =? "Cool"
  then set_CurrentHeatingCoolingState (lit 2) this
  else set_CurrentHeatingCoolingState (lit 0) this.

(** Set the TargetTemperature value based on the current mode. *)
Definition parse_target_temperature (this : TCCthermostat) : TCCthermostat :=
  if (TargetHeatingCoolingState this === TargetHeatingCoolingState.HEAT)%js then
    if (heatSetpoint (changeableValues (device this)) > lit 0)%js
       || JS.ToBoolean (minHeatSetpoint (device this))
    then set_TargetTemperature
           (toCelsius this (heatSetpoint (changeableValues (device this)))) this
    else this
  else
    if (coolSetpoint (changeableValues (device this)) > lit 0)%js
       || JS.ToBoolean (minCoolSetpoint (device this))
    then set_TargetTemperature
           (toCelsius this (coolSetpoint (changeableValues (device this)))) this
    else this.

(** Set the Target Fan State. *)
Definition parse_fan (this : TCCthermostat) : TCCthermostat :=
  if fan_enabled this then
    match deviceFan this with
    | Some fan =>
        if fan_mode fan =? "Auto" then
          set_Active Active.INACTIVE (set_TargetFanState TargetFanState.AUTO this)
        else if fan_mode fan =? "On" then
          set_Active Active.ACTIVE (set_TargetFanState TargetFanState.MANUAL this)
        else if fan_mode fan =? "Circulate" then
          set_Active Active.INACTIVE (set_TargetFanState TargetFanState.MANUAL this)
        else this
    | None => this
    end
  else this.

(** Parse the device status from the API: recompute the fields of [this]
    from [this.device] and [this.deviceFan]. *)
Definition parseStatus (this : TCCthermostat) : TCCthermostat :=
  let this := parse_units this in
  let this := parse_readings this in
  let this := parse_thresholds this in
  let this := parse_target_state this in
  let this := parse_current_state this in
  let this := parse_target_temperature this in
  parse_fan this.

Arguments parseStatus : simpl never.

(** The fields of [this] when the constructor returns.  [cached_Fanv2]
    tells whether the accessory, restored from the cache, already carries a
    Fanv2 service: [this.fanService] is that service, or the one the
    constructor adds when the device has a fan that is not hidden; the fan
    pipeline is subscribed in the latter case only. *)
Definition constructor (platform : Platform) (cached_Fanv2 : bool) (device : TCCDevice)
  : TCCthermostat :=
  let this :=
    {| platform := platform;
       fanService := cached_Fanv2 || (settings_fan device && negb (hide_fan platform));
       doFanUpdate_subscribed := settings_fan device && negb (hide_fan platform);
       interval_skipping := true;
       device := device;
       deviceFan := None;
       CurrentTemperature := JS.undefined;
       TargetTemperature := JS.undefined;
       CurrentHeatingCoolingState := JS.undefined;
       TargetHeatingCoolingState := JS.undefined;
       CoolingThresholdTemperature := JS.undefined;
       HeatingThresholdTemperature := JS.undefined;
       CurrentRelativeHumidity := JS.undefined;
       TemperatureDisplayUnits := JS.undefined;
       Active := Active.INACTIVE;
       TargetFanState := TargetFanState.MANUAL;
       thermostatUpdateInProgress := false;
       fanUpdateInProgress := false |} in
  (* Do initial device parse *)
  parseStatus this.

(** Updates the status for each of the HomeKit characteristics. *)
Definition updateHomeKitCharacteristics : M unit :=
  this <- get_this ;;
  emit (updateCharacteristic Kind.TemperatureDisplayUnits (Value (TemperatureDisplayUnits this))) ;;
  emit (updateCharacteristic Kind.CurrentTemperature (Value (CurrentTemperature this))) ;;
  emit (updateCharacteristic Kind.CurrentRelativeHumidity (Value (CurrentRelativeHumidity this))) ;;
  emit (updateCharacteristic Kind.TargetTemperature (Value (TargetTemperature this))) ;;
  emit (updateCharacteristic Kind.HeatingThresholdTemperature
          (Value (HeatingThresholdTemperature this))) ;;
  emit (updateCharacteristic Kind.CoolingThresholdTemperature
          (Value (CoolingThresholdTemperature this))) ;;
  emit (updateCharacteristic Kind.TargetHeatingCoolingState
          (Value (TargetHeatingCoolingState this))) ;;
  emit (updateCharacteristic Kind.CurrentHeatingCoolingState
          (Value (CurrentHeatingCoolingState this))) ;;
  when (fan_enabled this)
    (when (fanService this)
       (emit (updateCharacteristic Kind.TargetFanState (Value (TargetFanState this)))) ;;
     when (fanService this)
       (emit (updateCharacteristic Kind.Active (Value (Active this))))).

Definition apiError (e : error) : M unit :=
  this <- get_this ;;
  emit (updateCharacteristic Kind.TemperatureDisplayUnits (Failure e)) ;;
  emit (updateCharacteristic Kind.CurrentTemperature (Failure e)) ;;
  emit (updateCharacteristic Kind.CurrentRelativeHumidity (Failure e)) ;;
  emit (updateCharacteristic Kind.TargetTemperature (Failure e)) ;;
  emit (updateCharacteristic Kind.HeatingThresholdTemperature (Failure e)) ;;
  emit (updateCharacteristic Kind.CoolingThresholdTemperature (Failure e)) ;;
  emit (updateCharacteristic Kind.TargetHeatingCoolingState (Failure e)) ;;
  emit (updateCharacteristic Kind.CurrentHeatingCoolingState (Failure e)) ;;
  when (fan_enabled this)
    (when (fanService this) (emit (updateCharacteristic Kind.TargetFanState (Failure e))) ;;
     when (fanService this) (emit (updateCharacteristic Kind.Active (Failure e)))).

(** Asks the API for the latest device information. *)
Definition refreshStatus (net : Network) : M unit :=
  try_catch
    (d <- await axios_get_thermostat (get_thermostat net) ;;
     modify (set_device d) ;;
     this <- get_this ;;
     when (fan_enabled this)
       (f <- await axios_get_fan (get_fan net) ;;
        modify (set_deviceFan (Some f))) ;;
     modify parseStatus ;;
     updateHomeKitCharacteristics)
    (fun e =>
       emit refreshAccessToken ;;
       apiError e).

(** Whether [pushChanges] has something to push. *)
Definition changed (this : TCCthermostat) : bool :=
  (HeatingThresholdTemperature this
     !== toCelsius this (heatSetpoint (changeableValues (device this))))%js
  || (CoolingThresholdTemperature this
        !== toCelsius this (coolSetpoint (changeableValues (device this))))%js
  || (TargetHeatingCoolingState this !== modes (mode (changeableValues (device this))))%js.

(** The payload [pushChanges] builds. *)
Definition thermostat_payload (this : TCCthermostat) : Payload :=
  let payload :=
    {| payload_mode := JS.index honeywellMode (TargetHeatingCoolingState this);
       payload_thermostatSetpointStatus := thermostatSetpointStatus (platform this);
       payload_heatSetpoint := JS.undefined;
       payload_coolSetpoint := JS.undefined |} in
  (* Set the heat and cool set point value based on the selected mode *)
  if (TargetHeatingCoolingState this === TargetHeatingCoolingState.HEAT)%js then
    with_coolSetpoint (toFahrenheit this (CoolingThresholdTemperature this))
      (with_heatSetpoint (toFahrenheit this (TargetTemperature this)) payload)
  else if (TargetHeatingCoolingState this === TargetHeatingCoolingState.COOL)%js then
    with_heatSetpoint (toFahrenheit this (HeatingThresholdTemperature this))
      (with_coolSetpoint (toFahrenheit this (TargetTemperature this)) payload)
  else if (TargetHeatingCoolingState this === TargetHeatingCoolingState.AUTO)%js then
    with_heatSetpoint (toFahrenheit this (HeatingThresholdTemperature this))
      (with_coolSetpoint (toFahrenheit this (CoolingThresholdTemperature this)) payload)
  else
    with_heatSetpoint (toFahrenheit this (HeatingThresholdTemperature this))
      (with_coolSetpoint (toFahrenheit this (CoolingThresholdTemperature this)) payload).

(** Pushes the requested changes to the API. *)
Definition pushChanges (net : Network) : M unit :=
  this <- get_this ;;
  if changed this then
    (* Make the API request *)
    await (axios_post_thermostat (thermostat_payload this)) (post_thermostat net) ;;
    (* Refresh the status from the API *)
    refreshStatus net
  else ret tt.

(** The payload [pushFanChanges] builds, [Auto] by default. *)
Definition fan_payload (this : TCCthermostat) : FanChangeableValues :=
  let payload := {| fan_mode := "Auto" |} in
  if (TargetFanState this === TargetFanState.AUTO)%js then
    {| fan_mode := "Auto" |}
  else if (TargetFanState this === TargetFanState.MANUAL)%js
          && (Active this === Active.ACTIVE)%js then
    {| fan_mode := "On" |}
  else if (TargetFanState this === TargetFanState.MANUAL)%js
          && (Active this === Active.INACTIVE)%js then
    {| fan_mode := "Circulate" |}
  else payload.

(** Pushes the requested changes for the fan to the API. *)
Definition pushFanChanges (net : Network) : M unit :=
  this <- get_this ;;
  when (fan_enabled this)
    ((* Make the API request *)
     await (axios_post_fan (fan_payload this)) (post_fan net)) ;;
  (* Refresh the status from the API *)
  refreshStatus net.

(** [this.doThermostatUpdate.next()]: the [tap] of the pipeline raises the
    flag at once, the debounce timer is (re)armed. *)
Definition doThermostatUpdate_next : M unit :=
  emit (next doThermostatUpdate) ;;
  modify (set_thermostatUpdateInProgress true).

(** [this.doFanUpdate.next()]; the pipeline exists only when the
    constructor subscribed it. *)
Definition doFanUpdate_next : M unit :=
  emit (next doFanUpdate) ;;
  this <- get_this ;;
  when (doFanUpdate_subscribed this) (modify (set_fanUpdateInProgress true)).

Definition setTargetHeatingCoolingState (value : JS.value) : M unit :=
  modify (set_TargetHeatingCoolingState value) ;;
  (* Set the TargetTemperature value based on the selected mode *)
  this <- get_this ;;
  (if (TargetHeatingCoolingState this === TargetHeatingCoolingState.HEAT)%js
   then modify (set_TargetTemperature
                  (toCelsius this (heatSetpoint (changeableValues (device this)))))
   else modify (set_TargetTemperature
                  (toCelsius this (coolSetpoint (changeableValues (device this)))))) ;;
  this <- get_this ;;
  emit (updateCharacteristic Kind.TargetTemperature (Value (TargetTemperature this))) ;;
  doThermostatUpdate_next ;;
  emit (callback None).

Definition setHeatingThresholdTemperature (value : JS.value) : M unit :=
  modify (set_HeatingThresholdTemperature value) ;;
  doThermostatUpdate_next ;;
  emit (callback None).

Definition setCoolingThresholdTemperature (value : JS.value) : M unit :=
  modify (set_CoolingThresholdTemperature value) ;;
  doThermostatUpdate_next ;;
  emit (callback None).

Definition setTargetTemperature (value : JS.value) : M unit :=
  modify (set_TargetTemperature value) ;;
  doThermostatUpdate_next ;;
  emit (callback None).

Definition setActive (value : JS.value) : M unit :=
  modify (set_Active value) ;;
  doFanUpdate_next ;;
  emit (callback None).

Definition setTargetFanState (value : JS.value) : M unit :=
  modify (set_TargetFanState value) ;;
  doFanUpdate_next ;;
  emit (callback None).

(** The valid values of the target state, from [device.allowedModes]. *)
Definition TargetState (this : TCCthermostat) : list JS.value :=
  let TargetState := [lit 4] in
  let TargetState := JS.pop TargetState in
  let TargetState :=
    if JS.includes (allowedModes (device this)) "Cool"
    then JS.push TargetState TargetHeatingCoolingState.COOL else TargetState in
  let TargetState :=
    if JS.includes (allowedModes (device this)) "Heat"
    then JS.push TargetState TargetHeatingCoolingState.HEAT else TargetState in
  let TargetState :=
    if JS.includes (allowedModes (device this)) "Off"
    then JS.push TargetState TargetHeatingCoolingState.OFF else TargetState in
  let TargetState :=
    if JS.includes (allowedModes (device this)) "Auto"
    then JS.push TargetState TargetHeatingCoolingState.AUTO else TargetState in
  TargetState.

(** *** The scheduled activities the constructor sets up *)

(** The subscriber of the debounced thermostat subject. *)
Definition doThermostatUpdate_flush (net : Network) : M unit :=
  try_catch (pushChanges net) (fun e => apiError e) ;;
  modify (set_thermostatUpdateInProgress false).

(** The subscriber of the debounced fan subject. *)
Definition doFanUpdate_flush (net : Network) : M unit :=
  try_catch (pushFanChanges net) (fun e => apiError e) ;;
  modify (set_fanUpdateInProgress false).

(** A tick of the refresh interval behind
    [skipWhile(() => this.thermostatUpdateInProgress)]. *)
Definition interval_tick (net : Network) : M unit :=
  this <- get_this ;;
  if interval_skipping this && thermostatUpdateInProgress this then ret tt
  else
    modify (set_interval_skipping false) ;;
    refreshStatus net.

(** ** Views of the object *)

(** The field of [this] that mirrors characteristic [k]. *)
Definition field (k : Kind.t) (this : TCCthermostat) : JS.value :=
  match k with
  | Kind.TemperatureDisplayUnits => TemperatureDisplayUnits this
  | Kind.CurrentTemperature => CurrentTemperature this
  | Kind.CurrentRelativeHumidity => CurrentRelativeHumidity this
  | Kind.TargetTemperature => TargetTemperature this
  | Kind.HeatingThresholdTemperature => HeatingThresholdTemperature this
  | Kind.CoolingThresholdTemperature => CoolingThresholdTemperature this
  | Kind.TargetHeatingCoolingState => TargetHeatingCoolingState this
  | Kind.CurrentHeatingCoolingState => CurrentHeatingCoolingState this
  | Kind.TargetFanState => TargetFanState this
  | Kind.Active => Active this
  end.

(** The remote resources and the configuration held by [this]. *)
Definition resources (this : TCCthermostat)
  : Platform * bool * bool * TCCDevice * option FanChangeableValues :=
  (platform this, fanService this, doFanUpdate_subscribed this, device this, deviceFan this).

(** The flags of the scheduled activities. *)
Definition flags (this : TCCthermostat) : bool * bool * bool :=
  (interval_skipping this, thermostatUpdateInProgress this, fanUpdateInProgress this).

(** The characteristics the accessory owns: those of the Thermostat
    service, and those of the Fanv2 service when the device has a fan that
    is not hidden and the service exists. *)
Definition owned (this : TCCthermostat) : list Kind.t :=
  (Kind.thermostat ++ (if fan_enabled this && fanService this then Kind.fan else []))%list.

(** What a failed refresh leaves on the trace after its requests. *)
Definition refresh_failure (e : error) (this : TCCthermostat) : list event :=
  refreshAccessToken :: map (fun k => updateCharacteristic k (Failure e)) (owned this).

(** What a successful refresh leaves on the trace after its requests. *)
Definition refresh_success (this : TCCthermostat) : list event :=
  map (fun k => updateCharacteristic k (Value (field k this))) (owned this).

(** A host "set" handler [h] of characteristic [K], on subject [S]: it
    completes, leaves [value] in the field of [K] and every other
    characteristic field, the resources and the refresh latch as they were,
    and on the outside does nothing but signal [S] and call back with
    [null]. *)
Definition host_set (h : JS.value -> M unit) (K : Kind.t) (S : subject) : Prop :=
  forall (value : JS.value) (this : TCCthermostat),
    let r := h value this in
    result_of r = Normal tt
    /\ (forall k, field k (state_of r) = if Kind.eqb k K then value else field k this)
    /\ resources (state_of r) = resources this
    /\ trace_of r = [next S; callback None]
    /\ existsb is_request (trace_of r) = false.

(** The target states in the order [TargetState] emits them, each with the
    mode name that admits it. *)
Definition emission_order : list (string * JS.value) :=
  [("Cool", TargetHeatingCoolingState.COOL); ("Heat", TargetHeatingCoolingState.HEAT);
   ("Off", TargetHeatingCoolingState.OFF); ("Auto", TargetHeatingCoolingState.AUTO)].

(** ** Sample devices *)

Module Sample.

Definition platform : Platform :=
  {| hide_fan := false; thermostatSetpointStatus := Some "NoHold" |}.

(** A heat/cool unit with a fan, reporting in Fahrenheit. *)
Definition fahrenheit_device : TCCDevice :=
  {| units := "Fahrenheit";
     indoorTemperature := lit 72;
     indoorHumidity := lit 40;
     changeableValues := {| mode := "Heat"; heatSetpoint := lit 70; coolSetpoint := lit 78 |};
     operationStatus_mode := "Heat";
     allowedModes := ["Heat"; "Off"; "Cool"; "Auto"];
     minHeatSetpoint := lit 50;
     minCoolSetpoint := lit 50;
     settings_fan := true |}.

(** A heat-only unit without a fan, reporting in Celsius: its cool
    setpoint is [0] and it has no cool range. *)
Definition celsius_device : TCCDevice :=
  {| units := "Celsius";
     indoorTemperature := lit 21;
     indoorHumidity := lit 45;
     changeableValues := {| mode := "Off"; heatSetpoint := lit 20; coolSetpoint := lit 0 |};
     operationStatus_mode := "Off";
     allowedModes := ["Heat"; "Off"];
     minHeatSetpoint := lit 5;
     minCoolSetpoint := JS.undefined;
     settings_fan := false |}.

Definition fahrenheit_thermostat : TCCthermostat :=
  constructor platform false fahrenheit_device.

Definition celsius_thermostat : TCCthermostat :=
  constructor platform false celsius_device.

(** A unit in heat mode that reports no heat setpoint ([0]), in
    Fahrenheit: without a heat range, and with one. *)
Definition idle_heat_device (minHeat : JS.value) : TCCDevice :=
  {| units := "Fahrenheit";
     indoorTemperature := lit 68;
     indoorHumidity := lit 35;
     changeableValues := {| mode := "Heat"; heatSetpoint := lit 0; coolSetpoint := lit 78 |};
     operationStatus_mode := "Off";
     allowedModes := ["Heat"; "Cool"; "Off"];
     minHeatSetpoint := minHeat;
     minCoolSetpoint := lit 50;
     settings_fan := false |}.

(** A cool-only unit in Celsius: the heat setpoint is absent. *)
Definition cool_only_device : TCCDevice :=
  {| units := "Celsius";
     indoorTemperature := lit 26;
     indoorHumidity := lit 50;
     changeableValues :=
       {| mode := "Cool"; heatSetpoint := JS.undefined; coolSetpoint := lit 24 |};
     operationStatus_mode := "Cool";
     allowedModes := ["Cool"; "Off"];
     minHeatSetpoint := JS.undefined;
     minCoolSetpoint := lit 16;
     settings_fan := false |}.

(** The heat-only unit after the host set the target temperature and the
    cooling threshold. *)
Definition celsius_edited : TCCthermostat :=
  state_of (setTargetTemperature (lit 21)
              (state_of (setCoolingThresholdTemperature (lit 25) celsius_thermostat))).

(** The cool-only unit after the host set the heating threshold. *)
Definition cool_only_edited : TCCthermostat :=
  state_of (setHeatingThresholdTemperature (lit 18)
              (constructor platform false cool_only_device)).

(** The idle units after the host set the target temperature. *)
Definition idle_heat_edited (minHeat : JS.value) : TCCthermostat :=
  state_of (setTargetTemperature (lit 21)
              (constructor platform false (idle_heat_device minHeat))).

(** The Fahrenheit unit after the host raised the heating threshold. *)
Definition fahrenheit_edited : TCCthermostat :=
  state_of (setHeatingThresholdTemperature (lit 22) fahrenheit_thermostat).

Definition transport_error : error := {| message := "Request failed" |}.

(** Every request answered: the device as before, the fan circulating. *)
Definition online : Network :=
  {| get_thermostat := inr fahrenheit_device;
     get_fan := inr {| fan_mode := "Circulate" |};
     post_thermostat := inr tt;
     post_fan := inr tt |}.

(** The API rejects the writes. *)
Definition writes_rejected : Network :=
  {| get_thermostat := inr fahrenheit_device;
     get_fan := inr {| fan_mode := "Circulate" |};
     post_thermostat := inl transport_error;
     post_fan := inl transport_error |}.

(** The API rejects every request. *)
Definition offline : Network :=
  {| get_thermostat := inl transport_error;
     get_fan := inl transport_error;
     post_thermostat := inl transport_error;
     post_fan := inl transport_error |}.

(** The fan sub-resource cannot be fetched. *)
Definition fan_unreachable : Network :=
  {| get_thermostat := inr fahrenheit_device;
     get_fan := inl transport_error;
     post_thermostat := inr tt;
     post_fan := inr tt |}.

(** An accessory built for a device without a fan, hence without a Fanv2
    service, after a refresh that found a device with a fan. *)
Definition fan_found_later : TCCthermostat :=
  state_of (refreshStatus online celsius_thermostat).

End Sample.

(** ** The outcome of a refresh *)

(** Whether a request of the refresh path is rejected: the fetch of the
    device or, with the fan of the fetched device enabled, the fetch of the
    fan resource. *)
Definition refresh_fails (net : Network) (this : TCCthermostat) : bool :=
  match get_thermostat net with
  | inl _ => true
  | inr d =>
      fan_enabled (set_device d this)
      && match get_fan net with
         | inl _ => true
         | inr _ => false
         end
  end.

(** ** Shapes of statements on the "set" handlers *)

(** A handler that raises the thermostat in-progress flag and leaves the
    other flags; a tick of the interval on the state it leaves is skipped
    when the latch is still set. *)
Definition raises_thermostat_flag (h : JS.value -> M unit) : Prop :=
  forall (net : Network) (this : TCCthermostat) (value : JS.value),
    flags (state_of (h value this))
    = (interval_skipping this, true, fanUpdateInProgress this)
    /\ (if interval_skipping this
        then interval_tick net (state_of (h value this))
             = (Normal tt, state_of (h value this), [])
        else True).

(** A handler that raises the fan in-progress flag when the fan pipeline is
    subscribed, and leaves the other flags. *)
Definition raises_fan_flag (h : JS.value -> M unit) : Prop :=
  forall (this : TCCthermostat) (value : JS.value),
    flags (state_of (h value this))
    = (interval_skipping this, thermostatUpdateInProgress this,
       doFanUpdate_subscribed this || fanUpdateInProgress this).

(** A handler whose second call makes the first one forgotten. *)
Definition last_call_wins (h : JS.value -> M unit) : Prop :=
  forall (this : TCCthermostat) (first second : JS.value),
    state_of (h second (state_of (h first this))) = state_of (h second this).

(** ** The display-unit handler *)

(** A task handed to [setTimeout], with its delay in milliseconds. *)
Record Timer : Type := {
  delay : Z;
  task : M unit
}.

(** Changing the hardware display units from HomeKit is not supported: the
    handler schedules the republication of the unit the API reported, and
    calls back.  The scheduled task reads [this] when it fires. *)
Definition setTemperatureDisplayUnits (value : JS.value) : M Timer :=
  (* change the temp units back to the one the API said the thermostat was set to *)
  let timer :=
    {| delay := 100;
       task :=
         this <- get_this ;;
         emit (updateCharacteristic Kind.TemperatureDisplayUnits
                 (Value (TemperatureDisplayUnits this))) |} in
  emit (callback None) ;;
  ret timer.

(** ** The base class of the devices: logging and refresh rate *)

Module DeviceBase.

(** [s.includes(sub)] on strings. *)
Fixpoint includes (s sub : string) {struct s} : bool :=
  prefix sub s
  || match s with
     | EmptyString => false
     | String _ rest => includes rest sub
     end.

(** An optional string when it is truthy: absent and empty are falsy. *)
Definition truthy (o : option string) : option string :=
  match o with
  | Some s => if s =? "" then None else Some s
  | None => None
  end.

(** [String(...log)]: the conversion of the first argument, the empty
    string without arguments; the other arguments are dropped. *)
Definition String_of (log : list string) : string :=
  match log with
  | [] => ""
  | first :: _ => first
  end.

(** The device entry of the configuration. *)
Record DevicesConfig : Type := {
  device_logging : option string;
  device_refreshRate : JS.value
}.

(** [platform.config.options], when the configuration has one. *)
Module Options.
Record t : Type := {
  logging : option string;
  refreshRate : JS.value
}.
End Options.

(** [platform.debugMode] and [platform.config.options], which may be
    absent. *)
Record PlatformConfig : Type := {
  debugMode : bool;
  options : option Options.t
}.

(** [platform.config.options?.logging] *)
Definition options_logging (platform : PlatformConfig) : option string :=
  match options platform with
  | Some o => Options.logging o
  | None => None
  end.

(** The one argument of [debugWarnLog]: an object that may have a [log]
    member. *)
Record WarnArgument : Type := {
  log : option (list string)
}.

(** A call of a method of [platform.log] with its arguments. *)
Inductive log_call : Type :=
| log_info (args : list string)
| log_warn (args : list string)
| log_error (args : list string)
| log_debug (args : list string).

(** The fields of the object: the class name and the display name that
    prefix the messages, the platform, the two settings and their copies in
    [accessory.context].  [deviceLogging] is unset until [logs] runs. *)
Record t : Type := {
  constructor_name : string;
  displayName : string;
  platform : PlatformConfig;
  deviceLogging : option string;
  deviceRefreshRate : JS.value;
  context_logging : option string;
  context_refreshRate : JS.value
}.

(** [this.deviceLogging = this.accessory.context.logging = level] *)
Definition set_logging (level : string) (this : t) : t :=
  {| constructor_name := constructor_name this;
     displayName := displayName this;
     platform := platform this;
     deviceLogging := Some level;
     deviceRefreshRate := deviceRefreshRate this;
     context_logging := Some level;
     context_refreshRate := context_refreshRate this |}.

(** [this.deviceRefreshRate = this.accessory.context.refreshRate = rate] *)
Definition set_refreshRate (rate : JS.value) (this : t) : t :=
  {| constructor_name := constructor_name this;
     displayName := displayName this;
     platform := platform this;
     deviceLogging := deviceLogging this;
     deviceRefreshRate := rate;
     context_logging := context_logging this;
     context_refreshRate := rate |}.

(** The methods below return [None] for the TypeError of reading
    [includes] on an unset [deviceLogging]. *)
Definition enablingDeviceLogging (this : t) : option bool :=
  match deviceLogging this with
  | Some level => Some (includes level "debug" || (level =? "standard"))
  | None => None
  end.

Definition infoLog (this : t) (log : list string) : option (list log_call) :=
  match enablingDeviceLogging this with
  | Some true => Some [log_info [String_of log]]
  | Some false => Some []
  | None => None
  end.

Definition warnLog (this : t) (log : list string) : option (list log_call) :=
  match enablingDeviceLogging this with
  | Some true => Some [log_warn [String_of log]]
  | Some false => Some []
  | None => None
  end.

Definition errorLog (this : t) (log : list string) : option (list log_call) :=
  match enablingDeviceLogging this with
  | Some true => Some [log_error [String_of log]]
  | Some false => Some []
  | None => None
  end.

(** [this.deviceLogging?.includes('debug')] *)
Definition logging_includes_debug (this : t) : bool :=
  match deviceLogging this with
  | Some level => includes level "debug"
  | None => false
  end.

(** The parameter [{ log = [] }: { log?: any[] } = {}]: the [log] member of
    the argument, the empty array when the call has no argument or the
    argument has no such member. *)
Definition log_of (argument : option WarnArgument) : list string :=
  match argument with
  | Some {| log := Some l |} => l
  | Some {| log := None |} | None => []
  end.

(** Unlike its siblings, [debugWarnLog] takes one object, and logs the
    [log] member of it. *)
Definition debugWarnLog (this : t) (argument : option WarnArgument)
  : option (list log_call) :=
  let log := log_of argument in
  match enablingDeviceLogging this with
  | Some true =>
      if logging_includes_debug this
      then Some [log_warn ["[DEBUG]"; String_of log]] else Some []
  | Some false => Some []
  | None => None
  end.

Definition debugErrorLog (this : t) (log : list string) : option (list log_call) :=
  match enablingDeviceLogging this with
  | Some true =>
      if logging_includes_debug this
      then Some [log_error ["[DEBUG]"; String_of log]] else Some []
  | Some false => Some []
  | None => None
  end.

(** [this.deviceLogging === 'debug'] *)
Definition logging_is_debug (this : t) : bool :=
  match deviceLogging this with
  | Some level => level =? "debug"
  | None => false
  end.

Definition debugLog (this : t) (log : list string) : option (list log_call) :=
  match enablingDeviceLogging this with
  | Some true =>
      if logging_is_debug this
      then Some [log_info ["[DEBUG]"; String_of log]]
      else Some [log_debug [String_of log]]
  | Some false => Some []
  | None => None
  end.

(** The object after a setter, with what the [debugLog] that follows it
    logs. *)
Definition then_debugLog (this : t) (message : string) : option (t * list log_call) :=
  match debugLog this [message] with
  | Some calls => Some (this, calls)
  | None => None
  end.

(** The head of every message: the class name and the display name. *)
Definition heading (this : t) : string :=
  constructor_name this ++ ": " ++ displayName this.

Definition logs (device : DevicesConfig) (this : t) : option (t * list log_call) :=
  if debugMode (platform this) then
    then_debugLog (set_logging "debugMode" this)
      (heading this ++ " Using Debug Mode Logging: " ++ "debugMode")
  else
    match truthy (device_logging device) with
    | Some level =>
        then_debugLog (set_logging level this)
          (heading this ++ " Using Device Config Logging: " ++ level)
    | None =>
        match truthy (options_logging (platform this)) with
        | Some level =>
            then_debugLog (set_logging level this)
              (heading this ++ " Using Platform Config Logging: " ++ level)
        | None =>
            then_debugLog (set_logging "standard" this)
              (heading this ++ " Logging Not Set, Using: " ++ "standard")
        end
    end.

Section RefreshRate.

(** The conversion of a number to a string in a template literal. *)
Variable show : JS.value -> string.

(** [None] is also the TypeError of [this.platform.config.options!.refreshRate]
    on a configuration without options: the [!] asserts, it does not
    guard. *)
Definition refreshRate (device : DevicesConfig) (this : t) : option (t * list log_call) :=
  if JS.ToBoolean (device_refreshRate device) then
    then_debugLog (set_refreshRate (device_refreshRate device) this)
      (heading this ++ " Using Device Config refreshRate: "
       ++ show (device_refreshRate device))
  else
    match options (platform this) with
    | Some o =>
        if JS.ToBoolean (Options.refreshRate o) then
          then_debugLog (set_refreshRate (Options.refreshRate o) this)
            (heading this ++ " Using Platform Config refreshRate: "
             ++ show (Options.refreshRate o))
        else Some (this, [])
    | None => None
    end.

(** The settings part of the constructor: [this.logs(device)], then
    [this.refreshRate(device)].  The accessory information that the
    constructor writes afterwards is left out. *)
Definition constructor (device : DevicesConfig) (this : t) : option (t * list log_call) :=
  match logs device this with
  | Some (this, first) =>
      match refreshRate device this with
      | Some (this, second) => Some (this, (first ++ second)%list)
      | None => None
      end
  | None => None
  end.

End RefreshRate.

(** The level that [logs] chooses. *)
Definition chosen_level (device : DevicesConfig) (this : t) : string :=
  if debugMode (platform this) then "debugMode"
  else match truthy (device_logging device) with
       | Some level => level
       | None => match truthy (options_logging (platform this)) with
                 | Some level => level
                 | None => "standard"
                 end
       end.

(** The six log functions, the five with an argument list on [log] and
    [debugWarnLog] on [argument]. *)
Definition log_functions (this : t) (log : list string) (argument : option WarnArgument)
  : list (option (list log_call)) :=
  [infoLog this log; warnLog this log; errorLog this log;
   debugWarnLog this argument; debugErrorLog this log; debugLog this log].

(** The rate that [refreshRate] settles on, if any. *)
Definition chosen_rate (device : DevicesConfig) (this : t) : option JS.value :=
  if JS.ToBoolean (device_refreshRate device) then Some (device_refreshRate device)
  else
    match options (platform this) with
    | Some o => if JS.ToBoolean (Options.refreshRate o) then Some (Options.refreshRate o)
                else None
    | None => None
    end.

(** Whether [refreshRate] reads a member of an absent options object. *)
Definition reads_absent_options (device : DevicesConfig) (this : t) : bool :=
  negb (JS.ToBoolean (device_refreshRate device))
  && match options (platform this) with
     | Some _ => false
     | None => true
     end.

End DeviceBase.

(** * Properties *)

(** ** Rationals in lowest terms, read as fractions *)

Section Fractions.

Lemma Qc_eq_bool_true_iff (p q : Qc) : Qc_eq_bool p q = true <-> p = q.
Proof.
  unfold Qc_eq_bool. destruct (Qc_eq_dec p q); split; congruence.
Qed.

Lemma Qc_eq_bool_refl (p : Qc) : Qc_eq_bool p p = true.
Proof. now apply Qc_eq_bool_true_iff. Qed.

Lemma this_Q2Qc (q : Q) : (this (Q2Qc q) == q)%Q.
Proof. apply Qred_correct. Qed.

Lemma this_plus (a b : Qc) : (this (a + b)%Qc == this a + this b)%Q.
Proof. apply this_Q2Qc. Qed.

Lemma this_mult (a b : Qc) : (this (a * b)%Qc == this a * this b)%Q.
Proof. apply this_Q2Qc. Qed.

Lemma this_opp (a : Qc) : (this (- a)%Qc == - this a)%Q.
Proof. apply this_Q2Qc. Qed.

Lemma this_minus (a b : Qc) : (this (a - b)%Qc == this a - this b)%Q.
Proof. unfold Qcminus. rewrite this_plus, this_opp. reflexivity. Qed.

(** Division by a positive integer literal. *)
Lemma this_div_pos (a : Qc) (p : positive) :
  (this (a / JS.num (Zpos p))%Qc == this a * (1 # p))%Q.
Proof.
  unfold Qcdiv, Qcinv, JS.num. rewrite this_mult, !this_Q2Qc. reflexivity.
Qed.

Lemma this_num (z : Z) : (this (JS.num z) == inject_Z z)%Q.
Proof. apply this_Q2Qc. Qed.

End Fractions.

Ltac to_Q :=
  repeat first
    [ rewrite this_div_pos | rewrite this_plus | rewrite this_minus
    | rewrite this_mult | rewrite this_opp | rewrite this_num | rewrite this_Q2Qc ].

Ltac fraction_eq :=
  unfold Qeq, Qminus, Qmult, Qplus, Qopp, inject_Z; cbn [Qnum Qden];
  rewrite ?Pos2Z.inj_mul; ring.

(** ** [Math.round] *)

Section Rounding.

(** Rounding a fraction is an integer division. *)
Lemma round_fraction (q : Qc) (n : Z) (d : positive) :
  (this q == n # d)%Q -> JS.round q = ((2 * n + Zpos d) / (2 * Zpos d))%Z.
Proof.
  intros H. unfold JS.round. to_Q. rewrite H.
  assert (E : ((n # d) + (1 # 2) == (2 * n + Zpos d) # (2 * d))%Q) by fraction_eq.
  rewrite E. reflexivity.
Qed.

End Rounding.

(** ** Unit conversion *)


Section Conversion.

Variable this : TCCthermostat.
Hypothesis not_celsius :
  (TemperatureDisplayUnits this === TemperatureDisplayUnits.CELSIUS)%js = false.

(** The conversions on a number, when the unit is not Celsius. *)
Lemma toCelsius_Num (q : Qc) :
  toCelsius this (JS.Num q)
  = JS.Num (JS.num (JS.round ((JS.num 5 / JS.num 9) * (q - JS.num 32) * JS.num 2))
            / JS.num 2)%Qc.
Proof.
  unfold toCelsius. rewrite not_celsius. reflexivity.
Qed.

Lemma toFahrenheit_Num (q : Qc) :
  toFahrenheit this (JS.Num q)
  = JS.Num (JS.num (JS.round (q * JS.num 9 / JS.num 5 + JS.num 32)%Qc)).
Proof.
  unfold toFahrenheit. rewrite not_celsius. reflexivity.
Qed.

End Conversion.

(** ** The exact conversions as integer divisions *)

Section RoundTrip.

Variable this : TCCthermostat.
Hypothesis not_celsius :
  (TemperatureDisplayUnits this === TemperatureDisplayUnits.CELSIUS)%js = false.

(** [toCelsius] as an integer division on the numerator and denominator
    of its argument; the result counts half degrees. *)
Lemma toCelsius_fraction (q : Qc) (n : Z) (d : positive) :
  (Qcanon.this q == n # d)%Q ->
  toCelsius this (JS.Num q)
  = JS.Num (JS.num ((2 * (10 * (n - 32 * Zpos d)) + 9 * Zpos d) / (2 * (9 * Zpos d)))
            / JS.num 2)%Qc.
Proof.
  intros H. rewrite (toCelsius_Num this not_celsius).
  rewrite (round_fraction _ (10 * (n - 32 * Zpos d)) (9 * d)); [reflexivity|].
  to_Q. rewrite H. fraction_eq.
Qed.

(** [toFahrenheit], likewise; the result counts whole degrees. *)
Lemma toFahrenheit_fraction (q : Qc) (n : Z) (d : positive) :
  (Qcanon.this q == n # d)%Q ->
  toFahrenheit this (JS.Num q)
  = JS.Num (JS.num ((2 * (9 * n + 160 * Zpos d) + 5 * Zpos d) / (2 * (5 * Zpos d)))).
Proof.
  intros H. rewrite (toFahrenheit_Num this not_celsius).
  rewrite (round_fraction _ (9 * n + 160 * Zpos d) (5 * d)); [reflexivity|].
  to_Q. rewrite H. fraction_eq.
Qed.

End RoundTrip.

(** ** The conversions in double precision *)

Lemma for_each_spec (n : nat) (lo : Z) (p : Z -> bool) :
  for_each n lo p = true ->
  forall k, (lo <= k < lo + Z.of_nat n)%Z -> p k = true.
Proof.
  revert lo. induction n as [|n IH]; intros lo H k Hk; [lia|].
  cbn [for_each] in H. apply andb_prop in H. destruct H as [H0 H].
  destruct (Z.eq_dec k lo) as [->|Hne]; [exact H0|].
  apply (IH (lo + 1)%Z H). lia.
Qed.

Lemma for_range_spec (lo hi : Z) (p : Z -> bool) :
  for_range lo hi p = true -> forall k, (lo <= k <= hi)%Z -> p k = true.
Proof.
  intros H k Hk. apply (for_each_spec _ _ _ H). lia.
Qed.

Lemma quantized_bool_spec (step bound target : Q) (r : Double.number) :
  Double.quantized_bool step bound target r = true ->
  Double.quantized step bound target r.
Proof.
  unfold Double.quantized_bool, Double.quantized.
  destruct (Double.to_Q r) as [q|]; [|discriminate].
  intros H. apply andb_prop in H. destruct H as [H1 H2].
  exists q, (Qfloor (q / step)). split; [reflexivity|]. split.
  - apply Qeq_bool_iff, H1.
  - apply Qle_bool_iff, H2.
Qed.

Lemma close_bool_spec (bound : Q) (a b : Double.number) :
  Double.close_bool bound a b = true -> Double.close bound a b.
Proof.
  unfold Double.close_bool, Double.close.
  destruct (Double.to_Q a) as [p|]; [|discriminate].
  destruct (Double.to_Q b) as [q|]; [|discriminate].
  intros H. exists p, q. split; [reflexivity|]. split; [reflexivity|].
  apply Qle_bool_iff, H.
Qed.

Lemma close_bool_complete (bound : Q) (a b : Double.number) :
  Double.close bound a b -> Double.close_bool bound a b = true.
Proof.
  unfold Double.close_bool. intros (p & q & -> & -> & H).
  apply Qle_bool_iff, H.
Qed.

Lemma quantized_bool_complete_bound (step bound target : Q) (r : Double.number) :
  Double.quantized step bound target r ->
  match Double.to_Q r with
  | Some q => Qle_bool (Qabs (q - target)) bound = true
  | None => False
  end.
Proof.
  intros (q & n & -> & _ & H). apply Qle_bool_iff, H.
Qed.

Section DoubleConversion.

Import PrimFloat.

Variable this : TCCthermostat.
Hypothesis not_celsius :
  (TemperatureDisplayUnits this === TemperatureDisplayUnits.CELSIUS)%js = false.

Lemma Double_toCelsius_run (value : Double.number) :
  Double.toCelsius this value
  = (Double.Math_round ((5 / 9) * (value - 32) * 2) / 2)%float.
Proof. unfold Double.toCelsius. rewrite not_celsius. reflexivity. Qed.

Lemma Double_toFahrenheit_run (value : Double.number) :
  Double.toFahrenheit this value = Double.Math_round ((value * 9) / 5 + 32)%float.
Proof. unfold Double.toFahrenheit. rewrite not_celsius. reflexivity. Qed.

(** Readings with one decimal for_range -40 and 130 degrees Fahrenheit. *)
Lemma Double_toCelsius_tenths (k : Z) :
  (-400 <= k <= 1300)%Z ->
  exists F : Q,
    Double.to_Q (Double.tenth k) = Some F
    /\ Double.quantized (1 # 2) (1 # 4) ((5 # 9) * (F - 32))
         (Double.toCelsius this (Double.tenth k)).
Proof.
  intros Hk. rewrite Double_toCelsius_run.
  pose (p := fun k =>
          match Double.to_Q (Double.tenth k) with
          | Some F =>
              Double.quantized_bool (1 # 2) (1 # 4) ((5 # 9) * (F - 32))
                (Double.Math_round ((5 / 9) * (Double.tenth k - 32) * 2) / 2)%float
          | None => false
          end).
  assert (H : for_range (-400) 1300 p = true) by (vm_compute; reflexivity).
  pose proof (for_range_spec _ _ _ H k Hk) as Hp. unfold p in Hp. clear H p.
  destruct (Double.to_Q (Double.tenth k)) as [F|]; [|discriminate].
  exists F. split; [reflexivity|]. apply quantized_bool_spec, Hp.
Qed.

(** Temperatures with one decimal for_range -40 and 55 degrees Celsius. *)
Lemma Double_toFahrenheit_tenths (k : Z) :
  (-400 <= k <= 550)%Z ->
  exists C : Q,
    Double.to_Q (Double.tenth k) = Some C
    /\ Double.quantized 1 (1 # 2) (C * (9 # 5) + 32)
         (Double.toFahrenheit this (Double.tenth k)).
Proof.
  intros Hk. rewrite Double_toFahrenheit_run.
  pose (p := fun k =>
          match Double.to_Q (Double.tenth k) with
          | Some C =>
              Double.quantized_bool 1 (1 # 2) (C * (9 # 5) + 32)
                (Double.Math_round ((Double.tenth k * 9) / 5 + 32))%float
          | None => false
          end).
  assert (H : for_range (-400) 550 p = true) by (vm_compute; reflexivity).
  pose proof (for_range_spec _ _ _ H k Hk) as Hp. unfold p in Hp. clear H p.
  destruct (Double.to_Q (Double.tenth k)) as [C|]; [|discriminate].
  exists C. split; [reflexivity|]. apply quantized_bool_spec, Hp.
Qed.

End DoubleConversion.

Section DoubleAgreement.

Import PrimFloat.

Variable this : TCCthermostat.
Hypothesis not_celsius :
  (TemperatureDisplayUnits this === TemperatureDisplayUnits.CELSIUS)%js = false.

(** On readings with one decimal the exact conversions and the conversions
    in double precision return the same numbers: a count of half degrees
    and a count of whole degrees, each an integer division. *)
Lemma toCelsius_agrees_on_tenths (k : Z) :
  (-400 <= k <= 1300)%Z ->
  let n := ((20 * k - 6310) / 180)%Z in
  toCelsius this (JS.Num (Q2Qc (k # 10))) = JS.Num (JS.num n / JS.num 2)%Qc
  /\ Double.strict_eq (Double.toCelsius this (Double.tenth k)) (Double.half n) = true.
Proof.
  intros Hk n. split.
  - rewrite (toCelsius_fraction this not_celsius _ k 10) by apply this_Q2Qc.
    subst n. replace (20 * k - 6310)%Z with (2 * (10 * (k - 32 * 10)) + 9 * 10)%Z by lia.
    reflexivity.
  - rewrite (Double_toCelsius_run this not_celsius).
    apply (for_range_spec (-400) 1300
             (fun k => Double.strict_eq
                         (Double.Math_round ((5 / 9) * (Double.tenth k - 32) * 2) / 2)%float
                         (Double.half ((20 * k - 6310) / 180)))); [|exact Hk].
    vm_compute. reflexivity.
Qed.

Lemma toFahrenheit_agrees_on_tenths (k : Z) :
  (-400 <= k <= 550)%Z ->
  let n := ((18 * k + 3250) / 100)%Z in
  toFahrenheit this (JS.Num (Q2Qc (k # 10))) = lit n
  /\ Double.strict_eq (Double.toFahrenheit this (Double.tenth k)) (Double.of_Z n) = true.
Proof.
  intros Hk n. split.
  - rewrite (toFahrenheit_fraction this not_celsius _ k 10) by apply this_Q2Qc.
    subst n. replace (18 * k + 3250)%Z with (2 * (9 * k + 160 * 10) + 5 * 10)%Z by lia.
    reflexivity.
  - rewrite (Double_toFahrenheit_run this not_celsius).
    apply (for_range_spec (-400) 550
             (fun k => Double.strict_eq
                         (Double.Math_round ((Double.tenth k * 9) / 5 + 32))%float
                         (Double.of_Z ((18 * k + 3250) / 100)))); [|exact Hk].
    vm_compute. reflexivity.
Qed.

(** A whole number of Fahrenheit degrees comes back from Celsius as it
    was, up to 1000 degrees. *)
Lemma Double_whole_fahrenheit_back (f : Z) :
  (-1000 <= f <= 1000)%Z ->
  Double.strict_eq
    (Double.toFahrenheit this (Double.toCelsius this (Double.of_Z f))) (Double.of_Z f)
  = true.
Proof.
  intros Hf.
  rewrite (Double_toCelsius_run this not_celsius),
    (Double_toFahrenheit_run this not_celsius).
  apply (for_range_spec (-1000) 1000
           (fun f => Double.strict_eq
                       (Double.Math_round
                          ((Double.Math_round ((5 / 9) * (Double.of_Z f - 32) * 2) / 2 * 9)
                           / 5 + 32))%float
                       (Double.of_Z f))); [|exact Hf].
  vm_compute. reflexivity.
Qed.

(** The round trip from a half degree. *)
Lemma Double_half_degree_roundtrip (n : Z) :
  (-2000 <= n <= 2000)%Z ->
  Double.close (1 # 2)
    (Double.toCelsius this (Double.toFahrenheit this (Double.half n))) (Double.half n).
Proof.
  intros Hn.
  rewrite (Double_toCelsius_run this not_celsius),
    (Double_toFahrenheit_run this not_celsius).
  apply close_bool_spec.
  apply (for_range_spec (-2000) 2000
           (fun n => Double.close_bool (1 # 2)
                       (Double.Math_round
                          ((5 / 9)
                           * (Double.Math_round ((Double.half n * 9) / 5 + 32) - 32) * 2)
                        / 2)%float
                       (Double.half n))); [|exact Hn].
  vm_compute. reflexivity.
Qed.

Lemma Double_tenths_roundtrip (k : Z) :
  (-400 <= k <= 1300)%Z ->
  Double.close (1 # 2)
    (Double.toCelsius this
       (Double.toFahrenheit this (Double.toCelsius this (Double.tenth k))))
    (Double.toCelsius this (Double.tenth k)).
Proof.
  intros Hk.
  rewrite !(Double_toCelsius_run this not_celsius),
    (Double_toFahrenheit_run this not_celsius).
  apply close_bool_spec.
  apply (for_range_spec (-400) 1300
           (fun k =>
              let c := (Double.Math_round ((5 / 9) * (Double.tenth k - 32) * 2) / 2)%float in
              Double.close_bool (1 # 2)
                (Double.Math_round
                   ((5 / 9) * (Double.Math_round ((c * 9) / 5 + 32) - 32) * 2) / 2)%float
                c)); [|exact Hk].
  vm_compute. reflexivity.
Qed.

End DoubleAgreement.

(** The round trip of a whole Fahrenheit degree, in either display unit. *)
Lemma Double_whole_degree_back (this : TCCthermostat) (f : Z) :
  (-1000 <= f <= 1000)%Z ->
  Double.strict_eq
    (Double.toFahrenheit this (Double.toCelsius this (Double.of_Z f))) (Double.of_Z f)
  = true.
Proof.
  intros Hf.
  destruct (TemperatureDisplayUnits this === TemperatureDisplayUnits.CELSIUS)%js eqn:Hunit.
  - unfold Double.toFahrenheit, Double.toCelsius. rewrite Hunit.
    apply (for_range_spec (-1000) 1000
             (fun f => Double.strict_eq (Double.of_Z f) (Double.of_Z f))); [|exact Hf].
    vm_compute. reflexivity.
  - apply (Double_whole_fahrenheit_back this Hunit f Hf).
Qed.

Section DoubleClaims.

Import PrimFloat.

(** C4, as the code has it.  [toCelsius] and [toFahrenheit] return their
    argument when the display unit is Celsius.  Otherwise [toCelsius] is
    [Math.round((5 / 9) * (value - 32) * 2) / 2] and [toFahrenheit] is
    [Math.round((value * 9) / 5 + 32)], every operation in double precision.
    On a reading with one decimal between -40 and 130 degrees Fahrenheit
    the first is the half degree nearest to the exact conversion, and on a
    temperature with one decimal between -40 and 55 degrees Celsius the
    second is the whole degree nearest to the exact conversion; on these
    the conversions in exact arithmetic, which compute the fields of the
    object, return the same numbers.  Then 32 converts to 0, 212 to 100,
    and 0 converts back to 32. *)
Theorem conversions_in_double_precision (this : TCCthermostat) :
  ((TemperatureDisplayUnits this === TemperatureDisplayUnits.CELSIUS)%js = true ->
   forall value,
     Double.toCelsius this value = value /\ Double.toFahrenheit this value = value)
  /\
  ((TemperatureDisplayUnits this === TemperatureDisplayUnits.CELSIUS)%js = false ->
   (forall value,
      Double.toCelsius this value
      = (Double.Math_round ((5 / 9) * (value - 32) * 2) / 2)%float
      /\ Double.toFahrenheit this value
         = Double.Math_round ((value * 9) / 5 + 32)%float)
   /\ (forall k, (-400 <= k <= 1300)%Z ->
         exists F : Q,
           Double.to_Q (Double.tenth k) = Some F
           /\ Double.quantized (1 # 2) (1 # 4) ((5 # 9) * (F - 32))
                (Double.toCelsius this (Double.tenth k)))
   /\ (forall k, (-400 <= k <= 550)%Z ->
         exists C : Q,
           Double.to_Q (Double.tenth k) = Some C
           /\ Double.quantized 1 (1 # 2) (C * (9 # 5) + 32)
                (Double.toFahrenheit this (Double.tenth k)))
   /\ (forall k, (-400 <= k <= 1300)%Z ->
         exists n : Z,
           toCelsius this (JS.Num (Q2Qc (k # 10))) = JS.Num (JS.num n / JS.num 2)%Qc
           /\ Double.strict_eq (Double.toCelsius this (Double.tenth k)) (Double.half n)
              = true)
   /\ (forall k, (-400 <= k <= 550)%Z ->
         exists n : Z,
           toFahrenheit this (JS.Num (Q2Qc (k # 10))) = lit n
           /\ Double.strict_eq (Double.toFahrenheit this (Double.tenth k)) (Double.of_Z n)
              = true)
   /\ Double.toCelsius this 32%float = 0%float
   /\ Double.toCelsius this 212%float = 100%float
   /\ Double.toFahrenheit this 0%float = 32%float).
Proof.
  split; intros Hunit.
  - intros value. unfold Double.toCelsius, Double.toFahrenheit. rewrite Hunit.
    split; reflexivity.
  - split; [|split; [|split; [|split; [|split; [|split; [|split]]]]]].
    + intros value. split;
        [apply Double_toCelsius_run | apply Double_toFahrenheit_run]; exact Hunit.
    + intros k Hk. apply Double_toCelsius_tenths; assumption.
    + intros k Hk. apply Double_toFahrenheit_tenths; assumption.
    + intros k Hk. eexists. apply (toCelsius_agrees_on_tenths this Hunit k Hk).
    + intros k Hk. eexists. apply (toFahrenheit_agrees_on_tenths this Hunit k Hk).
    + rewrite (Double_toCelsius_run this Hunit). vm_compute. reflexivity.
    + rewrite (Double_toCelsius_run this Hunit). vm_compute. reflexivity.
    + rewrite (Double_toFahrenheit_run this Hunit). vm_compute. reflexivity.
Qed.

Lemma conversions_in_double_precision_witness :
  (Double.toCelsius Sample.celsius_thermostat 21%float = 21%float
   /\ Double.toFahrenheit Sample.celsius_thermostat 21%float = 21%float)
  /\ Double.toCelsius Sample.fahrenheit_thermostat 212%float = 100%float.
Proof.
  split.
  - apply (proj1 (conversions_in_double_precision Sample.celsius_thermostat)).
    reflexivity.
  - apply (proj2 (conversions_in_double_precision Sample.fahrenheit_thermostat)).
    reflexivity.
Defined.

(** C4 fails where it says "for every input value": at 12.65 degrees
    Fahrenheit, the double nearest to it, the code returns -11, which is
    further than a quarter of a degree from the exact conversion, while
    -10.5 is nearer. *)
Lemma toCelsius_nearest_half_degree_counterexample :
  exists F : Q,
    Double.to_Q (1265 / 100)%float = Some F
    /\ Double.toCelsius Sample.fahrenheit_thermostat (1265 / 100)%float = (-11)%float
    /\ ~ Double.quantized (1 # 2) (1 # 4) ((5 # 9) * (F - 32))
           (Double.toCelsius Sample.fahrenheit_thermostat (1265 / 100)%float)
    /\ Qabs (- (21 # 2) - (5 # 9) * (F - 32)) < 1 # 4.
Proof.
  exists (7121316910779597 # 562949953421312).
  split; [vm_compute; reflexivity|]. split; [vm_compute; reflexivity|]. split.
  - intros H. apply quantized_bool_complete_bound in H. vm_compute in H.
    discriminate H.
  - vm_compute. reflexivity.
Qed.

(** C5, as the code has it.  With a display unit that is not Celsius,
    converting a Fahrenheit reading to Celsius, that to Fahrenheit and back
    to Celsius gives a value within half a degree of the first conversion,
    whenever the first conversion is a half degree between -1000 and 1000
    or the negative zero; readings with one decimal between -40 and 130
    degrees are among them. *)
Theorem roundtrip_in_double_precision (this : TCCthermostat) :
  (TemperatureDisplayUnits this === TemperatureDisplayUnits.CELSIUS)%js = false ->
  let normalized := Double.toCelsius this in
  let again v := Double.toCelsius this (Double.toFahrenheit this (normalized v)) in
  (forall v n,
     (-2000 <= n <= 2000)%Z -> normalized v = Double.half n ->
     Double.close (1 # 2) (again v) (normalized v))
  /\ (forall v,
        normalized v = neg_zero -> Double.close (1 # 2) (again v) (normalized v))
  /\ (forall k,
        (-400 <= k <= 1300)%Z ->
        Double.close (1 # 2) (again (Double.tenth k)) (normalized (Double.tenth k))).
Proof.
  intros Hunit normalized again. subst normalized again. cbv beta.
  split; [|split].
  - intros v n Hn ->. apply (Double_half_degree_roundtrip this Hunit n Hn).
  - intros v ->. rewrite (Double_toCelsius_run this Hunit),
      (Double_toFahrenheit_run this Hunit).
    apply close_bool_spec. vm_compute. reflexivity.
  - intros k Hk. apply (Double_tenths_roundtrip this Hunit k Hk).
Qed.

Lemma roundtrip_in_double_precision_witness :
  Double.close (1 # 2)
    (Double.toCelsius Sample.fahrenheit_thermostat
       (Double.toFahrenheit Sample.fahrenheit_thermostat
          (Double.toCelsius Sample.fahrenheit_thermostat (Double.tenth 721))))
    (Double.toCelsius Sample.fahrenheit_thermostat (Double.tenth 721)).
Proof.
  apply (roundtrip_in_double_precision Sample.fahrenheit_thermostat).
  - reflexivity.
  - lia.
Defined.

(** C5 fails where it says "for every Fahrenheit input": near 3.7e15 the
    doubles are half a degree apart, and the round trip of
    3707226773486726 comes back a whole degree away. *)
Lemma roundtrip_in_double_precision_counterexample :
  Double.toCelsius Sample.fahrenheit_thermostat 3707226773486726%float
  = 2059570429714830%float
  /\ Double.toCelsius Sample.fahrenheit_thermostat
       (Double.toFahrenheit Sample.fahrenheit_thermostat
          (Double.toCelsius Sample.fahrenheit_thermostat 3707226773486726%float))
     = 2059570429714831%float
  /\ ~ Double.close (1 # 2)
         (Double.toCelsius Sample.fahrenheit_thermostat
            (Double.toFahrenheit Sample.fahrenheit_thermostat
               (Double.toCelsius Sample.fahrenheit_thermostat 3707226773486726%float)))
         (Double.toCelsius Sample.fahrenheit_thermostat 3707226773486726%float).
Proof.
  split; [vm_compute; reflexivity|]. split; [vm_compute; reflexivity|].
  intros H. apply close_bool_complete in H. vm_compute in H. discriminate H.
Qed.

End DoubleClaims.

(** ** [parseStatus], block by block *)

Ltac case_conditions :=
  repeat match goal with
    | |- context [if ?b then _ else _] => destruct b
    | |- context [match ?o with Some _ => _ | None => _ end] => destruct o
    end.

Section ParseStatus.

Variable this : TCCthermostat.

(** No block writes anything but characteristic fields. *)
Lemma parse_units_resources : resources (parse_units this) = resources this.
Proof. unfold parse_units. case_conditions; reflexivity. Qed.

Lemma parse_readings_resources : resources (parse_readings this) = resources this.
Proof. reflexivity. Qed.

Lemma parse_thresholds_resources : resources (parse_thresholds this) = resources this.
Proof. unfold parse_thresholds. case_conditions; reflexivity. Qed.

Lemma parse_target_state_resources : resources (parse_target_state this) = resources this.
Proof. reflexivity. Qed.

Lemma parse_current_state_resources :
  resources (parse_current_state this) = resources this.
Proof. unfold parse_current_state. case_conditions; reflexivity. Qed.

Lemma parse_target_temperature_resources :
  resources (parse_target_temperature this) = resources this.
Proof. unfold parse_target_temperature. case_conditions; reflexivity. Qed.

Lemma parse_fan_resources : resources (parse_fan this) = resources this.
Proof. unfold parse_fan. case_conditions; reflexivity. Qed.

Lemma parse_units_flags : flags (parse_units this) = flags this.
Proof. unfold parse_units. case_conditions; reflexivity. Qed.

Lemma parse_readings_flags : flags (parse_readings this) = flags this.
Proof. reflexivity. Qed.

Lemma parse_thresholds_flags : flags (parse_thresholds this) = flags this.
Proof. unfold parse_thresholds. case_conditions; reflexivity. Qed.

Lemma parse_target_state_flags : flags (parse_target_state this) = flags this.
Proof. reflexivity. Qed.

Lemma parse_current_state_flags : flags (parse_current_state this) = flags this.
Proof. unfold parse_current_state. case_conditions; reflexivity. Qed.

Lemma parse_target_temperature_flags :
  flags (parse_target_temperature this) = flags this.
Proof. unfold parse_target_temperature. case_conditions; reflexivity. Qed.

Lemma parse_fan_flags : flags (parse_fan this) = flags this.
Proof. unfold parse_fan. case_conditions; reflexivity. Qed.

(** The characteristic fields a block leaves alone. *)
Lemma parse_units_frame (k : Kind.t) :
  k <> Kind.TemperatureDisplayUnits -> field k (parse_units this) = field k this.
Proof.
  intros Hk. unfold parse_units. case_conditions; destruct k; try reflexivity; congruence.
Qed.

Lemma parse_readings_frame (k : Kind.t) :
  k <> Kind.CurrentTemperature -> k <> Kind.CurrentRelativeHumidity ->
  field k (parse_readings this) = field k this.
Proof. intros H1 H2. destruct k; try reflexivity; congruence. Qed.

Lemma parse_thresholds_frame (k : Kind.t) :
  k <> Kind.HeatingThresholdTemperature -> k <> Kind.CoolingThresholdTemperature ->
  field k (parse_thresholds this) = field k this.
Proof.
  intros H1 H2. unfold parse_thresholds.
  case_conditions; destruct k; try reflexivity; congruence.
Qed.

Lemma parse_target_state_frame (k : Kind.t) :
  k <> Kind.TargetHeatingCoolingState ->
  field k (parse_target_state this) = field k this.
Proof. intros H1. destruct k; try reflexivity; congruence. Qed.

Lemma parse_current_state_frame (k : Kind.t) :
  k <> Kind.CurrentHeatingCoolingState ->
  field k (parse_current_state this) = field k this.
Proof.
  intros H1. unfold parse_current_state.
  case_conditions; destruct k; try reflexivity; congruence.
Qed.

Lemma parse_target_temperature_frame (k : Kind.t) :
  k <> Kind.TargetTemperature ->
  field k (parse_target_temperature this) = field k this.
Proof.
  intros H1. unfold parse_target_temperature.
  case_conditions; destruct k; try reflexivity; congruence.
Qed.

Lemma parse_fan_frame (k : Kind.t) :
  k <> Kind.TargetFanState -> k <> Kind.Active ->
  field k (parse_fan this) = field k this.
Proof.
  intros H1 H2. unfold parse_fan.
  case_conditions; destruct k; try reflexivity; congruence.
Qed.

End ParseStatus.

(** [toCelsius] reads the display unit and nothing else. *)
Lemma toCelsius_units (a b : TCCthermostat) (value : JS.value) :
  TemperatureDisplayUnits a = TemperatureDisplayUnits b ->
  toCelsius a value = toCelsius b value.
Proof. intros H. unfold toCelsius. rewrite H. reflexivity. Qed.

Lemma resources_device (a b : TCCthermostat) :
  resources a = resources b -> device a = device b.
Proof. unfold resources. intros H. now injection H. Qed.

Lemma resources_fan_enabled (a b : TCCthermostat) :
  resources a = resources b -> fan_enabled a = fan_enabled b.
Proof. unfold resources, fan_enabled. intros H. injection H as -> _ _ -> _. reflexivity. Qed.

Lemma resources_fanService (a b : TCCthermostat) :
  resources a = resources b -> fanService a = fanService b.
Proof. unfold resources. intros H. now injection H. Qed.

Lemma resources_owned (a b : TCCthermostat) :
  resources a = resources b -> owned a = owned b.
Proof.
  intros H. unfold owned.
  now rewrite (resources_fan_enabled _ _ H), (resources_fanService _ _ H).
Qed.


(** What the blocks that set the thresholds and the target temperature
    leave in the fields they write. *)
Lemma parse_thresholds_HeatingThresholdTemperature (s : TCCthermostat) :
  HeatingThresholdTemperature (parse_thresholds s)
  = if (heatSetpoint (changeableValues (device s)) > lit 0)%js
    then toCelsius s (heatSetpoint (changeableValues (device s)))
    else HeatingThresholdTemperature s.
Proof. unfold parse_thresholds. case_conditions; reflexivity. Qed.

Lemma parse_thresholds_CoolingThresholdTemperature (s : TCCthermostat) :
  CoolingThresholdTemperature (parse_thresholds s)
  = if (coolSetpoint (changeableValues (device s)) > lit 0)%js
    then toCelsius s (coolSetpoint (changeableValues (device s)))
    else CoolingThresholdTemperature s.
Proof.
  unfold parse_thresholds. cbv zeta.
  destruct (heatSetpoint (changeableValues (device s)) > lit 0)%js;
    cbn; case_conditions; reflexivity.
Qed.

Lemma parse_target_temperature_TargetTemperature (s : TCCthermostat) :
  TargetTemperature (parse_target_temperature s)
  = if (TargetHeatingCoolingState s === TargetHeatingCoolingState.HEAT)%js
    then if (heatSetpoint (changeableValues (device s)) > lit 0)%js
            || JS.ToBoolean (minHeatSetpoint (device s))
         then toCelsius s (heatSetpoint (changeableValues (device s)))
         else TargetTemperature s
    else if (coolSetpoint (changeableValues (device s)) > lit 0)%js
            || JS.ToBoolean (minCoolSetpoint (device s))
         then toCelsius s (coolSetpoint (changeableValues (device s)))
         else TargetTemperature s.
Proof. unfold parse_target_temperature. case_conditions; reflexivity. Qed.

(** A field that a block leaves alone, as an equation between the states
    on both sides of the block. *)
Ltac kept E lem k :=
  match type of E with
  | ?si = _ ?sj =>
      let F := fresh "F" in
      assert (F : field k si = field k sj) by (rewrite E; apply lem; discriminate);
      cbn [field] in F
  end.

Ltac same_device E lem :=
  match type of E with
  | ?si = _ ?sj =>
      let D := fresh "D" in
      assert (D : device si = device sj) by (rewrite E; apply resources_device, lem)
  end.

(** The blocks in sequence, with the states between them named. *)
Lemma parse_blocks (s0 s1 s2 s3 s4 s5 s6 s7 : TCCthermostat) :
  s1 = parse_units s0 -> s2 = parse_readings s1 -> s3 = parse_thresholds s2 ->
  s4 = parse_target_state s3 -> s5 = parse_current_state s4 ->
  s6 = parse_target_temperature s5 -> s7 = parse_fan s6 ->
  let heat := heatSetpoint (changeableValues (device s0)) in
  let cool := coolSetpoint (changeableValues (device s0)) in
  TemperatureDisplayUnits s7 = TemperatureDisplayUnits s1
  /\ HeatingThresholdTemperature s7
     = (if (heat > lit 0)%js then toCelsius s1 heat else HeatingThresholdTemperature s0)
  /\ CoolingThresholdTemperature s7
     = (if (cool > lit 0)%js then toCelsius s1 cool else CoolingThresholdTemperature s0)
  /\ TargetHeatingCoolingState s7 = modes (mode (changeableValues (device s0)))
  /\ TargetTemperature s7
     = (if (modes (mode (changeableValues (device s0))) === TargetHeatingCoolingState.HEAT)%js
        then if (heat > lit 0)%js || JS.ToBoolean (minHeatSetpoint (device s0))
             then toCelsius s1 heat else TargetTemperature s0
        else if (cool > lit 0)%js || JS.ToBoolean (minCoolSetpoint (device s0))
             then toCelsius s1 cool else TargetTemperature s0).
Proof.
  intros E1 E2 E3 E4 E5 E6 E7 heat cool. subst heat cool.
  same_device E1 parse_units_resources. same_device E2 parse_readings_resources.
  same_device E3 parse_thresholds_resources. same_device E4 parse_target_state_resources.
  same_device E5 parse_current_state_resources.
  assert (U7 : TemperatureDisplayUnits s7 = TemperatureDisplayUnits s1).
  { kept E7 parse_fan_frame Kind.TemperatureDisplayUnits.
    kept E6 parse_target_temperature_frame Kind.TemperatureDisplayUnits.
    kept E5 parse_current_state_frame Kind.TemperatureDisplayUnits.
    kept E4 parse_target_state_frame Kind.TemperatureDisplayUnits.
    kept E3 parse_thresholds_frame Kind.TemperatureDisplayUnits.
    kept E2 parse_readings_frame Kind.TemperatureDisplayUnits.
    congruence. }
  assert (U2 : forall v, toCelsius s2 v = toCelsius s1 v).
  { intros v. apply toCelsius_units.
    kept E2 parse_readings_frame Kind.TemperatureDisplayUnits. assumption. }
  assert (U5 : forall v, toCelsius s5 v = toCelsius s1 v).
  { intros v. apply toCelsius_units.
    kept E5 parse_current_state_frame Kind.TemperatureDisplayUnits.
    kept E4 parse_target_state_frame Kind.TemperatureDisplayUnits.
    kept E3 parse_thresholds_frame Kind.TemperatureDisplayUnits.
    kept E2 parse_readings_frame Kind.TemperatureDisplayUnits.
    congruence. }
  assert (S5 : TargetHeatingCoolingState s5 = modes (mode (changeableValues (device s0)))).
  { kept E5 parse_current_state_frame Kind.TargetHeatingCoolingState.
    rewrite F, E4. cbn. congruence. }
  split; [exact U7|]. split; [|split; [|split]].
  - kept E7 parse_fan_frame Kind.HeatingThresholdTemperature.
    kept E6 parse_target_temperature_frame Kind.HeatingThresholdTemperature.
    kept E5 parse_current_state_frame Kind.HeatingThresholdTemperature.
    kept E4 parse_target_state_frame Kind.HeatingThresholdTemperature.
    kept E2 parse_readings_frame Kind.HeatingThresholdTemperature.
    kept E1 parse_units_frame Kind.HeatingThresholdTemperature.
    rewrite F, F0, F1, F2, E3, parse_thresholds_HeatingThresholdTemperature.
    rewrite U2, F3, F4, D0, D. reflexivity.
  - kept E7 parse_fan_frame Kind.CoolingThresholdTemperature.
    kept E6 parse_target_temperature_frame Kind.CoolingThresholdTemperature.
    kept E5 parse_current_state_frame Kind.CoolingThresholdTemperature.
    kept E4 parse_target_state_frame Kind.CoolingThresholdTemperature.
    kept E2 parse_readings_frame Kind.CoolingThresholdTemperature.
    kept E1 parse_units_frame Kind.CoolingThresholdTemperature.
    rewrite F, F0, F1, F2, E3, parse_thresholds_CoolingThresholdTemperature.
    rewrite U2, F3, F4, D0, D. reflexivity.
  - kept E7 parse_fan_frame Kind.TargetHeatingCoolingState.
    kept E6 parse_target_temperature_frame Kind.TargetHeatingCoolingState.
    congruence.
  - kept E7 parse_fan_frame Kind.TargetTemperature.
    kept E5 parse_current_state_frame Kind.TargetTemperature.
    kept E4 parse_target_state_frame Kind.TargetTemperature.
    kept E3 parse_thresholds_frame Kind.TargetTemperature.
    kept E2 parse_readings_frame Kind.TargetTemperature.
    kept E1 parse_units_frame Kind.TargetTemperature.
    rewrite F, E6, parse_target_temperature_TargetTemperature.
    rewrite S5, !U5, F0, F1, F2, F3, F4, D3, D2, D1, D0, D. reflexivity.
Qed.

Section ParseStatusComposed.

Variable this : TCCthermostat.

Lemma parseStatus_steps :
  exists s1 s2 s3 s4 s5 s6 : TCCthermostat,
    s1 = parse_units this /\ s2 = parse_readings s1 /\ s3 = parse_thresholds s2
    /\ s4 = parse_target_state s3 /\ s5 = parse_current_state s4
    /\ s6 = parse_target_temperature s5 /\ parseStatus this = parse_fan s6.
Proof. repeat eexists. Qed.

Lemma parseStatus_resources : resources (parseStatus this) = resources this.
Proof.
  destruct parseStatus_steps
    as (s1 & s2 & s3 & s4 & s5 & s6 & E1 & E2 & E3 & E4 & E5 & E6 & ->).
  rewrite parse_fan_resources, E6, parse_target_temperature_resources,
    E5, parse_current_state_resources, E4, parse_target_state_resources,
    E3, parse_thresholds_resources, E2, parse_readings_resources,
    E1, parse_units_resources.
  reflexivity.
Qed.

Lemma parseStatus_flags : flags (parseStatus this) = flags this.
Proof.
  destruct parseStatus_steps
    as (s1 & s2 & s3 & s4 & s5 & s6 & E1 & E2 & E3 & E4 & E5 & E6 & ->).
  rewrite parse_fan_flags, E6, parse_target_temperature_flags,
    E5, parse_current_state_flags, E4, parse_target_state_flags,
    E3, parse_thresholds_flags, E2, parse_readings_flags,
    E1, parse_units_flags.
  reflexivity.
Qed.

(** What [parseStatus] leaves in the display unit, the thresholds, the
    target state and the target temperature. *)
Lemma parseStatus_fields :
  TemperatureDisplayUnits (parseStatus this) = TemperatureDisplayUnits (parse_units this)
  /\ HeatingThresholdTemperature (parseStatus this)
     = (if (heatSetpoint (changeableValues (device this)) > lit 0)%js
        then toCelsius (parseStatus this) (heatSetpoint (changeableValues (device this)))
        else HeatingThresholdTemperature this)
  /\ CoolingThresholdTemperature (parseStatus this)
     = (if (coolSetpoint (changeableValues (device this)) > lit 0)%js
        then toCelsius (parseStatus this) (coolSetpoint (changeableValues (device this)))
        else CoolingThresholdTemperature this)
  /\ TargetHeatingCoolingState (parseStatus this)
     = modes (mode (changeableValues (device this)))
  /\ TargetTemperature (parseStatus this)
     = (if (modes (mode (changeableValues (device this)))
            === TargetHeatingCoolingState.HEAT)%js
        then if (heatSetpoint (changeableValues (device this)) > lit 0)%js
                || JS.ToBoolean (minHeatSetpoint (device this))
             then toCelsius (parseStatus this)
                    (heatSetpoint (changeableValues (device this)))
             else TargetTemperature this
        else if (coolSetpoint (changeableValues (device this)) > lit 0)%js
                || JS.ToBoolean (minCoolSetpoint (device this))
             then toCelsius (parseStatus this)
                    (coolSetpoint (changeableValues (device this)))
             else TargetTemperature this).
Proof.
  destruct parseStatus_steps
    as (s1 & s2 & s3 & s4 & s5 & s6 & E1 & E2 & E3 & E4 & E5 & E6 & E7).
  destruct (parse_blocks this s1 s2 s3 s4 s5 s6 (parseStatus this)
              E1 E2 E3 E4 E5 E6 E7) as (U & H & C & S & T).
  assert (N : forall v, toCelsius (parseStatus this) v = toCelsius s1 v)
    by (intros v; apply toCelsius_units, U).
  rewrite !N, <- E1. repeat split; assumption.
Qed.

End ParseStatusComposed.

(** [value > 0] holds of the positive numbers only. *)
Lemma gt_zero_iff_positive (q : Qc) :
  (JS.Num q > lit 0)%js = true <-> (Q2Qc 0 < q)%Qc.
Proof.
  unfold JS.gt. cbn [JS.ToNumber JS.lit].
  change (JS.num 0) with (Q2Qc 0). split.
  - intros H. apply (proj2 (Qcgt_alt q (Q2Qc 0))).
    destruct (q ?= Q2Qc 0)%Qc; [discriminate H|discriminate H|reflexivity].
  - intros H. apply (proj1 (Qcgt_alt q (Q2Qc 0))) in H. rewrite H. reflexivity.
Qed.

(** C7.  [parseStatus] writes the heating threshold exactly when the remote
    heat setpoint is strictly positive ([heatSetpoint > 0]), and then with
    the normalized setpoint; otherwise, in particular when the setpoint is 0
    or absent, the threshold keeps the value it had.  The same holds for the
    cooling threshold and the cool setpoint. *)
Theorem parseStatus_keeps_threshold_without_setpoint (this : TCCthermostat) :
  let heat := heatSetpoint (changeableValues (device this)) in
  let cool := coolSetpoint (changeableValues (device this)) in
  ((heat > lit 0)%js = true ->
   HeatingThresholdTemperature (parseStatus this) = toCelsius (parseStatus this) heat)
  /\ ((heat > lit 0)%js = false ->
      HeatingThresholdTemperature (parseStatus this) = HeatingThresholdTemperature this)
  /\ (heat = lit 0 \/ heat = JS.undefined ->
      HeatingThresholdTemperature (parseStatus this) = HeatingThresholdTemperature this)
  /\ ((cool > lit 0)%js = true ->
      CoolingThresholdTemperature (parseStatus this) = toCelsius (parseStatus this) cool)
  /\ ((cool > lit 0)%js = false ->
      CoolingThresholdTemperature (parseStatus this) = CoolingThresholdTemperature this)
  /\ (cool = lit 0 \/ cool = JS.undefined ->
      CoolingThresholdTemperature (parseStatus this) = CoolingThresholdTemperature this)
  /\ (forall q : Qc, (JS.Num q > lit 0)%js = true <-> (Q2Qc 0 < q)%Qc).
Proof.
  intros heat cool.
  destruct (parseStatus_fields this) as (_ & H & C & _).
  fold heat in H. fold cool in C.
  split; [|split; [|split; [|split; [|split; [|split]]]]].
  - intros G. now rewrite H, G.
  - intros G. now rewrite H, G.
  - intros [G | G]; rewrite H, G; reflexivity.
  - intros G. now rewrite C, G.
  - intros G. now rewrite C, G.
  - intros [G | G]; rewrite C, G; reflexivity.
  - apply gt_zero_iff_positive.
Qed.

Lemma parseStatus_keeps_threshold_without_setpoint_witness :
  CoolingThresholdTemperature (parseStatus Sample.celsius_edited)
  = CoolingThresholdTemperature Sample.celsius_edited
  /\ HeatingThresholdTemperature (parseStatus Sample.cool_only_edited)
     = HeatingThresholdTemperature Sample.cool_only_edited
  /\ HeatingThresholdTemperature (parseStatus Sample.celsius_edited)
     = toCelsius (parseStatus Sample.celsius_edited)
         (heatSetpoint (changeableValues (device Sample.celsius_edited))).
Proof.
  pose proof (parseStatus_keeps_threshold_without_setpoint Sample.celsius_edited) as H.
  pose proof (parseStatus_keeps_threshold_without_setpoint Sample.cool_only_edited) as H'.
  cbv zeta in H, H'.
  destruct H as (Hset & _ & _ & _ & _ & Czero & _).
  destruct H' as (_ & _ & Habsent & _).
  split; [|split].
  - apply Czero. left. reflexivity.
  - apply Habsent. right. reflexivity.
  - apply Hset. reflexivity.
Defined.

(** ** Publishing *)

Section Publishing.

Variable this : TCCthermostat.

(** [updateHomeKitCharacteristics] publishes the field of every owned
    characteristic, and changes nothing. *)
Lemma updateHomeKitCharacteristics_run :
  updateHomeKitCharacteristics this
  = (Normal tt, this,
     map (fun k => updateCharacteristic k (Value (field k this))) (owned this)).
Proof.
  unfold updateHomeKitCharacteristics, owned.
  destruct (fan_enabled this) eqn:Hfan, (fanService this) eqn:Hsvc;
    cbn; rewrite ?Hfan, ?Hsvc; reflexivity.
Qed.

(** [apiError] publishes the error object on every owned characteristic,
    and changes nothing. *)
Lemma apiError_run (e : error) :
  apiError e this
  = (Normal tt, this, map (fun k => updateCharacteristic k (Failure e)) (owned this)).
Proof.
  unfold apiError, owned.
  destruct (fan_enabled this) eqn:Hfan, (fanService this) eqn:Hsvc;
    cbn; rewrite ?Hfan, ?Hsvc; reflexivity.
Qed.

End Publishing.

(** ** The refresh path *)

Lemma refreshStatus_run (net : Network) (this : TCCthermostat) :
  refreshStatus net this
  = match get_thermostat net with
    | inl e => (Normal tt, this, axios_get_thermostat :: refresh_failure e this)
    | inr d =>
        let this1 := set_device d this in
        if fan_enabled this1 then
          match get_fan net with
          | inl e =>
              (Normal tt, this1,
               axios_get_thermostat :: axios_get_fan :: refresh_failure e this1)
          | inr f =>
              let this2 := parseStatus (set_deviceFan (Some f) this1) in
              (Normal tt, this2,
               axios_get_thermostat :: axios_get_fan :: refresh_success this2)
          end
        else
          let this2 := parseStatus this1 in
          (Normal tt, this2, axios_get_thermostat :: refresh_success this2)
    end.
Proof.
  unfold refreshStatus, try_catch, bind, await, modify, get_this, emit, when, ret.
  destruct (get_thermostat net) as [e | d].
  - rewrite apiError_run. reflexivity.
  - cbv zeta. destruct (fan_enabled (set_device d this)) eqn:Hfan.
    + destruct (get_fan net) as [e | f].
      * rewrite apiError_run. reflexivity.
      * rewrite updateHomeKitCharacteristics_run. reflexivity.
    + rewrite updateHomeKitCharacteristics_run. reflexivity.
Qed.

(** ** Host-originated changes *)

Ltac host_set_proof :=
  cbn; repeat split; try reflexivity; intros k; destruct k; reflexivity.

(** C3.  Each of the six "set" handlers completes at once: it stores the
    value in its own characteristic field, signals its subject (thermostat
    or fan) and calls back with [null], without any request on the wire.
    Setting the target heating-cooling state also stores, and publishes
    before the signal, the target temperature recomputed from the remote
    setpoint of the chosen mode: the heat setpoint for Heat, the cool
    setpoint otherwise. *)
Theorem set_handlers_acknowledge_before_network :
  host_set setTargetTemperature Kind.TargetTemperature doThermostatUpdate
  /\ host_set setHeatingThresholdTemperature Kind.HeatingThresholdTemperature
       doThermostatUpdate
  /\ host_set setCoolingThresholdTemperature Kind.CoolingThresholdTemperature
       doThermostatUpdate
  /\ host_set setActive Kind.Active doFanUpdate
  /\ host_set setTargetFanState Kind.TargetFanState doFanUpdate
  /\ (forall (value : JS.value) (this : TCCthermostat),
        let r := setTargetHeatingCoolingState value this in
        let remote := changeableValues (device this) in
        let target :=
          if (value === TargetHeatingCoolingState.HEAT)%js
          then toCelsius this (heatSetpoint remote)
          else toCelsius this (coolSetpoint remote) in
        result_of r = Normal tt
        /\ (forall k, field k (state_of r)
                      = if Kind.eqb k Kind.TargetHeatingCoolingState then value
                        else if Kind.eqb k Kind.TargetTemperature then target
                        else field k this)
        /\ resources (state_of r) = resources this
        /\ trace_of r
           = [updateCharacteristic Kind.TargetTemperature (Value target);
              next doThermostatUpdate; callback None]
        /\ existsb is_request (trace_of r) = false).
Proof.
  split; [intros value this; host_set_proof|].
  split; [intros value this; host_set_proof|].
  split; [intros value this; host_set_proof|].
  split.
  { intros value this. unfold setActive, doFanUpdate_next, bind, modify, emit, get_this, when.
    cbn. destruct (doFanUpdate_subscribed this); host_set_proof. }
  split.
  { intros value this.
    unfold setTargetFanState, doFanUpdate_next, bind, modify, emit, get_this, when.
    cbn. destruct (doFanUpdate_subscribed this); host_set_proof. }
  intros value this.
  unfold setTargetHeatingCoolingState, doThermostatUpdate_next, bind, modify, emit, get_this.
  cbn. destruct (value === TargetHeatingCoolingState.HEAT)%js; host_set_proof.
Qed.

(** With a remote cool setpoint of 22 in Celsius, setting the target state
    to Cool publishes a target temperature of 22 first, and requests
    nothing. *)
Lemma setTargetHeatingCoolingState_cool_publishes_setpoint (this : TCCthermostat) :
  (TemperatureDisplayUnits this === TemperatureDisplayUnits.CELSIUS)%js = true ->
  coolSetpoint (changeableValues (device this)) = lit 22 ->
  let r := setTargetHeatingCoolingState TargetHeatingCoolingState.COOL this in
  TargetTemperature (state_of r) = lit 22
  /\ trace_of r
     = [updateCharacteristic Kind.TargetTemperature (Value (lit 22));
        next doThermostatUpdate; callback None].
Proof.
  intros Hunit Hcool r. subst r.
  unfold setTargetHeatingCoolingState, doThermostatUpdate_next, bind, modify, emit, get_this.
  cbn. rewrite Hcool. unfold toCelsius. cbn. rewrite Hunit. split; reflexivity.
Qed.

(** ** The thermostat flush *)

Lemma no_post_in_publications (f : Kind.t -> published) (l : list Kind.t) :
  existsb is_post (map (fun k => updateCharacteristic k (f k)) l) = false.
Proof. induction l as [|k l IH]; [reflexivity|exact IH]. Qed.

Lemma no_value_in_failures (e : error) (l : list Kind.t) (k : Kind.t) (v : JS.value) :
  ~ In (updateCharacteristic k (Value v))
       (map (fun k => updateCharacteristic k (Failure e)) l).
Proof.
  intros H. apply in_map_iff in H. destruct H as (k' & H & _). discriminate.
Qed.

(** The shape of every run of the refresh path: it completes, after one or
    two fetches, with the publication of the fields or of the error. *)
Lemma refreshStatus_outcome (net : Network) (this : TCCthermostat) :
  exists (s : TCCthermostat) (fetches outcome : list event),
    refreshStatus net this = (Normal tt, s, (fetches ++ outcome)%list)
    /\ (fetches = [axios_get_thermostat]
        \/ fetches = [axios_get_thermostat; axios_get_fan])
    /\ (outcome = refresh_success s \/ exists e, outcome = refresh_failure e s).
Proof.
  rewrite refreshStatus_run.
  destruct (get_thermostat net) as [e | d].
  - exists this, [axios_get_thermostat], (refresh_failure e this).
        split; [reflexivity | split; [auto | eauto]].
  - cbv zeta. destruct (fan_enabled (set_device d this)).
    + destruct (get_fan net) as [e | f].
      * exists (set_device d this), [axios_get_thermostat; axios_get_fan],
          (refresh_failure e (set_device d this)).
        split; [reflexivity | split; [auto | eauto]].
      * generalize (parseStatus (set_deviceFan (Some f) (set_device d this))). intros s.
        exists s, [axios_get_thermostat; axios_get_fan], (refresh_success s).
        split; [reflexivity | split; [auto | eauto]].
    + generalize (parseStatus (set_device d this)). intros s.
      exists s, [axios_get_thermostat], (refresh_success s).
        split; [reflexivity | split; [auto | eauto]].
Qed.

Lemma no_match_filter {A : Type} (p : A -> bool) (l : list A) :
  existsb p l = false -> filter p l = [].
Proof.
  induction l as [|x l IH]; [reflexivity|]. cbn.
  destruct (p x); [discriminate|exact IH].
Qed.

(** The refresh path never writes, and starts by fetching the device. *)
Lemma refreshStatus_no_post (net : Network) (this : TCCthermostat) :
  existsb is_post (trace_of (refreshStatus net this)) = false.
Proof.
  destruct (refreshStatus_outcome net this) as (s & fetches & outcome & -> & Hf & Ho).
  unfold trace_of. cbn [snd]. rewrite existsb_app.
  assert (existsb is_post outcome = false) as ->.
  { destruct Ho as [-> | [e ->]]; [|cbn [refresh_failure existsb is_post orb]];
      apply no_post_in_publications. }
  destruct Hf as [-> | ->]; reflexivity.
Qed.

Lemma refreshStatus_fetches (net : Network) (this : TCCthermostat) :
  exists rest, trace_of (refreshStatus net this) = axios_get_thermostat :: rest.
Proof.
  destruct (refreshStatus_outcome net this) as (s & fetches & outcome & -> & Hf & _).
  destruct Hf as [-> | ->]; eexists; reflexivity.
Qed.

Lemma refreshStatus_completes (net : Network) (this : TCCthermostat) :
  result_of (refreshStatus net this) = Normal tt.
Proof.
  destruct (refreshStatus_outcome net this) as (s & fetches & outcome & -> & _).
  reflexivity.
Qed.

Lemma pushChanges_run (net : Network) (this : TCCthermostat) :
  pushChanges net this
  = if changed this then
      match post_thermostat net with
      | inr _ =>
          (result_of (refreshStatus net this), state_of (refreshStatus net this),
           axios_post_thermostat (thermostat_payload this)
             :: trace_of (refreshStatus net this))
      | inl e => (Throw e, this, [axios_post_thermostat (thermostat_payload this)])
      end
    else (Normal tt, this, []).
Proof.
  unfold pushChanges, bind, get_this, await, ret.
  destruct (changed this); [|reflexivity].
  destruct (post_thermostat net) as [e | []]; [reflexivity|].
  destruct (refreshStatus net this) as [[r s] t]. reflexivity.
Qed.

(** C1.  [pushChanges] compares the two thresholds with the normalized
    remote setpoints and the target state with the remote mode, and posts
    exactly when one of the three differs, and then once.  The payload
    takes its setpoints by target state: for Heat the target temperature as
    heat setpoint and the cooling threshold as cool setpoint, for Cool the
    target temperature as cool setpoint and the heating threshold as heat
    setpoint, otherwise both thresholds; each goes through [toFahrenheit].
    That is a conversion to the remote unit: it leaves the value as it is
    when the display unit is Celsius, and otherwise takes a temperature with
    one decimal between -40 and 55 degrees, [k / 10], to the whole number of
    Fahrenheit degrees nearest to [9 / 5 * k / 10 + 32], in the exact
    arithmetic of the fields and in the double precision of the code alike.
    When the post succeeds the refresh path runs next, from the same state:
    the request after the post is the fetch of the device. *)
Theorem pushChanges_posts_iff_changed (net : Network) (this : TCCthermostat) :
  let r := pushChanges net this in
  let remote := changeableValues (device this) in
  let payload := thermostat_payload this in
  let differs :=
    ((HeatingThresholdTemperature this !== toCelsius this (heatSetpoint remote))
     || (CoolingThresholdTemperature this !== toCelsius this (coolSetpoint remote))
     || (TargetHeatingCoolingState this !== modes (mode remote)))%js in
  existsb is_post (trace_of r) = differs
  /\ List.length (filter is_post (trace_of r)) = (if differs then 1 else 0)%nat
  /\ trace_of r
     = (if differs then
          axios_post_thermostat payload
            :: match post_thermostat net with
               | inr _ => trace_of (refreshStatus net this)
               | inl _ => []
               end
        else [])
  /\ state_of r
     = (if differs then
          match post_thermostat net with
          | inr _ => state_of (refreshStatus net this)
          | inl _ => this
          end
        else this)
  /\ payload_mode payload = JS.index honeywellMode (TargetHeatingCoolingState this)
  /\ (payload_heatSetpoint payload, payload_coolSetpoint payload)
     = (if (TargetHeatingCoolingState this === TargetHeatingCoolingState.HEAT)%js then
          (toFahrenheit this (TargetTemperature this),
           toFahrenheit this (CoolingThresholdTemperature this))
        else if (TargetHeatingCoolingState this === TargetHeatingCoolingState.COOL)%js then
          (toFahrenheit this (HeatingThresholdTemperature this),
           toFahrenheit this (TargetTemperature this))
        else
          (toFahrenheit this (HeatingThresholdTemperature this),
           toFahrenheit this (CoolingThresholdTemperature this)))
  /\ ((TemperatureDisplayUnits this === TemperatureDisplayUnits.CELSIUS)%js = true ->
      forall value, toFahrenheit this value = value)
  /\ ((TemperatureDisplayUnits this === TemperatureDisplayUnits.CELSIUS)%js = false ->
      forall k, (-400 <= k <= 550)%Z ->
        let degrees := ((18 * k + 3250) / 100)%Z in
        toFahrenheit this (JS.Num (Q2Qc (k # 10))) = lit degrees
        /\ Double.strict_eq (Double.toFahrenheit this (Double.tenth k))
             (Double.of_Z degrees) = true
        /\ (Qabs (inject_Z degrees - ((9 # 5) * (k # 10) + 32)) <= 1 # 2)%Q)
  /\ (differs = true ->
      forall done, post_thermostat net = inr done ->
        exists rest,
          trace_of r
          = axios_post_thermostat payload :: axios_get_thermostat :: rest).
Proof.
  intros r remote payload differs. subst r payload.
  change differs with (changed this). clear differs.
  rewrite pushChanges_run.
  split; [|split; [|split; [|split; [|split; [|split; [|split; [|split]]]]]]].
  - destruct (changed this); [|reflexivity].
    destruct (post_thermostat net); reflexivity.
  - destruct (changed this); [|reflexivity].
    destruct (post_thermostat net); [reflexivity|].
    cbn. now rewrite (no_match_filter _ _ (refreshStatus_no_post net this)).
  - destruct (changed this); [|reflexivity]. destruct (post_thermostat net); reflexivity.
  - destruct (changed this); [|reflexivity]. destruct (post_thermostat net); reflexivity.
  - unfold thermostat_payload. case_conditions; reflexivity.
  - unfold thermostat_payload. case_conditions; reflexivity.
  - intros Hunit value. unfold toFahrenheit. rewrite Hunit. reflexivity.
  - intros Hunit k Hk degrees.
    destruct (toFahrenheit_agrees_on_tenths this Hunit k Hk) as [Hexact Hdouble].
    split; [exact Hexact|]. split; [exact Hdouble|].
    apply Qabs_Qle_condition. subst degrees.
    pose proof (Z.mul_div_le (18 * k + 3250) 100 eq_refl) as Hlo.
    pose proof (Z.mul_succ_div_gt (18 * k + 3250) 100 eq_refl) as Hhi.
    revert Hlo Hhi. generalize ((18 * k + 3250) / 100)%Z. intros n Hlo Hhi.
    unfold Qle, Qminus, Qplus, Qmult, Qopp, inject_Z. cbn [Qnum Qden].
    split; lia.
  - intros Hc done Hp. rewrite Hc, Hp. cbn [trace_of snd].
    destruct (refreshStatus_fetches net this) as [rest ->]. exists rest. reflexivity.
Qed.

(** A flush that goes through: the host raised the heating threshold to 22
    on a unit heating to 70 F; the post carries the target temperature as
    heat setpoint (70 again), and the refresh that follows puts the
    threshold back to what the device reports (21) and lowers the flag. *)
Example doThermostatUpdate_flush_online :
  let r := doThermostatUpdate_flush Sample.online Sample.fahrenheit_edited in
  (HeatingThresholdTemperature Sample.fahrenheit_edited === lit 22)%js = true
  /\ hd_error (trace_of r)
     = Some (axios_post_thermostat
               {| payload_mode := Some "Heat";
                  payload_thermostatSetpointStatus := Some "NoHold";
                  payload_heatSetpoint := lit 70;
                  payload_coolSetpoint := lit 78 |})
  /\ nth_error (trace_of r) 1 = Some axios_get_thermostat
  /\ nth_error (trace_of r) 2 = Some axios_get_fan
  /\ List.length (trace_of r) = 13%nat
  /\ (HeatingThresholdTemperature (state_of r) === lit 21)%js = true
  /\ thermostatUpdateInProgress (state_of r) = false.
Proof.
  vm_compute. repeat split; reflexivity.
Qed.

(** ** The fan flush *)

Lemma pushFanChanges_run (net : Network) (this : TCCthermostat) :
  pushFanChanges net this
  = if fan_enabled this then
      match post_fan net with
      | inr _ =>
          (result_of (refreshStatus net this), state_of (refreshStatus net this),
           axios_post_fan (fan_payload this) :: trace_of (refreshStatus net this))
      | inl e => (Throw e, this, [axios_post_fan (fan_payload this)])
      end
    else refreshStatus net this.
Proof.
  unfold pushFanChanges, bind, get_this, await, when, ret.
  destruct (fan_enabled this).
  - destruct (post_fan net) as [e | []]; [reflexivity|].
    destruct (refreshStatus net this) as [[r s] t]. reflexivity.
  - destruct (refreshStatus net this) as [[r s] t]. reflexivity.
Qed.

(** C9, as the code has it.  [pushFanChanges] maps the target fan state
    and the active state to one fan mode: Auto to [Auto] whatever the
    active state, Manual and active to [On], Manual and inactive to
    [Circulate].  With the fan enabled it posts that mode whatever the last
    fetched fan mode is, and the refresh path runs after the post unless
    the post is rejected, in which case the error is thrown and nothing is
    fetched; with the fan not enabled it posts nothing and runs the refresh
    path. *)
Theorem pushFanChanges_posts_mode_then_refreshes (net : Network) (this : TCCthermostat) :
  let r := pushFanChanges net this in
  (forall active,
     fan_payload (set_TargetFanState TargetFanState.AUTO (set_Active active this))
     = {| fan_mode := "Auto" |})
  /\ fan_payload (set_TargetFanState TargetFanState.MANUAL (set_Active Active.ACTIVE this))
     = {| fan_mode := "On" |}
  /\ fan_payload (set_TargetFanState TargetFanState.MANUAL (set_Active Active.INACTIVE this))
     = {| fan_mode := "Circulate" |}
  /\ (forall fan, fan_payload (set_deviceFan fan this) = fan_payload this)
  /\ trace_of r
     = (if fan_enabled this then
          axios_post_fan (fan_payload this)
            :: match post_fan net with
               | inr _ => trace_of (refreshStatus net this)
               | inl _ => []
               end
        else trace_of (refreshStatus net this))
  /\ state_of r
     = (if fan_enabled this then
          match post_fan net with
          | inr _ => state_of (refreshStatus net this)
          | inl _ => this
          end
        else state_of (refreshStatus net this))
  /\ result_of r
     = (if fan_enabled this then
          match post_fan net with
          | inr _ => Normal tt
          | inl e => Throw e
          end
        else Normal tt)
  /\ exists rest, trace_of (refreshStatus net this) = axios_get_thermostat :: rest.
Proof.
  intros r. subst r. rewrite pushFanChanges_run.
  split; [intros active; reflexivity|].
  split; [reflexivity|]. split; [reflexivity|]. split; [intros fan; reflexivity|].
  split; [|split; [|split]].
  - destruct (fan_enabled this); [|reflexivity]. destruct (post_fan net); reflexivity.
  - destruct (fan_enabled this); [|reflexivity]. destruct (post_fan net); reflexivity.
  - destruct (fan_enabled this); [|apply refreshStatus_completes].
    destruct (post_fan net); [reflexivity|apply refreshStatus_completes].
  - apply refreshStatus_fetches.
Qed.

(** C9 fails where it says that the refresh always follows: when the API
    rejects the fan post, [pushFanChanges] throws after the post and the
    device is not fetched. *)
Lemma pushFanChanges_always_refreshes_counterexample :
  ~ In axios_get_thermostat
       (trace_of (pushFanChanges Sample.writes_rejected Sample.fahrenheit_thermostat)).
Proof.
  vm_compute. intros [H | []]. discriminate H.
Qed.

(** ** Failures *)

Lemma doThermostatUpdate_flush_run (net : Network) (this : TCCthermostat) :
  doThermostatUpdate_flush net this
  = if changed this then
      match post_thermostat net with
      | inr _ =>
          (Normal tt,
           set_thermostatUpdateInProgress false (state_of (refreshStatus net this)),
           axios_post_thermostat (thermostat_payload this)
             :: trace_of (refreshStatus net this))
      | inl e =>
          (Normal tt, set_thermostatUpdateInProgress false this,
           axios_post_thermostat (thermostat_payload this)
             :: map (fun k => updateCharacteristic k (Failure e)) (owned this))
      end
    else (Normal tt, set_thermostatUpdateInProgress false this, []).
Proof.
  unfold doThermostatUpdate_flush, bind, try_catch, modify.
  rewrite pushChanges_run.
  destruct (changed this); [|reflexivity].
  destruct (post_thermostat net) as [e | []].
  - rewrite apiError_run. cbn [app]. rewrite app_nil_r. reflexivity.
  - pose proof (refreshStatus_completes net this) as Hc.
    destruct (refreshStatus net this) as [[r s] t]. cbn in Hc. subst r.
    cbn. rewrite app_nil_r. reflexivity.
Qed.

Lemma doFanUpdate_flush_run (net : Network) (this : TCCthermostat) :
  doFanUpdate_flush net this
  = if fan_enabled this then
      match post_fan net with
      | inr _ =>
          (Normal tt, set_fanUpdateInProgress false (state_of (refreshStatus net this)),
           axios_post_fan (fan_payload this) :: trace_of (refreshStatus net this))
      | inl e =>
          (Normal tt, set_fanUpdateInProgress false this,
           axios_post_fan (fan_payload this)
             :: map (fun k => updateCharacteristic k (Failure e)) (owned this))
      end
    else
      (Normal tt, set_fanUpdateInProgress false (state_of (refreshStatus net this)),
       trace_of (refreshStatus net this)).
Proof.
  unfold doFanUpdate_flush, bind, try_catch, modify.
  rewrite pushFanChanges_run.
  pose proof (refreshStatus_completes net this) as Hc.
  destruct (fan_enabled this).
  - destruct (post_fan net) as [e | []].
    + rewrite apiError_run. cbn [app]. rewrite app_nil_r. reflexivity.
    + destruct (refreshStatus net this) as [[r s] t]. cbn in Hc. subst r.
      cbn. rewrite app_nil_r. reflexivity.
  - destruct (refreshStatus net this) as [[r s] t]. cbn in Hc. subst r.
    cbn. rewrite app_nil_r. reflexivity.
Qed.

(** A tick of the interval refreshes as soon as the thermostat flag is down. *)
Lemma interval_tick_passes (net : Network) (this : TCCthermostat) :
  thermostatUpdateInProgress this = false ->
  exists rest, trace_of (interval_tick net this) = axios_get_thermostat :: rest.
Proof.
  intros H. unfold interval_tick, bind, get_this, modify.
  rewrite H, andb_false_r.
  destruct (refreshStatus_fetches net (set_interval_skipping false this)) as [rest Hr].
  destruct (refreshStatus net (set_interval_skipping false this)) as [[r s] t].
  cbn in Hr. subst t. exists rest. reflexivity.
Qed.

Lemma thermostat_flag_after_flush (net : Network) (this : TCCthermostat) :
  thermostatUpdateInProgress (state_of (doThermostatUpdate_flush net this)) = false.
Proof.
  rewrite doThermostatUpdate_flush_run.
  destruct (changed this); [|reflexivity].
  destruct (post_thermostat net); [reflexivity|].
  generalize (state_of (refreshStatus net this)). reflexivity.
Qed.

Lemma fan_flag_after_flush (net : Network) (this : TCCthermostat) :
  fanUpdateInProgress (state_of (doFanUpdate_flush net this)) = false.
Proof.
  rewrite doFanUpdate_flush_run.
  destruct (fan_enabled this); [destruct (post_fan net); [reflexivity|]|];
    generalize (state_of (refreshStatus net this)); reflexivity.
Qed.

(** C2, as the code has it.  A failed refresh (the device or the fan
    cannot be fetched) and a failed push (the thermostat or the fan post is
    rejected) publish the error object on every owned characteristic and
    publish no value.  The owned characteristics are the eight of the
    thermostat and the two of the fan, the latter exactly when the fan is
    enabled, not hidden and the Fanv2 service exists: eight or ten errors.
    After the flush of either subject its in-progress flag is down, so the
    next tick of the interval refreshes. *)
Theorem failure_broadcasts_error_and_clears_flag
  (net : Network) (this : TCCthermostat) (e : error) :
  let errors s := map (fun k => updateCharacteristic k (Failure e)) (owned s) in
  (get_thermostat net = inl e ->
   refreshStatus net this
   = (Normal tt, this, axios_get_thermostat :: refreshAccessToken :: errors this))
  /\ (forall d,
        get_thermostat net = inr d -> fan_enabled (set_device d this) = true ->
        get_fan net = inl e ->
        refreshStatus net this
        = (Normal tt, set_device d this,
           axios_get_thermostat :: axios_get_fan :: refreshAccessToken
             :: errors (set_device d this)))
  /\ (changed this = true -> post_thermostat net = inl e ->
      doThermostatUpdate_flush net this
      = (Normal tt, set_thermostatUpdateInProgress false this,
         axios_post_thermostat (thermostat_payload this) :: errors this))
  /\ (fan_enabled this = true -> post_fan net = inl e ->
      doFanUpdate_flush net this
      = (Normal tt, set_fanUpdateInProgress false this,
         axios_post_fan (fan_payload this) :: errors this))
  /\ (forall s k, In k (owned s) -> In (updateCharacteristic k (Failure e)) (errors s))
  /\ (forall s k v, ~ In (updateCharacteristic k (Value v)) (errors s))
  /\ (forall s,
        (forall k, In k Kind.thermostat -> In k (owned s))
        /\ (forall k, In k Kind.fan ->
              (In k (owned s) <-> fan_enabled s = true /\ fanService s = true))
        /\ List.length Kind.thermostat = 8%nat
        /\ List.length (errors s)
           = (if fan_enabled s && fanService s then 10 else 8)%nat)
  /\ thermostatUpdateInProgress (state_of (doThermostatUpdate_flush net this)) = false
  /\ fanUpdateInProgress (state_of (doFanUpdate_flush net this)) = false
  /\ (forall net',
        exists rest,
          trace_of (interval_tick net' (state_of (doThermostatUpdate_flush net this)))
          = axios_get_thermostat :: rest).
Proof.
  intros errors.
  split; [|split; [|split; [|split; [|split; [|split; [|split; [|split; [|split]]]]]]]].
  - intros H. rewrite refreshStatus_run, H. reflexivity.
  - intros d Hd Hfan Hf. rewrite refreshStatus_run, Hd. cbv zeta. rewrite Hfan, Hf.
    reflexivity.
  - intros Hc Hp. rewrite doThermostatUpdate_flush_run, Hc, Hp. reflexivity.
  - intros Hfan Hp. rewrite doFanUpdate_flush_run, Hfan, Hp. reflexivity.
  - intros s k Hk. unfold errors.
    apply (in_map (fun k => updateCharacteristic k (Failure e))), Hk.
  - intros s k v. apply no_value_in_failures.
  - intros s. unfold errors, owned. split; [|split; [|split]].
    + intros k Hk. apply in_or_app. left. exact Hk.
    + intros k Hk. rewrite in_app_iff. split.
      * intros [Ht | Hf].
        -- exfalso. cbn in Hk, Ht. clear - Hk Ht.
           destruct Hk as [<- | [<- | []]];
             repeat (destruct Ht as [Ht | Ht]; [discriminate Ht|]); exact Ht.
        -- destruct (fan_enabled s), (fanService s); try (split; reflexivity);
             destruct Hf.
      * intros [-> ->]. right. exact Hk.
    + reflexivity.
    + rewrite length_map, length_app.
      destruct (fan_enabled s && fanService s); reflexivity.
  - apply thermostat_flag_after_flush.
  - apply fan_flag_after_flush.
  - intros net'. apply interval_tick_passes, thermostat_flag_after_flush.
Qed.

Lemma failure_broadcasts_error_and_clears_flag_witness :
  refreshStatus Sample.offline Sample.fahrenheit_thermostat
  = (Normal tt, Sample.fahrenheit_thermostat,
     axios_get_thermostat :: refreshAccessToken
       :: map (fun k => updateCharacteristic k (Failure Sample.transport_error))
            (owned Sample.fahrenheit_thermostat))
  /\ refreshStatus Sample.fan_unreachable Sample.fahrenheit_thermostat
     = (Normal tt, set_device Sample.fahrenheit_device Sample.fahrenheit_thermostat,
        axios_get_thermostat :: axios_get_fan :: refreshAccessToken
          :: map (fun k => updateCharacteristic k (Failure Sample.transport_error))
               (owned (set_device Sample.fahrenheit_device Sample.fahrenheit_thermostat)))
  /\ doThermostatUpdate_flush Sample.writes_rejected Sample.fahrenheit_edited
     = (Normal tt, set_thermostatUpdateInProgress false Sample.fahrenheit_edited,
        axios_post_thermostat (thermostat_payload Sample.fahrenheit_edited)
          :: map (fun k => updateCharacteristic k (Failure Sample.transport_error))
               (owned Sample.fahrenheit_edited))
  /\ doFanUpdate_flush Sample.writes_rejected Sample.fahrenheit_thermostat
     = (Normal tt, set_fanUpdateInProgress false Sample.fahrenheit_thermostat,
        axios_post_fan (fan_payload Sample.fahrenheit_thermostat)
          :: map (fun k => updateCharacteristic k (Failure Sample.transport_error))
               (owned Sample.fahrenheit_thermostat))
  /\ In (updateCharacteristic Kind.Active (Failure Sample.transport_error))
       (map (fun k => updateCharacteristic k (Failure Sample.transport_error))
          (owned Sample.fahrenheit_thermostat)).
Proof.
  split; [|split; [|split; [|split]]].
  - apply (failure_broadcasts_error_and_clears_flag
             Sample.offline Sample.fahrenheit_thermostat Sample.transport_error).
    reflexivity.
  - apply (failure_broadcasts_error_and_clears_flag
             Sample.fan_unreachable Sample.fahrenheit_thermostat Sample.transport_error);
      reflexivity.
  - apply (failure_broadcasts_error_and_clears_flag
             Sample.writes_rejected Sample.fahrenheit_edited Sample.transport_error);
      reflexivity.
  - apply (failure_broadcasts_error_and_clears_flag
             Sample.writes_rejected Sample.fahrenheit_thermostat Sample.transport_error);
      reflexivity.
  - destruct (failure_broadcasts_error_and_clears_flag
                Sample.writes_rejected Sample.fahrenheit_thermostat Sample.transport_error)
      as (_ & _ & _ & _ & Hin & _ & Hown & _).
    apply Hin.
    apply (proj1 (proj2 (Hown Sample.fahrenheit_thermostat)) Kind.Active).
    + right. left. reflexivity.
    + split; reflexivity.
Defined.

(** C2 fails where it lets the fan characteristics follow the fan
    capability alone.  On an accessory built for a device without a fan
    there is no Fanv2 service; a refresh that finds the fan enabled, and not
    hidden, does not add one; and a failure afterwards publishes the error
    on the eight thermostat characteristics, not on the two of the fan. *)
Lemma failure_broadcast_without_fan_service_counterexample :
  fan_enabled Sample.fan_found_later = true
  /\ hide_fan (platform Sample.fan_found_later) = false
  /\ ~ In (updateCharacteristic Kind.Active (Failure Sample.transport_error))
         (trace_of (refreshStatus Sample.offline Sample.fan_found_later))
  /\ ~ In (updateCharacteristic Kind.TargetFanState (Failure Sample.transport_error))
         (trace_of (refreshStatus Sample.offline Sample.fan_found_later))
  /\ trace_of (refreshStatus Sample.offline Sample.fan_found_later)
     = axios_get_thermostat :: refreshAccessToken
         :: map (fun k => updateCharacteristic k (Failure Sample.transport_error))
              Kind.thermostat.
Proof.
  vm_compute. repeat split; try reflexivity;
    intros H; repeat (destruct H as [H | H]; [discriminate H|]); exact H.
Qed.

(** ** The valid target states *)

Lemma lit_inj (a b : Z) : lit a = lit b -> a = b.
Proof.
  unfold JS.lit, JS.num. intros H.
  assert (E : Q2Qc (inject_Z a) = Q2Qc (inject_Z b))
    by exact (f_equal (fun v => match v with JS.Num q => q | _ => Q2Qc 0 end) H).
  apply Q2Qc_eq_iff in E. apply (proj1 (inject_Z_injective a b)), E.
Qed.

Lemma includes_In (l : list string) (s : string) : JS.includes l s = true <-> In s l.
Proof.
  unfold JS.includes. rewrite existsb_exists. split.
  - intros (x & Hx & E). apply String.eqb_eq in E. now subst x.
  - intros H. exists s. split; [exact H|apply String.eqb_refl].
Qed.

Lemma TargetState_filter (this : TCCthermostat) :
  TargetState this
  = map snd (filter (fun m => JS.includes (allowedModes (device this)) (fst m))
               emission_order).
Proof.
  unfold TargetState, emission_order, JS.pop, JS.push. cbn [removelast filter fst map snd].
  destruct (JS.includes (allowedModes (device this)) "Cool"),
    (JS.includes (allowedModes (device this)) "Heat"),
    (JS.includes (allowedModes (device this)) "Off"),
    (JS.includes (allowedModes (device this)) "Auto"); reflexivity.
Qed.

(** C6.  [TargetState] returns the target states whose mode name is in
    [device.allowedModes], in the order Cool, Heat, Off, Auto: a state is in
    the result exactly when its mode name is allowed, the placeholder [4] is
    never in it, and for the allowed modes Heat and Off the result is Heat
    then Off. *)
Theorem TargetState_allowed_in_emission_order (this : TCCthermostat) :
  let allowed := allowedModes (device this) in
  TargetState this
  = map snd (filter (fun m => JS.includes allowed (fst m)) emission_order)
  /\ (forall v, In v (TargetState this)
                <-> exists name, In (name, v) emission_order /\ In name allowed)
  /\ ~ In (lit 4) (TargetState this)
  /\ (allowed = ["Heat"; "Off"] ->
      TargetState this = [TargetHeatingCoolingState.HEAT; TargetHeatingCoolingState.OFF]).
Proof.
  intros allowed.
  assert (Hin : forall v, In v (TargetState this)
                  <-> exists name, In (name, v) emission_order /\ In name allowed).
  { intros v. rewrite TargetState_filter. fold allowed. rewrite in_map_iff. split.
    - intros ([name v'] & Hv & Hf). cbn in Hv. subst v'.
      apply filter_In in Hf. destruct Hf as [Hm Hinc]. cbn in Hinc.
      exists name. split; [exact Hm|now apply includes_In].
    - intros (name & Hm & Ha). exists (name, v). split; [reflexivity|].
      apply filter_In. split; [exact Hm|now apply includes_In]. }
  split; [apply TargetState_filter|]. split; [exact Hin|]. split.
  - intros H. apply Hin in H. destruct H as (name & Hm & _).
    unfold emission_order in Hm. cbn [In] in Hm.
    destruct Hm as [E | [E | [E | [E | []]]]];
      apply (f_equal snd) in E; cbn [snd] in E; symmetry in E;
      apply lit_inj in E; discriminate E.
  - intros Ha. rewrite TargetState_filter. fold allowed. rewrite Ha. reflexivity.
Qed.

Lemma TargetState_allowed_in_emission_order_witness :
  TargetState Sample.celsius_thermostat
  = [TargetHeatingCoolingState.HEAT; TargetHeatingCoolingState.OFF].
Proof.
  apply (TargetState_allowed_in_emission_order Sample.celsius_thermostat).
  reflexivity.
Defined.

(** ** The target temperature *)

(** Two evaluated numbers with different numerators are different. *)
Ltac different_numbers H :=
  apply (f_equal (fun v => match v with
                           | JS.Num q => Qnum (Qcanon.this q)
                           | _ => 0%Z
                           end)) in H;
  cbn in H; discriminate H.

(** C8, as the code has it.  After [parseStatus] the target state is the
    one of the remote mode.  When it is Heat, the target temperature
    is the normalized heat setpoint provided that setpoint is positive or
    the device has a (non-zero) minimum heat setpoint; when it is not Heat,
    the normalized cool setpoint provided that setpoint is positive or the
    device has a minimum cool setpoint.  Otherwise the target temperature
    keeps the value it had. *)
Theorem parseStatus_target_temperature_guarded (this : TCCthermostat) :
  let remote := changeableValues (device this) in
  let normalized := toCelsius (parseStatus this) in
  TargetHeatingCoolingState (parseStatus this) = modes (mode remote)
  /\ TargetTemperature (parseStatus this)
     = (if (TargetHeatingCoolingState (parseStatus this)
            === TargetHeatingCoolingState.HEAT)%js
        then if (heatSetpoint remote > lit 0)%js
                || JS.ToBoolean (minHeatSetpoint (device this))
             then normalized (heatSetpoint remote)
             else TargetTemperature this
        else if (coolSetpoint remote > lit 0)%js
                || JS.ToBoolean (minCoolSetpoint (device this))
             then normalized (coolSetpoint remote)
             else TargetTemperature this).
Proof.
  intros remote normalized. subst remote normalized.
  destruct (parseStatus_fields this) as (_ & _ & _ & S & T).
  split; [exact S|]. rewrite S. exact T.
Qed.

(** C8 fails on a heat-only unit that is off: the cool setpoint is 0, there
    is no cool range, and the target temperature the host had set (21)
    survives the refresh instead of becoming the normalized cool setpoint
    (0). *)
Lemma parseStatus_target_temperature_counterexample :
  ~ (TargetTemperature (parseStatus Sample.celsius_edited)
     = if (TargetHeatingCoolingState (parseStatus Sample.celsius_edited)
           === TargetHeatingCoolingState.HEAT)%js
       then toCelsius (parseStatus Sample.celsius_edited)
              (heatSetpoint (changeableValues (device Sample.celsius_edited)))
       else toCelsius (parseStatus Sample.celsius_edited)
              (coolSetpoint (changeableValues (device Sample.celsius_edited)))).
Proof.
  vm_compute. intros H. different_numbers H.
Qed.

(** C10, as the code has it.  With a remote heat setpoint of 0, setting the
    target state to Heat leaves [toCelsius(0)] in the target temperature
    whatever it held: 0 when the display unit is Celsius, -18 otherwise.  A
    refresh of the same object keeps the target temperature when the remote
    mode is Heat and the device has no (or a zero) minimum heat setpoint. *)
Theorem setTargetHeatingCoolingState_overwrites_on_zero_setpoint (this : TCCthermostat) :
  heatSetpoint (changeableValues (device this)) = lit 0 ->
  let r := setTargetHeatingCoolingState TargetHeatingCoolingState.HEAT this in
  TargetTemperature (state_of r) = toCelsius this (lit 0)
  /\ ((TemperatureDisplayUnits this === TemperatureDisplayUnits.CELSIUS)%js = true ->
      TargetTemperature (state_of r) = lit 0)
  /\ ((TemperatureDisplayUnits this === TemperatureDisplayUnits.CELSIUS)%js = false ->
      TargetTemperature (state_of r) = lit (-18))
  /\ (mode (changeableValues (device this)) = "Heat" ->
      JS.ToBoolean (minHeatSetpoint (device this)) = false ->
      TargetTemperature (parseStatus this) = TargetTemperature this).
Proof.
  intros Hzero r.
  assert (E : TargetTemperature (state_of r) = toCelsius this (lit 0)).
  { subst r. cbn. rewrite Hzero. reflexivity. }
  split; [exact E|]. rewrite E. split; [|split].
  - intros Hunit. unfold toCelsius. rewrite Hunit. reflexivity.
  - intros Hunit. unfold lit at 1. rewrite (toCelsius_Num this Hunit).
    apply (f_equal JS.Num), Qc_is_canon. reflexivity.
  - intros Hmode Hmin.
    destruct (parseStatus_fields this) as (_ & _ & _ & _ & T).
    rewrite T, Hmode, Hzero, Hmin. reflexivity.
Qed.

Lemma setTargetHeatingCoolingState_overwrites_on_zero_setpoint_witness :
  TargetTemperature
    (state_of (setTargetHeatingCoolingState TargetHeatingCoolingState.HEAT
                 (Sample.idle_heat_edited JS.undefined))) = lit (-18)
  /\ TargetTemperature (parseStatus (Sample.idle_heat_edited JS.undefined))
     = TargetTemperature (Sample.idle_heat_edited JS.undefined).
Proof.
  pose proof (setTargetHeatingCoolingState_overwrites_on_zero_setpoint
                (Sample.idle_heat_edited JS.undefined) eq_refl) as (_ & _ & F & R).
  split; [apply F; reflexivity|apply R; reflexivity].
Defined.

(** C10 fails on its figures and on the refresh: in Fahrenheit the target
    temperature becomes -18, not -17.5; and on a unit with a heat range
    (minimum 50) the refresh does not keep the target temperature either. *)
Lemma setTargetHeatingCoolingState_on_zero_setpoint_counterexample :
  ~ (TargetTemperature
       (state_of (setTargetHeatingCoolingState TargetHeatingCoolingState.HEAT
                    (Sample.idle_heat_edited (lit 50))))
     = JS.Num (Q2Qc (-35 # 2)))
  /\ ~ (TargetTemperature (parseStatus (Sample.idle_heat_edited (lit 50)))
        = TargetTemperature (Sample.idle_heat_edited (lit 50))).
Proof.
  vm_compute. split; intros H; different_numbers H.
Qed.

(** ** The constructor *)

(** When the device has a fan that is not hidden, the constructor leaves a
    Fanv2 service and a subscribed fan pipeline. *)
Lemma constructor_fan_wiring (p : Platform) (cached_Fanv2 : bool) (d : TCCDevice) :
  fan_enabled (constructor p cached_Fanv2 d) = true ->
  fanService (constructor p cached_Fanv2 d) = true
  /\ doFanUpdate_subscribed (constructor p cached_Fanv2 d) = true.
Proof.
  unfold constructor. cbv zeta.
  match goal with |- context [parseStatus ?s] => generalize (parseStatus_resources s) end.
  match goal with |- context [parseStatus ?s] => generalize (parseStatus s) end.
  intros s Hres. unfold fan_enabled, resources in *. cbn in Hres.
  injection Hres as -> -> -> -> _. intros ->. rewrite orb_true_r. split; reflexivity.
Qed.

(** * Further properties *)

(** ** More of [parseStatus] *)

(** The display unit a snapshot settles, given the one held before. *)
Lemma parse_units_TemperatureDisplayUnits (s : TCCthermostat) :
  TemperatureDisplayUnits (parse_units s)
  = if units (device s) =? "Celsius" then TemperatureDisplayUnits.CELSIUS
    else if units (device s) =? "Fahrenheit" then TemperatureDisplayUnits.FAHRENHEIT
    else TemperatureDisplayUnits s.
Proof.
  unfold parse_units. cbv zeta.
  destruct (units (device s) =? "Fahrenheit") eqn:F; cbn [device set_TemperatureDisplayUnits].
  - destruct (units (device s) =? "Celsius") eqn:C; reflexivity.
  - destruct (units (device s) =? "Celsius") eqn:C; reflexivity.
Qed.

Lemma parse_current_state_CurrentHeatingCoolingState (s : TCCthermostat) :
  CurrentHeatingCoolingState (parse_current_state s)
  = if operationStatus_mode (device s) =? "Heat" then lit 1
    else if operationStatus_mode (device s) =? "Cool" then lit 2
    else lit 0.
Proof. unfold parse_current_state. case_conditions; reflexivity. Qed.

Lemma parse_fan_TargetFanState (s : TCCthermostat) :
  TargetFanState (parse_fan s)
  = if fan_enabled s then
      match deviceFan s with
      | Some fan =>
          if fan_mode fan =? "Auto" then TargetFanState.AUTO
          else if fan_mode fan =? "On" then TargetFanState.MANUAL
          else if fan_mode fan =? "Circulate" then TargetFanState.MANUAL
          else TargetFanState s
      | None => TargetFanState s
      end
    else TargetFanState s.
Proof. unfold parse_fan. case_conditions; reflexivity. Qed.

Lemma parse_fan_Active (s : TCCthermostat) :
  Active (parse_fan s)
  = if fan_enabled s then
      match deviceFan s with
      | Some fan =>
          if fan_mode fan =? "Auto" then Active.INACTIVE
          else if fan_mode fan =? "On" then Active.ACTIVE
          else if fan_mode fan =? "Circulate" then Active.INACTIVE
          else Active s
      | None => Active s
      end
    else Active s.
Proof. unfold parse_fan. case_conditions; reflexivity. Qed.

Lemma resources_deviceFan (a b : TCCthermostat) :
  resources a = resources b -> deviceFan a = deviceFan b.
Proof. unfold resources. intros H. now injection H. Qed.

(** The remaining fields after the blocks in sequence. *)
Lemma parse_blocks_rest (s0 s1 s2 s3 s4 s5 s6 s7 : TCCthermostat) :
  s1 = parse_units s0 -> s2 = parse_readings s1 -> s3 = parse_thresholds s2 ->
  s4 = parse_target_state s3 -> s5 = parse_current_state s4 ->
  s6 = parse_target_temperature s5 -> s7 = parse_fan s6 ->
  CurrentTemperature s7 = toCelsius s1 (indoorTemperature (device s0))
  /\ CurrentRelativeHumidity s7 = indoorHumidity (device s0)
  /\ CurrentHeatingCoolingState s7
     = (if operationStatus_mode (device s0) =? "Heat" then lit 1
        else if operationStatus_mode (device s0) =? "Cool" then lit 2
        else lit 0)
  /\ TargetFanState s7
     = (if fan_enabled s0 then
          match deviceFan s0 with
          | Some fan =>
              if fan_mode fan =? "Auto" then TargetFanState.AUTO
              else if fan_mode fan =? "On" then TargetFanState.MANUAL
              else if fan_mode fan =? "Circulate" then TargetFanState.MANUAL
              else TargetFanState s0
          | None => TargetFanState s0
          end
        else TargetFanState s0)
  /\ Active s7
     = (if fan_enabled s0 then
          match deviceFan s0 with
          | Some fan =>
              if fan_mode fan =? "Auto" then Active.INACTIVE
              else if fan_mode fan =? "On" then Active.ACTIVE
              else if fan_mode fan =? "Circulate" then Active.INACTIVE
              else Active s0
          | None => Active s0
          end
        else Active s0).
Proof.
  intros E1 E2 E3 E4 E5 E6 E7.
  assert (R1 : resources s1 = resources s0) by (rewrite E1; apply parse_units_resources).
  assert (R2 : resources s2 = resources s1) by (rewrite E2; apply parse_readings_resources).
  assert (R3 : resources s3 = resources s2) by (rewrite E3; apply parse_thresholds_resources).
  assert (R4 : resources s4 = resources s3)
    by (rewrite E4; apply parse_target_state_resources).
  assert (R5 : resources s5 = resources s4)
    by (rewrite E5; apply parse_current_state_resources).
  assert (R6 : resources s6 = resources s5)
    by (rewrite E6; apply parse_target_temperature_resources).
  assert (R60 : resources s6 = resources s0) by congruence.
  assert (R40 : resources s4 = resources s0) by congruence.
  split; [|split; [|split; [|split]]].
  - kept E7 parse_fan_frame Kind.CurrentTemperature.
    kept E6 parse_target_temperature_frame Kind.CurrentTemperature.
    kept E5 parse_current_state_frame Kind.CurrentTemperature.
    kept E4 parse_target_state_frame Kind.CurrentTemperature.
    kept E3 parse_thresholds_frame Kind.CurrentTemperature.
    rewrite F, F0, F1, F2, F3, E2. cbn.
    now rewrite (resources_device _ _ R1).
  - kept E7 parse_fan_frame Kind.CurrentRelativeHumidity.
    kept E6 parse_target_temperature_frame Kind.CurrentRelativeHumidity.
    kept E5 parse_current_state_frame Kind.CurrentRelativeHumidity.
    kept E4 parse_target_state_frame Kind.CurrentRelativeHumidity.
    kept E3 parse_thresholds_frame Kind.CurrentRelativeHumidity.
    rewrite F, F0, F1, F2, F3, E2. cbn.
    now rewrite (resources_device _ _ R1).
  - kept E7 parse_fan_frame Kind.CurrentHeatingCoolingState.
    kept E6 parse_target_temperature_frame Kind.CurrentHeatingCoolingState.
    rewrite F, F0, E5, parse_current_state_CurrentHeatingCoolingState.
    now rewrite (resources_device _ _ R40).
  - kept E6 parse_target_temperature_frame Kind.TargetFanState.
    kept E5 parse_current_state_frame Kind.TargetFanState.
    kept E4 parse_target_state_frame Kind.TargetFanState.
    kept E3 parse_thresholds_frame Kind.TargetFanState.
    kept E2 parse_readings_frame Kind.TargetFanState.
    kept E1 parse_units_frame Kind.TargetFanState.
    rewrite E7, parse_fan_TargetFanState.
    rewrite (resources_fan_enabled _ _ R60), (resources_deviceFan _ _ R60).
    rewrite F, F0, F1, F2, F3, F4. reflexivity.
  - kept E6 parse_target_temperature_frame Kind.Active.
    kept E5 parse_current_state_frame Kind.Active.
    kept E4 parse_target_state_frame Kind.Active.
    kept E3 parse_thresholds_frame Kind.Active.
    kept E2 parse_readings_frame Kind.Active.
    kept E1 parse_units_frame Kind.Active.
    rewrite E7, parse_fan_Active.
    rewrite (resources_fan_enabled _ _ R60), (resources_deviceFan _ _ R60).
    rewrite F, F0, F1, F2, F3, F4. reflexivity.
Qed.

(** Every field [parseStatus] leaves, from the snapshot and the fields
    before. *)
Lemma parseStatus_rest (this : TCCthermostat) :
  TemperatureDisplayUnits (parseStatus this)
  = (if units (device this) =? "Celsius" then TemperatureDisplayUnits.CELSIUS
     else if units (device this) =? "Fahrenheit" then TemperatureDisplayUnits.FAHRENHEIT
     else TemperatureDisplayUnits this)
  /\ CurrentTemperature (parseStatus this)
     = toCelsius (parseStatus this) (indoorTemperature (device this))
  /\ CurrentRelativeHumidity (parseStatus this) = indoorHumidity (device this)
  /\ CurrentHeatingCoolingState (parseStatus this)
     = (if operationStatus_mode (device this) =? "Heat" then lit 1
        else if operationStatus_mode (device this) =? "Cool" then lit 2
        else lit 0)
  /\ TargetFanState (parseStatus this)
     = (if fan_enabled this then
          match deviceFan this with
          | Some fan =>
              if fan_mode fan =? "Auto" then TargetFanState.AUTO
              else if fan_mode fan =? "On" then TargetFanState.MANUAL
              else if fan_mode fan =? "Circulate" then TargetFanState.MANUAL
              else TargetFanState this
          | None => TargetFanState this
          end
        else TargetFanState this)
  /\ Active (parseStatus this)
     = (if fan_enabled this then
          match deviceFan this with
          | Some fan =>
              if fan_mode fan =? "Auto" then Active.INACTIVE
              else if fan_mode fan =? "On" then Active.ACTIVE
              else if fan_mode fan =? "Circulate" then Active.INACTIVE
              else Active this
          | None => Active this
          end
        else Active this).
Proof.
  destruct (parseStatus_steps this)
    as (s1 & s2 & s3 & s4 & s5 & s6 & E1 & E2 & E3 & E4 & E5 & E6 & E7).
  destruct (parse_blocks this s1 s2 s3 s4 s5 s6 (parseStatus this)
              E1 E2 E3 E4 E5 E6 E7) as (U & _).
  destruct (parse_blocks_rest this s1 s2 s3 s4 s5 s6 (parseStatus this)
              E1 E2 E3 E4 E5 E6 E7) as (T & H & C & F & A).
  assert (N : forall v, toCelsius (parseStatus this) v = toCelsius s1 v)
    by (intros v; apply toCelsius_units, U).
  rewrite N, U, E1, parse_units_TemperatureDisplayUnits, <- E1.
  repeat split; assumption.
Qed.

(** Two objects with the same resources, flags and characteristic fields
    are the same. *)
Lemma thermostat_ext (a b : TCCthermostat) :
  resources a = resources b -> flags a = flags b ->
  (forall k, field k a = field k b) -> a = b.
Proof.
  destruct a, b. unfold resources, flags. cbn. intros R F H.
  injection R as -> -> -> -> ->. injection F as -> -> ->.
  pose proof (H Kind.TemperatureDisplayUnits) as H1.
  pose proof (H Kind.CurrentTemperature) as H2.
  pose proof (H Kind.CurrentRelativeHumidity) as H3.
  pose proof (H Kind.TargetTemperature) as H4.
  pose proof (H Kind.HeatingThresholdTemperature) as H5.
  pose proof (H Kind.CoolingThresholdTemperature) as H6.
  pose proof (H Kind.TargetHeatingCoolingState) as H7.
  pose proof (H Kind.CurrentHeatingCoolingState) as H8.
  pose proof (H Kind.TargetFanState) as H9.
  pose proof (H Kind.Active) as H10.
  cbn in H1, H2, H3, H4, H5, H6, H7, H8, H9, H10. congruence.
Qed.

(** Parsing the same snapshot again changes nothing. *)
Lemma parse_again (this p q : TCCthermostat) :
  p = parseStatus this -> q = parseStatus p -> q = p.
Proof.
  intros Ep Eq.
  pose proof (parseStatus_resources this) as R. rewrite <- Ep in R.
  pose proof (parseStatus_resources p) as R'. rewrite <- Eq in R'.
  pose proof (parseStatus_flags p) as F'. rewrite <- Eq in F'.
  pose proof (parseStatus_fields this) as (_ & H & C & S & T). rewrite <- Ep in H, C, S, T.
  pose proof (parseStatus_rest this) as (U & CT & RH & CH & TF & AC).
  rewrite <- Ep in U, CT, RH, CH, TF, AC.
  pose proof (parseStatus_fields p) as (_ & H' & C' & S' & T'). rewrite <- Eq in H', C', S', T'.
  pose proof (parseStatus_rest p) as (U' & CT' & RH' & CH' & TF' & AC').
  rewrite <- Eq in U', CT', RH', CH', TF', AC'.
  assert (D : device p = device this) by exact (resources_device _ _ R).
  assert (Fe : fan_enabled p = fan_enabled this) by exact (resources_fan_enabled _ _ R).
  assert (Df : deviceFan p = deviceFan this) by exact (resources_deviceFan _ _ R).
  rewrite D in *. rewrite Fe, Df in *.
  assert (Uq : TemperatureDisplayUnits q = TemperatureDisplayUnits p).
  { rewrite U', U. destruct (units (device this) =? "Celsius"); [reflexivity|].
    destruct (units (device this) =? "Fahrenheit"); reflexivity. }
  assert (N : forall v, toCelsius q v = toCelsius p v)
    by (intros v; apply toCelsius_units, Uq).
  rewrite !N in *.
  apply thermostat_ext; [exact R'|exact F'|].
  intros k. destruct k; cbn [field].
  - exact Uq.
  - congruence.
  - congruence.
  - rewrite T', T.
    destruct (modes (mode (changeableValues (device this)))
              === TargetHeatingCoolingState.HEAT)%js.
    + destruct ((heatSetpoint (changeableValues (device this)) > lit 0)%js
                || JS.ToBoolean (minHeatSetpoint (device this))); reflexivity.
    + destruct ((coolSetpoint (changeableValues (device this)) > lit 0)%js
                || JS.ToBoolean (minCoolSetpoint (device this))); reflexivity.
  - rewrite H', H.
    destruct (heatSetpoint (changeableValues (device this)) > lit 0)%js; reflexivity.
  - rewrite C', C.
    destruct (coolSetpoint (changeableValues (device this)) > lit 0)%js; reflexivity.
  - congruence.
  - congruence.
  - rewrite TF', TF. destruct (fan_enabled this); [|reflexivity].
    destruct (deviceFan this) as [fan|]; [|reflexivity].
    destruct (fan_mode fan =? "Auto"); [reflexivity|].
    destruct (fan_mode fan =? "On"); [reflexivity|].
    destruct (fan_mode fan =? "Circulate"); reflexivity.
  - rewrite AC', AC. destruct (fan_enabled this); [|reflexivity].
    destruct (deviceFan this) as [fan|]; [|reflexivity].
    destruct (fan_mode fan =? "Auto"); [reflexivity|].
    destruct (fan_mode fan =? "On"); [reflexivity|].
    destruct (fan_mode fan =? "Circulate"); reflexivity.
Qed.

(** X1.  [parseStatus] is idempotent: a second parse of the same snapshot
    leaves the object as the first one did. *)
Theorem parseStatus_idempotent (this : TCCthermostat) :
  parseStatus (parseStatus this) = parseStatus this.
Proof. exact (parse_again this _ _ eq_refl eq_refl). Qed.

(** X2.  [parseStatus] writes characteristic fields only: the snapshot,
    the fan resource, the configuration, the services and the flags stay as
    they were; and without an enabled fan or without a fetched fan resource
    the two fan fields stay as they were too. *)
Theorem parseStatus_writes_characteristics_only (this : TCCthermostat) :
  resources (parseStatus this) = resources this
  /\ flags (parseStatus this) = flags this
  /\ (fan_enabled this = false \/ deviceFan this = None ->
      TargetFanState (parseStatus this) = TargetFanState this
      /\ Active (parseStatus this) = Active this).
Proof.
  split; [apply parseStatus_resources|]. split; [apply parseStatus_flags|].
  destruct (parseStatus_rest this) as (_ & _ & _ & _ & TF & AC).
  intros [H | H]; rewrite TF, AC, H; [split; reflexivity|].
  destruct (fan_enabled this); split; reflexivity.
Qed.

Lemma parseStatus_writes_characteristics_only_witness :
  TargetFanState (parseStatus Sample.celsius_edited) = TargetFanState Sample.celsius_edited
  /\ Active (parseStatus Sample.celsius_edited) = Active Sample.celsius_edited.
Proof.
  apply (parseStatus_writes_characteristics_only Sample.celsius_edited).
  left. reflexivity.
Defined.

(** X3.  The current heating-cooling state after [parseStatus] is 1 for an
    operation mode Heat, 2 for Cool and 0 for anything else: never 3 (Auto)
    and never unset, whatever the target mode of the snapshot is. *)
Theorem parseStatus_current_state_from_operation (this : TCCthermostat) :
  let current := CurrentHeatingCoolingState (parseStatus this) in
  let operation := operationStatus_mode (device this) in
  current = (if operation =? "Heat" then lit 1
             else if operation =? "Cool" then lit 2 else lit 0)
  /\ (current = lit 0 \/ current = lit 1 \/ current = lit 2)
  /\ (current === TargetHeatingCoolingState.AUTO)%js = false
  /\ (current === JS.undefined)%js = false.
Proof.
  intros current operation. subst current operation.
  destruct (parseStatus_rest this) as (_ & _ & _ & CH & _). rewrite CH.
  destruct (operationStatus_mode (device this) =? "Heat");
    [|destruct (operationStatus_mode (device this) =? "Cool")];
    repeat split; auto.
Qed.

(** ** The fan mode, there and back *)

Lemma fan_payload_cases (this : TCCthermostat) :
  fan_payload this
  = {| fan_mode :=
        if (TargetFanState this === TargetFanState.AUTO)%js then "Auto"
        else if (TargetFanState this === TargetFanState.MANUAL)%js
                && (Active this === Active.ACTIVE)%js then "On"
        else if (TargetFanState this === TargetFanState.MANUAL)%js
                && (Active this === Active.INACTIVE)%js then "Circulate"
        else "Auto" |}.
Proof. unfold fan_payload. case_conditions; reflexivity. Qed.

(** The payload after a parse, from the fan resource parsed. *)
Lemma fan_payload_after_parse (this p : TCCthermostat) (f : FanChangeableValues) :
  p = parseStatus this -> fan_enabled this = true -> deviceFan this = Some f ->
  In (fan_mode f) ["Auto"; "On"; "Circulate"] ->
  fan_payload p = f.
Proof.
  intros Ep Hfan Hf Hmode.
  destruct (parseStatus_rest this) as (_ & _ & _ & _ & TF & AC).
  rewrite <- Ep in TF, AC. rewrite Hfan, Hf in TF, AC.
  rewrite fan_payload_cases, TF, AC. destruct f as [m]. cbn [fan_mode] in *.
  destruct Hmode as [<- | [<- | [<- | []]]]; reflexivity.
Qed.

(** X4.  A fan mode that the API reports as Auto, On or Circulate is the
    mode [pushFanChanges] would post right after the refresh that parsed
    it. *)
Theorem fan_mode_survives_parse (this : TCCthermostat) (f : FanChangeableValues) :
  fan_enabled this = true -> deviceFan this = Some f ->
  In (fan_mode f) ["Auto"; "On"; "Circulate"] ->
  fan_payload (parseStatus this) = f.
Proof. intros. now apply (fan_payload_after_parse this _ f eq_refl). Qed.

Lemma fan_mode_survives_parse_witness :
  fan_payload (parseStatus (set_deviceFan (Some {| fan_mode := "On" |})
                              Sample.fahrenheit_thermostat))
  = {| fan_mode := "On" |}.
Proof.
  apply (fan_mode_survives_parse
           (set_deviceFan (Some {| fan_mode := "On" |}) Sample.fahrenheit_thermostat)).
  - reflexivity.
  - reflexivity.
  - right. left. reflexivity.
Defined.

Lemma fan_payload_mode (this : TCCthermostat) :
  In (fan_mode (fan_payload this)) ["Auto"; "On"; "Circulate"].
Proof.
  rewrite fan_payload_cases. cbn [fan_mode In].
  case_conditions; auto.
Qed.

(** X5.  The payload that [pushFanChanges] builds always carries one of
    the modes Auto, On and Circulate, whatever the two fan fields hold.  Once the device reports the
    posted mode back, the refresh leaves fields that would post the same mode
    again; but under a target state Auto the active state is not kept: the
    refresh makes it inactive. *)
Theorem fan_payload_closed_under_refresh (this : TCCthermostat) :
  fan_enabled this = true ->
  let reported := set_deviceFan (Some (fan_payload this)) this in
  In (fan_mode (fan_payload this)) ["Auto"; "On"; "Circulate"]
  /\ fan_payload (parseStatus reported) = fan_payload this
  /\ ((TargetFanState this === TargetFanState.AUTO)%js = true ->
      Active (parseStatus reported) = Active.INACTIVE).
Proof.
  intros Hfan reported.
  split; [apply fan_payload_mode|]. split.
  - apply (fan_payload_after_parse reported _ (fan_payload this) eq_refl).
    + exact Hfan.
    + reflexivity.
    + apply fan_payload_mode.
  - intros Hauto.
    destruct (parseStatus_rest reported) as (_ & _ & _ & _ & _ & AC).
    rewrite AC. change (fan_enabled reported) with (fan_enabled this). rewrite Hfan.
    change (deviceFan reported) with (Some (fan_payload this)).
    rewrite fan_payload_cases, Hauto. reflexivity.
Qed.

Lemma fan_payload_closed_under_refresh_witness :
  Active (parseStatus
            (set_deviceFan
               (Some (fan_payload
                        (set_TargetFanState TargetFanState.AUTO
                           (set_Active Active.ACTIVE Sample.fahrenheit_thermostat))))
               (set_TargetFanState TargetFanState.AUTO
                  (set_Active Active.ACTIVE Sample.fahrenheit_thermostat))))
  = Active.INACTIVE.
Proof.
  apply (fan_payload_closed_under_refresh
           (set_TargetFanState TargetFanState.AUTO
              (set_Active Active.ACTIVE Sample.fahrenheit_thermostat)));
    reflexivity.
Defined.

(** ** The mode table *)

(** X6.  The two mode tables are inverse of each other on the four mode
    names: each entry of [honeywellMode] is found again at the index that
    [modes] gives it, and the entry found at an index is a name that
    [modes] sends back to that index.  Nothing is said of the other keys
    of [modes]. *)
Theorem modes_honeywellMode_inverse :
  (forall name,
     In name honeywellMode -> JS.index honeywellMode (modes name) = Some name)
  /\ (forall v,
        match JS.index honeywellMode v with
        | Some name => modes name = v
        | None => True
        end).
Proof.
  split.
  - intros name H. cbn [honeywellMode In] in H.
    destruct H as [<- | [<- | [<- | [<- | []]]]]; reflexivity.
  - intros [| |q]; cbn [JS.index]; trivial. cbv zeta.
    remember (Qfloor q) as z eqn:Hz. clear Hz.
    destruct (Qc_eq_bool (JS.num z) q) eqn:Eq; cbn [andb]; trivial.
    destruct (0 <=? z)%Z eqn:Ez; trivial.
    apply Qc_eq_bool_true_iff in Eq. apply Z.leb_le in Ez. subst q.
    destruct (Z.to_nat z) as [|[|[|[|n]]]] eqn:En; cbn [honeywellMode nth_error].
    + replace z with 0%Z by lia. reflexivity.
    + replace z with 1%Z by lia. reflexivity.
    + replace z with 2%Z by lia. reflexivity.
    + replace z with 3%Z by lia. reflexivity.
    + destruct n; exact I.
Qed.

(** ** A flush with nothing to push *)

Lemma gt_is_number (v w : JS.value) : (v > w)%js = true -> exists q, v = JS.Num q.
Proof. destruct v; try discriminate. eauto. Qed.

Lemma toCelsius_number (s : TCCthermostat) (q : Qc) :
  exists c, toCelsius s (JS.Num q) = JS.Num c.
Proof.
  unfold toCelsius.
  destruct (TemperatureDisplayUnits s === TemperatureDisplayUnits.CELSIUS)%js;
    eexists; reflexivity.
Qed.

Lemma strict_neq_number (c : Qc) : (JS.Num c !== JS.Num c)%js = false.
Proof. unfold JS.strict_neq, JS.strict_eq. now rewrite Qc_eq_bool_refl. Qed.

Lemma strict_neq_modes (name : string) : (modes name !== modes name)%js = false.
Proof.
  unfold modes.
  destruct (name =? "Off"); [reflexivity|]. destruct (name =? "Heat"); [reflexivity|].
  destruct (name =? "Cool"); [reflexivity|]. destruct (name =? "Auto"); reflexivity.
Qed.

(** With both remote setpoints positive, nothing differs after a parse. *)
Lemma unchanged_after_parse (this p : TCCthermostat) :
  p = parseStatus this ->
  (heatSetpoint (changeableValues (device this)) > lit 0)%js = true ->
  (coolSetpoint (changeableValues (device this)) > lit 0)%js = true ->
  changed p = false.
Proof.
  intros Ep Hh Hc.
  pose proof (parseStatus_resources this) as R. rewrite <- Ep in R.
  pose proof (parseStatus_fields this) as (_ & H & C & S & _).
  rewrite <- Ep in H, C, S. rewrite Hh in H. rewrite Hc in C.
  unfold changed. rewrite (resources_device _ _ R), H, C, S.
  destruct (gt_is_number _ _ Hh) as [h ->]. destruct (gt_is_number _ _ Hc) as [c ->].
  destruct (toCelsius_number p h) as [h' ->]. destruct (toCelsius_number p c) as [c' ->].
  now rewrite !strict_neq_number, strict_neq_modes.
Qed.

(** X7.  Right after a refresh of a device whose two setpoints are
    positive there is nothing to push: [pushChanges] completes without a
    request and without touching the object. *)
Theorem pushChanges_idle_after_parse (net : Network) (this : TCCthermostat) :
  (heatSetpoint (changeableValues (device this)) > lit 0)%js = true ->
  (coolSetpoint (changeableValues (device this)) > lit 0)%js = true ->
  changed (parseStatus this) = false
  /\ pushChanges net (parseStatus this) = (Normal tt, parseStatus this, []).
Proof.
  intros Hh Hc.
  pose proof (unchanged_after_parse this _ eq_refl Hh Hc) as H.
  split; [exact H|]. rewrite pushChanges_run.
  generalize dependent (parseStatus this). intros p ->. reflexivity.
Qed.

Lemma pushChanges_idle_after_parse_witness :
  pushChanges Sample.online (parseStatus Sample.fahrenheit_thermostat)
  = (Normal tt, parseStatus Sample.fahrenheit_thermostat, []).
Proof.
  apply (pushChanges_idle_after_parse Sample.online Sample.fahrenheit_thermostat);
    reflexivity.
Defined.

(** The thermostat flush after an edit of the target temperature alone. *)
Lemma flush_after_target_temperature_edit
  (net : Network) (p : TCCthermostat) (value : JS.value) :
  changed p = false ->
  trace_of (doThermostatUpdate_flush net (state_of (setTargetTemperature value p))) = []
  /\ TargetTemperature
       (state_of (doThermostatUpdate_flush net (state_of (setTargetTemperature value p))))
     = value.
Proof.
  intros H. rewrite doThermostatUpdate_flush_run.
  change (changed (state_of (setTargetTemperature value p))) with (changed p).
  rewrite H. split; reflexivity.
Qed.

(** X8.  An edit of the target temperature alone is never pushed:
    [pushChanges] compares the thresholds and the target state only, so with
    the object otherwise as the refresh left it the flush that follows
    [setTargetTemperature] requests nothing, and the edited value stays in
    the field. *)
Theorem target_temperature_edit_is_not_pushed
  (net : Network) (this : TCCthermostat) (value : JS.value) :
  (heatSetpoint (changeableValues (device this)) > lit 0)%js = true ->
  (coolSetpoint (changeableValues (device this)) > lit 0)%js = true ->
  let edited := state_of (setTargetTemperature value (parseStatus this)) in
  trace_of (doThermostatUpdate_flush net edited) = []
  /\ TargetTemperature (state_of (doThermostatUpdate_flush net edited)) = value.
Proof.
  intros Hh Hc edited. subst edited.
  apply flush_after_target_temperature_edit.
  exact (unchanged_after_parse this _ eq_refl Hh Hc).
Qed.

Lemma target_temperature_edit_is_not_pushed_witness :
  trace_of (doThermostatUpdate_flush Sample.online
              (state_of (setTargetTemperature (lit 23)
                           (parseStatus Sample.fahrenheit_thermostat)))) = [].
Proof.
  apply (target_temperature_edit_is_not_pushed
           Sample.online Sample.fahrenheit_thermostat (lit 23));
    reflexivity.
Defined.

(** ** Requests that fail, requests that succeed *)

(** The two ways a refresh can end. *)
Lemma refreshStatus_cases (net : Network) (this : TCCthermostat) :
  exists (s : TCCthermostat) (fetches : list event),
    (fetches = [axios_get_thermostat] \/ fetches = [axios_get_thermostat; axios_get_fan])
    /\ flags s = flags this
    /\ (if refresh_fails net this
        then exists e, refreshStatus net this
                       = (Normal tt, s, (fetches ++ refresh_failure e s)%list)
        else refreshStatus net this = (Normal tt, s, (fetches ++ refresh_success s)%list)).
Proof.
  rewrite refreshStatus_run. unfold refresh_fails.
  destruct (get_thermostat net) as [e | d].
  - exists this, [axios_get_thermostat]. split; [auto|]. split; [reflexivity|].
    exists e. reflexivity.
  - cbv zeta. destruct (fan_enabled (set_device d this)).
    + destruct (get_fan net) as [e | f]; cbn [andb].
      * exists (set_device d this), [axios_get_thermostat; axios_get_fan].
        split; [auto|]. split; [reflexivity|]. exists e. reflexivity.
      * pose proof (parseStatus_flags (set_deviceFan (Some f) (set_device d this))) as F.
        revert F.
        generalize (parseStatus (set_deviceFan (Some f) (set_device d this))). intros s F.
        exists s, [axios_get_thermostat; axios_get_fan].
        split; [auto|]. split; [exact F|]. reflexivity.
    + pose proof (parseStatus_flags (set_device d this)) as F. revert F.
      generalize (parseStatus (set_device d this)). intros s F.
      exists s, [axios_get_thermostat]. split; [auto|]. split; [exact F|]. reflexivity.
Qed.

Lemma refreshStatus_flags (net : Network) (this : TCCthermostat) :
  flags (state_of (refreshStatus net this)) = flags this.
Proof.
  destruct (refreshStatus_cases net this) as (s & fetches & _ & F & H).
  destruct (refresh_fails net this); [destruct H as [e H]|]; rewrite H; exact F.
Qed.

(** X9.  No rejection escapes the scheduled activities: the refresh, the
    interval tick and the two flush subscribers always complete normally,
    whatever the API answers; [pushChanges] itself throws exactly when it
    posts and the post is rejected. *)
Theorem scheduled_activities_never_throw (net : Network) (this : TCCthermostat) :
  result_of (refreshStatus net this) = Normal tt
  /\ result_of (interval_tick net this) = Normal tt
  /\ result_of (doThermostatUpdate_flush net this) = Normal tt
  /\ result_of (doFanUpdate_flush net this) = Normal tt
  /\ (forall e, result_of (pushChanges net this) = Throw e
                <-> changed this = true /\ post_thermostat net = inl e).
Proof.
  split; [apply refreshStatus_completes|]. split; [|split; [|split]].
  - unfold interval_tick, bind, get_this, modify.
    destruct (interval_skipping this && thermostatUpdateInProgress this); [reflexivity|].
    pose proof (refreshStatus_completes net (set_interval_skipping false this)) as H.
    destruct (refreshStatus net (set_interval_skipping false this)) as [[r s] t].
    exact H.
  - rewrite doThermostatUpdate_flush_run.
    destruct (changed this); [destruct (post_thermostat net)|]; reflexivity.
  - rewrite doFanUpdate_flush_run.
    destruct (fan_enabled this); [destruct (post_fan net)|]; reflexivity.
  - intros e. rewrite pushChanges_run.
    destruct (changed this).
    + destruct (post_thermostat net) as [e' | u]; cbn.
      * split; [intros H; injection H as ->; auto|intros [_ H]; injection H as ->; auto].
      * rewrite refreshStatus_completes. split; [discriminate|intros [_ H]; discriminate].
    + cbn. split; [discriminate|intros [H _]; discriminate].
Qed.

Lemma in_publications (f : Kind.t -> published) (l : list Kind.t) (ev : event) :
  In ev (map (fun k => updateCharacteristic k (f k)) l)
  <-> exists k, In k l /\ ev = updateCharacteristic k (f k).
Proof.
  rewrite in_map_iff. split; intros (k & A & B); exists k; auto.
Qed.

Lemma in_fetches (fetches : list event) (ev : event) :
  fetches = [axios_get_thermostat] \/ fetches = [axios_get_thermostat; axios_get_fan] ->
  In ev fetches -> ev = axios_get_thermostat \/ ev = axios_get_fan.
Proof.
  intros [-> | ->]; cbn; intuition.
Qed.

(** X10.  The refresh path asks for a new access token exactly when one of
    its requests is rejected, and it never posts. *)
Theorem refreshStatus_token_refresh_iff_rejected (net : Network) (this : TCCthermostat) :
  (In refreshAccessToken (trace_of (refreshStatus net this))
   <-> refresh_fails net this = true)
  /\ existsb is_post (trace_of (refreshStatus net this)) = false.
Proof.
  split; [|apply refreshStatus_no_post].
  destruct (refreshStatus_cases net this) as (s & fetches & Hf & _ & H).
  destruct (refresh_fails net this).
  - destruct H as [e ->]. cbn [trace_of snd]. split; [reflexivity|]. intros _.
    apply in_or_app. right. left. reflexivity.
  - rewrite H. cbn [trace_of snd]. split; [|discriminate]. intros Hin.
    apply in_app_or in Hin. destruct Hin as [Hin | Hin].
    + destruct (in_fetches _ _ Hf Hin); discriminate.
    + unfold refresh_success in Hin. apply in_publications in Hin.
      destruct Hin as (k & _ & Hk). discriminate.
Qed.

(** X11.  After a refresh whose requests all succeed the host has been
    told what the object holds, no more and no less: a value is published
    on a characteristic exactly when the characteristic is owned and the
    value is the one of its field after the refresh; no error is
    published. *)
Theorem refreshStatus_publishes_the_fields (net : Network) (this : TCCthermostat) :
  refresh_fails net this = false ->
  let r := refreshStatus net this in
  (forall k v,
     In (updateCharacteristic k (Value v)) (trace_of r)
     <-> In k (owned (state_of r)) /\ v = field k (state_of r))
  /\ (forall k e, ~ In (updateCharacteristic k (Failure e)) (trace_of r)).
Proof.
  intros Hok r. subst r.
  destruct (refreshStatus_cases net this) as (s & fetches & Hf & _ & H).
  rewrite Hok in H. rewrite H. cbn [trace_of state_of fst snd]. split.
  - intros k v. rewrite in_app_iff. unfold refresh_success. rewrite in_publications. split.
    + intros [Hin | (k' & Hk & E)].
      * destruct (in_fetches _ _ Hf Hin); discriminate.
      * injection E as -> ->. auto.
    + intros [Hk ->]. right. exists k. auto.
  - intros k e Hin. apply in_app_or in Hin. destruct Hin as [Hin | Hin].
    + destruct (in_fetches _ _ Hf Hin); discriminate.
    + unfold refresh_success in Hin. apply in_publications in Hin.
      destruct Hin as (k' & _ & E). discriminate.
Qed.

Lemma refreshStatus_publishes_the_fields_witness :
  In (updateCharacteristic Kind.CurrentRelativeHumidity (Value (lit 40)))
     (trace_of (refreshStatus Sample.online Sample.fahrenheit_thermostat)).
Proof.
  apply (proj1 (refreshStatus_publishes_the_fields
                  Sample.online Sample.fahrenheit_thermostat eq_refl)).
  split.
  - vm_compute. right. right. left. reflexivity.
  - reflexivity.
Defined.

(** ** The guard of the refresh interval *)

Lemma flags_interval_skipping (a b : TCCthermostat) :
  flags a = flags b -> interval_skipping a = interval_skipping b.
Proof. unfold flags. intros H. now injection H. Qed.

Lemma flags_thermostatUpdateInProgress (a b : TCCthermostat) :
  flags a = flags b -> thermostatUpdateInProgress a = thermostatUpdateInProgress b.
Proof. unfold flags. intros H. now injection H. Qed.

(** X12.  The guard of the interval is a latch, not a gate.  A tick is
    skipped (nothing requested, nothing changed, nothing deferred) while the
    latch is set and a thermostat push is in progress; the first tick that
    finds no push in progress refreshes and drops the latch; from then on
    every tick refreshes, a push in progress or not. *)
Theorem interval_guard_is_a_latch (net : Network) (this : TCCthermostat) :
  let held := interval_skipping this && thermostatUpdateInProgress this in
  let r := interval_tick net this in
  interval_skipping (state_of r) = held
  /\ thermostatUpdateInProgress (state_of r) = thermostatUpdateInProgress this
  /\ (if held then r = (Normal tt, this, [])
      else exists rest, trace_of r = axios_get_thermostat :: rest).
Proof.
  intros held r. subst held r.
  unfold interval_tick, bind, get_this, modify.
  destruct (interval_skipping this && thermostatUpdateInProgress this) eqn:Hheld.
  - apply andb_true_iff in Hheld. destruct Hheld as [H1 H2].
    split; [exact H1|]. split; reflexivity.
  - pose proof (refreshStatus_flags net (set_interval_skipping false this)) as F.
    destruct (refreshStatus_fetches net (set_interval_skipping false this)) as [rest Hr].
    destruct (refreshStatus net (set_interval_skipping false this)) as [[c s] t].
    assert (I1 : interval_skipping s = false) by exact (flags_interval_skipping _ _ F).
    assert (I2 : thermostatUpdateInProgress s = thermostatUpdateInProgress this)
      by exact (flags_thermostatUpdateInProgress _ _ F).
    cbn in Hr |- *. subst t.
    split; [exact I1|]. split; [exact I2|]. exists rest. reflexivity.
Qed.

Lemma interval_tick_skips (net : Network) (s : TCCthermostat) :
  interval_skipping s = true -> thermostatUpdateInProgress s = true ->
  interval_tick net s = (Normal tt, s, []).
Proof.
  intros H1 H2. unfold interval_tick, bind, get_this. rewrite H1, H2. reflexivity.
Qed.

(** ** Host edits in sequence *)

Lemma thermostat_edit_flags (h : JS.value -> M unit) :
  (forall this value,
     flags (state_of (h value this))
     = (interval_skipping this, true, fanUpdateInProgress this)) ->
  raises_thermostat_flag h.
Proof.
  intros F net this value. split; [apply F|].
  destruct (interval_skipping this) eqn:Hs; [|exact I].
  pose proof (F this value) as E. unfold flags in E. injection E as F1 F2 _.
  apply interval_tick_skips; [congruence|assumption].
Qed.

(** X13.  Every thermostat "set" handler raises the thermostat in-progress
    flag at once, and a fan handler raises the fan flag when the fan
    pipeline is subscribed; the other flags stay.  So a tick of the interval
    that comes between a thermostat edit and its flush, with the latch still
    set, is skipped. *)
Theorem set_handlers_raise_their_flag :
  raises_thermostat_flag setTargetTemperature
  /\ raises_thermostat_flag setHeatingThresholdTemperature
  /\ raises_thermostat_flag setCoolingThresholdTemperature
  /\ raises_thermostat_flag setTargetHeatingCoolingState
  /\ raises_fan_flag setActive
  /\ raises_fan_flag setTargetFanState.
Proof.
  split; [apply thermostat_edit_flags; reflexivity|].
  split; [apply thermostat_edit_flags; reflexivity|].
  split; [apply thermostat_edit_flags; reflexivity|].
  split.
  { apply thermostat_edit_flags. intros this value.
    unfold setTargetHeatingCoolingState, doThermostatUpdate_next, bind, modify, emit,
      get_this.
    cbn. destruct (value === TargetHeatingCoolingState.HEAT)%js; reflexivity. }
  split; intros this value.
  - unfold setActive, doFanUpdate_next, bind, modify, emit, get_this, when. cbn.
    destruct (doFanUpdate_subscribed this); reflexivity.
  - unfold setTargetFanState, doFanUpdate_next, bind, modify, emit, get_this, when. cbn.
    destruct (doFanUpdate_subscribed this); reflexivity.
Qed.

(** X14.  Of two calls of the same "set" handler the second one wins: the
    object is as if the first call had not been made, so the flush after a
    burst of edits sees the last value only. *)
Theorem set_handlers_last_call_wins :
  last_call_wins setTargetTemperature
  /\ last_call_wins setHeatingThresholdTemperature
  /\ last_call_wins setCoolingThresholdTemperature
  /\ last_call_wins setTargetHeatingCoolingState
  /\ last_call_wins setActive
  /\ last_call_wins setTargetFanState.
Proof.
  split; [intros this a b; reflexivity|].
  split; [intros this a b; reflexivity|].
  split; [intros this a b; reflexivity|].
  split.
  { intros this a b.
    unfold setTargetHeatingCoolingState, doThermostatUpdate_next, bind, modify, emit,
      get_this.
    cbn. destruct (a === TargetHeatingCoolingState.HEAT)%js,
           (b === TargetHeatingCoolingState.HEAT)%js; reflexivity. }
  split; intros this a b.
  - unfold setActive, doFanUpdate_next, bind, modify, emit, get_this, when. cbn.
    destruct (doFanUpdate_subscribed this) eqn:Hs; cbn; rewrite Hs; reflexivity.
  - unfold setTargetFanState, doFanUpdate_next, bind, modify, emit, get_this, when. cbn.
    destruct (doFanUpdate_subscribed this) eqn:Hs; cbn; rewrite Hs; reflexivity.
Qed.

(** ** The display unit handler *)

(** X15.  Setting the display unit from the host changes nothing and
    requests nothing, whatever the value: the handler calls back with
    [null] and leaves one task for 100 ms later, which republishes the
    display unit the object holds when the task runs. *)
Theorem setTemperatureDisplayUnits_only_republishes
  (value : JS.value) (this : TCCthermostat) :
  let r := setTemperatureDisplayUnits value this in
  state_of r = this
  /\ trace_of r = [callback None]
  /\ exists timer,
       result_of r = Normal timer
       /\ delay timer = 100%Z
       /\ forall later : TCCthermostat,
            task timer later
            = (Normal tt, later,
               [updateCharacteristic Kind.TemperatureDisplayUnits
                  (Value (TemperatureDisplayUnits later))]).
Proof.
  cbn. split; [reflexivity|]. split; [reflexivity|].
  eexists. split; [reflexivity|]. split; [reflexivity|]. intros later. reflexivity.
Qed.

(** ** What the payload does not read *)

(** X16.  In Heat mode the payload does not read the heating threshold,
    in Cool mode it does not read the cooling threshold, and in any other
    mode it does not read the target temperature: an edit of that field
    leaves the payload as it was. *)
Theorem thermostat_payload_ignores_field (this : TCCthermostat) (value : JS.value) :
  let state := TargetHeatingCoolingState this in
  thermostat_payload
    (if (state === TargetHeatingCoolingState.HEAT)%js
     then set_HeatingThresholdTemperature value this
     else if (state === TargetHeatingCoolingState.COOL)%js
     then set_CoolingThresholdTemperature value this
     else set_TargetTemperature value this)
  = thermostat_payload this.
Proof.
  intros state. subst state. unfold thermostat_payload.
  destruct (TargetHeatingCoolingState this === TargetHeatingCoolingState.HEAT)%js eqn:H;
    [cbn; now rewrite H|].
  destruct (TargetHeatingCoolingState this === TargetHeatingCoolingState.COOL)%js eqn:C;
    cbn; rewrite H, C; [reflexivity|].
  destruct (TargetHeatingCoolingState this === TargetHeatingCoolingState.AUTO)%js;
    reflexivity.
Qed.

(** ** The valid target states, again *)

(** X17.  [TargetState] reads the allowed modes as a set: two lists with
    the same members, in any order and with any repetition, give the same
    valid values; and a value is never listed twice. *)
Theorem TargetState_reads_a_set (this other : TCCthermostat) :
  (forall name, In name (allowedModes (device this))
                <-> In name (allowedModes (device other))) ->
  TargetState this = TargetState other /\ NoDup (TargetState this).
Proof.
  intros Hsame.
  assert (E : forall name,
             JS.includes (allowedModes (device this)) name
             = JS.includes (allowedModes (device other)) name).
  { intros name.
    destruct (JS.includes (allowedModes (device this)) name) eqn:A,
      (JS.includes (allowedModes (device other)) name) eqn:B; try reflexivity.
    - apply includes_In, Hsame, includes_In in A. congruence.
    - apply includes_In, Hsame, includes_In in B. congruence. }
  split.
  - rewrite !TargetState_filter. unfold emission_order. cbn [filter fst].
    now rewrite !E.
  - rewrite TargetState_filter. unfold emission_order. cbn [filter fst].
    assert (D : NoDup [TargetHeatingCoolingState.COOL; TargetHeatingCoolingState.HEAT;
                       TargetHeatingCoolingState.OFF; TargetHeatingCoolingState.AUTO]).
    { repeat constructor; cbn [In]; intros H;
        repeat (destruct H as [H | H]; [apply lit_inj in H; discriminate H|]);
        exact H. }
    destruct (JS.includes (allowedModes (device this)) "Cool"),
      (JS.includes (allowedModes (device this)) "Heat"),
      (JS.includes (allowedModes (device this)) "Off"),
      (JS.includes (allowedModes (device this)) "Auto"); cbn [map snd];
      repeat match goal with
        | D : NoDup (_ :: _) |- _ => inversion D; clear D; subst
        end;
      repeat constructor; cbn [In] in *; tauto.
Qed.

Lemma TargetState_reads_a_set_witness :
  TargetState Sample.celsius_thermostat
  = TargetState (set_device
                   {| units := "Celsius";
                      indoorTemperature := lit 21;
                      indoorHumidity := lit 45;
                      changeableValues := changeableValues Sample.celsius_device;
                      operationStatus_mode := "Off";
                      allowedModes := ["Off"; "Heat"; "Off"];
                      minHeatSetpoint := lit 5;
                      minCoolSetpoint := JS.undefined;
                      settings_fan := false |} Sample.celsius_thermostat).
Proof.
  apply (TargetState_reads_a_set Sample.celsius_thermostat).
  intros name. vm_compute. tauto.
Defined.

(** ** Whole Fahrenheit degrees *)

(** In exact arithmetic a whole number of Fahrenheit degrees comes back
    from Celsius as it went, whatever the display unit. *)
Lemma whole_fahrenheit_back (this : TCCthermostat) (f : Z) :
  toFahrenheit this (toCelsius this (lit f)) = lit f.
Proof.
  destruct (TemperatureDisplayUnits this === TemperatureDisplayUnits.CELSIUS)%js eqn:Hunit.
  - unfold toFahrenheit, toCelsius. rewrite Hunit. reflexivity.
  - unfold lit at 1. unfold JS.lit at 1.
    rewrite (toCelsius_fraction this Hunit (JS.num f) f 1) by (to_Q; reflexivity).
    set (k := ((2 * (10 * (f - 32 * 1)) + 9 * 1) / (2 * (9 * 1)))%Z).
    rewrite (toFahrenheit_fraction this Hunit (JS.num k / JS.num 2)%Qc k 2)
      by (to_Q; fraction_eq).
    apply (f_equal (fun z => JS.Num (JS.num z))).
    subst k. Z.div_mod_to_equations. lia.
Qed.

(** X18.  The conversions lose no whole Fahrenheit degree within the
    range of a thermostat: for every integer [f] between -1000 and 1000,
    [toFahrenheit(toCelsius(f)) === f] in double precision, in either
    display unit.  (The degree 0 comes back as the negative zero, which
    [===] finds equal to 0.) *)
Theorem toFahrenheit_toCelsius_whole_degree (this : TCCthermostat) (f : Z) :
  (-1000 <= f <= 1000)%Z ->
  Double.strict_eq
    (Double.toFahrenheit this (Double.toCelsius this (Double.of_Z f))) (Double.of_Z f)
  = true.
Proof. apply Double_whole_degree_back. Qed.

Lemma toFahrenheit_toCelsius_whole_degree_witness :
  Double.strict_eq
    (Double.toFahrenheit Sample.fahrenheit_thermostat
       (Double.toCelsius Sample.fahrenheit_thermostat (Double.of_Z 0)))
    (Double.of_Z 0)
  = true.
Proof.
  apply (toFahrenheit_toCelsius_whole_degree Sample.fahrenheit_thermostat 0). lia.
Defined.






(** ** The payload after a refresh *)

Lemma gt_zero_lit (z : Z) : (0 < z)%Z -> (lit z > lit 0)%js = true.
Proof.
  intros H. apply gt_zero_iff_positive. unfold Qclt. to_Q.
  change 0%Q with (inject_Z 0). rewrite <- Zlt_Qlt. exact H.
Qed.

Lemma index_modes (name : string) :
  In name honeywellMode -> JS.index honeywellMode (modes name) = Some name.
Proof.
  intros [<- | [<- | [<- | [<- | []]]]]; reflexivity.
Qed.

(** The payload of a parsed state [p], from the snapshot it was parsed
    from. *)
Lemma payload_after_parse (this p : TCCthermostat) (h c : Z) :
  p = parseStatus this ->
  heatSetpoint (changeableValues (device this)) = lit h ->
  coolSetpoint (changeableValues (device this)) = lit c ->
  (0 < h)%Z -> (0 < c)%Z ->
  In (mode (changeableValues (device this))) honeywellMode ->
  thermostat_payload p
  = {| payload_mode := Some (mode (changeableValues (device this)));
       payload_thermostatSetpointStatus := thermostatSetpointStatus (platform this);
       payload_heatSetpoint := lit h;
       payload_coolSetpoint := lit c |}.
Proof.
  intros Ep Hh Hc Ph Pc Hmode.
  pose proof (parseStatus_resources this) as R. rewrite <- Ep in R.
  pose proof (parseStatus_fields this) as (_ & H & C & S & T).
  rewrite <- Ep in H, C, S, T.
  rewrite Hh, Hc, !(gt_zero_lit h Ph), !(gt_zero_lit c Pc) in *.
  cbn [orb] in T.
  assert (P : platform p = platform this) by (unfold resources in R; now injection R).
  unfold thermostat_payload. rewrite S, P, T, H, C, (index_modes _ Hmode).
  destruct Hmode as [<- | [<- | [<- | [<- | []]]]];
    cbn -[toFahrenheit toCelsius]; rewrite !whole_fahrenheit_back; reflexivity.
Qed.

(** X20.  Right after a refresh the payload echoes the device: with the
    remote mode one of the four names and both remote setpoints whole
    degrees between 1 and 1000, [pushChanges] would send back exactly that
    mode and those setpoints; the conversion of each setpoint to the
    normalized unit and back, computed in double precision, gives the
    setpoint again. *)
Theorem thermostat_payload_echoes_the_device (this : TCCthermostat) (h c : Z) :
  heatSetpoint (changeableValues (device this)) = lit h ->
  coolSetpoint (changeableValues (device this)) = lit c ->
  (0 < h <= 1000)%Z -> (0 < c <= 1000)%Z ->
  In (mode (changeableValues (device this))) honeywellMode ->
  let p := parseStatus this in
  thermostat_payload p
  = {| payload_mode := Some (mode (changeableValues (device this)));
       payload_thermostatSetpointStatus := thermostatSetpointStatus (platform this);
       payload_heatSetpoint := lit h;
       payload_coolSetpoint := lit c |}
  /\ Double.strict_eq
       (Double.toFahrenheit p (Double.toCelsius p (Double.of_Z h))) (Double.of_Z h)
     = true
  /\ Double.strict_eq
       (Double.toFahrenheit p (Double.toCelsius p (Double.of_Z c))) (Double.of_Z c)
     = true.
Proof.
  intros Hh Hc Ph Pc Hmode p. split; [|split].
  - apply (payload_after_parse this p h c eq_refl); try assumption; lia.
  - apply Double_whole_degree_back. lia.
  - apply Double_whole_degree_back. lia.
Qed.

Lemma thermostat_payload_echoes_the_device_witness :
  thermostat_payload (parseStatus Sample.fahrenheit_thermostat)
  = {| payload_mode := Some "Heat";
       payload_thermostatSetpointStatus := Some "NoHold";
       payload_heatSetpoint := lit 70;
       payload_coolSetpoint := lit 78 |}.
Proof.
  apply (thermostat_payload_echoes_the_device Sample.fahrenheit_thermostat 70 78).
  - reflexivity.
  - reflexivity.
  - lia.
  - lia.
  - right. left. reflexivity.
Defined.

(** ** Setpoints that keep the flush busy *)

Lemma strict_neq_NaN (v : JS.value) : (v !== JS.NaN)%js = true.
Proof. destruct v; reflexivity. Qed.

Lemma toCelsius_undefined (this : TCCthermostat) :
  (TemperatureDisplayUnits this === TemperatureDisplayUnits.CELSIUS)%js = false ->
  toCelsius this JS.undefined = JS.NaN.
Proof. intros H. unfold toCelsius. rewrite H. reflexivity. Qed.

(** X21.  With a display unit that is not Celsius, a remote setpoint that
    is absent normalizes to [NaN], which differs from every threshold: every
    run of [pushChanges] posts, whatever the fields hold. *)
Theorem absent_setpoint_always_pushes (net : Network) (this : TCCthermostat) :
  (TemperatureDisplayUnits this === TemperatureDisplayUnits.CELSIUS)%js = false ->
  heatSetpoint (changeableValues (device this)) = JS.undefined
  \/ coolSetpoint (changeableValues (device this)) = JS.undefined ->
  changed this = true
  /\ hd_error (trace_of (pushChanges net this))
     = Some (axios_post_thermostat (thermostat_payload this)).
Proof.
  intros Hunit Habsent.
  assert (H : changed this = true).
  { unfold changed. destruct Habsent as [-> | ->];
      rewrite (toCelsius_undefined this Hunit), strict_neq_NaN;
      [reflexivity|]. rewrite orb_true_r. reflexivity. }
  split; [exact H|]. rewrite pushChanges_run, H.
  destruct (post_thermostat net); reflexivity.
Qed.

Lemma absent_setpoint_always_pushes_witness :
  changed (set_device
             {| units := "Fahrenheit";
                indoorTemperature := lit 72;
                indoorHumidity := lit 40;
                changeableValues :=
                  {| mode := "Heat"; heatSetpoint := lit 70; coolSetpoint := JS.undefined |};
                operationStatus_mode := "Heat";
                allowedModes := ["Heat"; "Off"];
                minHeatSetpoint := lit 50;
                minCoolSetpoint := JS.undefined;
                settings_fan := true |} Sample.fahrenheit_thermostat) = true.
Proof.
  apply (absent_setpoint_always_pushes Sample.online).
  - reflexivity.
  - right. reflexivity.
Defined.

(** The comparison of [pushChanges] on a parsed state [p] whose cool
    setpoint was not positive. *)
Lemma retained_cooling_threshold_differs (this p : TCCthermostat) :
  p = parseStatus this ->
  (coolSetpoint (changeableValues (device this)) > lit 0)%js = false ->
  (CoolingThresholdTemperature this
   !== toCelsius p (coolSetpoint (changeableValues (device this))))%js = true ->
  changed p = true.
Proof.
  intros Ep Hc Hd.
  pose proof (parseStatus_resources this) as R. rewrite <- Ep in R.
  pose proof (parseStatus_fields this) as (_ & _ & C & _).
  rewrite <- Ep in C. rewrite Hc in C.
  unfold changed. rewrite (resources_device _ _ R), C, Hd.
  now rewrite orb_true_r.
Qed.

Lemma retained_heating_threshold_differs (this p : TCCthermostat) :
  p = parseStatus this ->
  (heatSetpoint (changeableValues (device this)) > lit 0)%js = false ->
  (HeatingThresholdTemperature this
   !== toCelsius p (heatSetpoint (changeableValues (device this))))%js = true ->
  changed p = true.
Proof.
  intros Ep Hh Hd.
  pose proof (parseStatus_resources this) as R. rewrite <- Ep in R.
  pose proof (parseStatus_fields this) as (_ & H & _).
  rewrite <- Ep in H. rewrite Hh in H.
  unfold changed. rewrite (resources_device _ _ R), H, Hd. reflexivity.
Qed.

(** X22.  A threshold that [parseStatus] keeps, because the remote setpoint
    is not positive, is compared by [pushChanges] with that very setpoint:
    when the kept threshold is not the normalized setpoint (an unset
    threshold against a setpoint of 0, say), the object counts as changed
    right after the refresh, and stays so after every refresh. *)
Theorem kept_threshold_counts_as_changed (this : TCCthermostat) :
  let remote := changeableValues (device this) in
  let normalized := toCelsius (parseStatus this) in
  ((heatSetpoint remote > lit 0)%js = false
   /\ (HeatingThresholdTemperature this !== normalized (heatSetpoint remote))%js = true)
  \/ ((coolSetpoint remote > lit 0)%js = false
      /\ (CoolingThresholdTemperature this !== normalized (coolSetpoint remote))%js
         = true) ->
  changed (parseStatus this) = true
  /\ changed (parseStatus (parseStatus this)) = true.
Proof.
  intros remote normalized H. subst remote normalized.
  assert (E : changed (parseStatus this) = true).
  { destruct H as [[Hg Hd] | [Hg Hd]].
    - exact (retained_heating_threshold_differs this _ eq_refl Hg Hd).
    - exact (retained_cooling_threshold_differs this _ eq_refl Hg Hd). }
  split; [exact E|]. rewrite (parse_again this _ _ eq_refl eq_refl). exact E.
Qed.

Lemma kept_threshold_counts_as_changed_witness :
  changed (parseStatus Sample.celsius_thermostat) = true.
Proof.
  apply (kept_threshold_counts_as_changed Sample.celsius_thermostat).
  right. split; reflexivity.
Defined.

(** ** The object the constructor leaves *)

(** X23.  The constructor leaves the snapshot it was given and no fan
    resource, both in-progress flags down and the latch of the interval set,
    and it requests nothing; the fan fields show Manual and inactive until a
    refresh fetches the fan.  With a fan that is enabled the Fanv2 service
    exists and the fan pipeline is subscribed; otherwise the pipeline is not
    subscribed and the service is the cached one, if any. *)
Theorem constructor_initial_state (p : Platform) (cached_Fanv2 : bool) (d : TCCDevice) :
  let this := constructor p cached_Fanv2 d in
  device this = d
  /\ platform this = p
  /\ deviceFan this = None
  /\ flags this = (true, false, false)
  /\ TargetFanState this = TargetFanState.MANUAL
  /\ Active this = Active.INACTIVE
  /\ doFanUpdate_subscribed this = fan_enabled this
  /\ fanService this = (cached_Fanv2 || fan_enabled this).
Proof.
  unfold constructor. cbv zeta.
  match goal with |- context [parseStatus ?s] => set (blank := s) end.
  pose proof (parseStatus_resources blank) as R.
  pose proof (parseStatus_flags blank) as F.
  pose proof (parseStatus_rest blank) as (_ & _ & _ & _ & TF & AC).
  change (deviceFan blank) with (@None FanChangeableValues) in TF, AC.
  assert (TF' : TargetFanState (parseStatus blank) = TargetFanState.MANUAL)
    by (rewrite TF; destruct (fan_enabled blank); reflexivity).
  assert (AC' : Active (parseStatus blank) = Active.INACTIVE)
    by (rewrite AC; destruct (fan_enabled blank); reflexivity).
  clear TF AC. revert R F TF' AC'.
  generalize (parseStatus blank). intros s R F TF AC.
  unfold fan_enabled. unfold resources in R. injection R as -> -> -> -> ->.
  repeat split; try reflexivity; assumption.
Qed.

(** ** The settings and the log functions of [DeviceBase] *)

Section DeviceBaseFacts.

Import DeviceBase.

Lemma truthy_Some (o : option string) (level : string) :
  truthy o = Some level -> o = Some level /\ level <> "".
Proof.
  destruct o as [s|]; cbn; [|discriminate].
  destruct (String.eqb_spec s ""); [discriminate|].
  intros [= ->]. split; [reflexivity | assumption].
Qed.

(** What [debugLog] does with one message right after the level is set. *)
Lemma then_debugLog_set_logging (level : string) (this : t) (message : string) :
  then_debugLog (set_logging level this) message
  = Some (set_logging level this,
          if includes level "debug" || (level =? "standard")
          then if level =? "debug"
               then [log_info ["[DEBUG]"; message]]
               else [log_debug [message]]
          else []).
Proof.
  unfold then_debugLog, debugLog, enablingDeviceLogging, logging_is_debug.
  cbn [deviceLogging set_logging String_of].
  destruct (includes level "debug" || (level =? "standard")); [|reflexivity].
  destruct (level =? "debug"); reflexivity.
Qed.

Lemma logs_run (device : DevicesConfig) (this : t) :
  exists calls,
    logs device this = Some (set_logging (chosen_level device this) this, calls)
    /\ (List.length calls <= 1)%nat.
Proof.
  unfold logs, chosen_level.
  destruct (debugMode (platform this)).
  { rewrite then_debugLog_set_logging. eexists. split; [reflexivity|].
    cbn. lia. }
  destruct (truthy (device_logging device)) as [level|].
  { rewrite then_debugLog_set_logging. eexists. split; [reflexivity|].
    destruct (includes level "debug" || (level =? "standard"));
      [destruct (level =? "debug")|]; cbn; lia. }
  destruct (truthy (options_logging (platform this))) as [level|].
  { rewrite then_debugLog_set_logging. eexists. split; [reflexivity|].
    destruct (includes level "debug" || (level =? "standard"));
      [destruct (level =? "debug")|]; cbn; lia. }
  rewrite then_debugLog_set_logging. eexists. split; [reflexivity|].
  cbn. lia.
Qed.

Lemma chosen_level_truthy (device : DevicesConfig) (this : t) :
  chosen_level device this <> "".
Proof.
  unfold chosen_level.
  destruct (debugMode (platform this)); [discriminate|].
  destruct (truthy (device_logging device)) as [level|] eqn:D.
  { exact (proj2 (truthy_Some _ _ D)). }
  destruct (truthy (options_logging (platform this))) as [level|] eqn:P.
  { exact (proj2 (truthy_Some _ _ P)). }
  discriminate.
Qed.

(** X24.  [logs] never raises, whatever the object held before.  It writes
    one level, not empty, to [deviceLogging] and to the accessory context,
    and nothing else; the debug mode of the platform wins over the device
    entry, the device entry over the platform options, and an empty or
    absent level counts as not configured.  It logs at most one line. *)
Theorem logs_sets_one_level (device : DevicesConfig) (this : t) :
  exists (level : string) (calls : list log_call),
    logs device this = Some (set_logging level this, calls)
    /\ level <> ""
    /\ (List.length calls <= 1)%nat
    /\ (debugMode (platform this) = true -> level = "debugMode")
    /\ (debugMode (platform this) = false ->
        forall configured, truthy (device_logging device) = Some configured ->
                           level = configured)
    /\ (debugMode (platform this) = false ->
        truthy (device_logging device) = None ->
        level = match truthy (options_logging (platform this)) with
                | Some configured => configured
                | None => "standard"
                end).
Proof.
  destruct (logs_run device this) as (calls & E & L).
  exists (chosen_level device this), calls.
  split; [exact E|]. split; [apply chosen_level_truthy|]. split; [exact L|].
  unfold chosen_level. split; [|split].
  - intros ->. reflexivity.
  - intros -> configured ->. reflexivity.
  - intros -> ->. reflexivity.
Qed.

Lemma logs_sets_one_level_witness :
  exists (level : string) (calls : list log_call),
    logs {| device_logging := Some ""; device_refreshRate := JS.undefined |}
         {| constructor_name := "Thermostats"; displayName := "Hall";
            platform :=
              {| debugMode := false;
                 options := Some {| Options.logging := Some "debug";
                                    Options.refreshRate := lit 120 |} |};
            deviceLogging := None; deviceRefreshRate := JS.undefined;
            context_logging := None; context_refreshRate := JS.undefined |}
    = Some (set_logging level
              {| constructor_name := "Thermostats"; displayName := "Hall";
                 platform :=
                   {| debugMode := false;
                      options := Some {| Options.logging := Some "debug";
                                         Options.refreshRate := lit 120 |} |};
                 deviceLogging := None; deviceRefreshRate := JS.undefined;
                 context_logging := None; context_refreshRate := JS.undefined |},
            calls)
    /\ level = "debug".
Proof.
  destruct (logs_sets_one_level
              {| device_logging := Some ""; device_refreshRate := JS.undefined |}
              {| constructor_name := "Thermostats"; displayName := "Hall";
                 platform :=
                   {| debugMode := false;
                      options := Some {| Options.logging := Some "debug";
                                         Options.refreshRate := lit 120 |} |};
                 deviceLogging := None; deviceRefreshRate := JS.undefined;
                 context_logging := None; context_refreshRate := JS.undefined |})
    as (level & calls & E & _ & _ & _ & _ & H).
  exists level, calls. split; [exact E|]. exact (H eq_refl eq_refl).
Defined.

(** X25.  The log functions read [deviceLogging] without a guard: on an
    object whose level is unset every one of them raises, and once [logs]
    has run none of them does, whatever the configuration and whatever they
    are called with. *)
Theorem log_functions_defined_after_logs (device : DevicesConfig) (this : t)
    (log : list string) (argument : option WarnArgument) :
  (deviceLogging this = None ->
   Forall (fun outcome => outcome = None) (log_functions this log argument))
  /\ match logs device this with
     | Some (this', _) =>
         Forall (fun outcome => outcome <> None) (log_functions this' log argument)
     | None => False
     end.
Proof.
  split.
  - intros H. unfold log_functions, infoLog, warnLog, errorLog, debugWarnLog,
      debugErrorLog, debugLog, enablingDeviceLogging. rewrite H.
    repeat constructor.
  - destruct (logs_run device this) as (calls & -> & _).
    unfold log_functions, infoLog, warnLog, errorLog, debugWarnLog,
      debugErrorLog, debugLog, enablingDeviceLogging, logging_includes_debug,
      logging_is_debug.
    cbn [deviceLogging set_logging].
    generalize (chosen_level device this). intros level.
    destruct (includes level "debug"), (level =? "standard"), (level =? "debug");
      cbn; repeat constructor; discriminate.
Qed.

Lemma log_functions_defined_after_logs_witness :
  Forall (fun outcome => outcome = None)
    (log_functions
       {| constructor_name := "Thermostats"; displayName := "Hall";
          platform := {| debugMode := true; options := None |};
          deviceLogging := None; deviceRefreshRate := JS.undefined;
          context_logging := None; context_refreshRate := JS.undefined |}
       ["refresh"] (Some {| log := Some ["refresh"] |})).
Proof.
  apply (log_functions_defined_after_logs
           {| device_logging := None; device_refreshRate := JS.undefined |}).
  reflexivity.
Defined.

(** X26.  A level that neither contains "debug" nor is "standard" silences
    all six log functions, errors included. *)
Theorem unknown_level_silences_every_log (this : t) (level : string)
    (log : list string) (argument : option WarnArgument) :
  deviceLogging this = Some level ->
  includes level "debug" = false ->
  level <> "standard" ->
  Forall (fun outcome => outcome = Some []) (log_functions this log argument).
Proof.
  intros H Hd Hs.
  unfold log_functions, infoLog, warnLog, errorLog, debugWarnLog,
    debugErrorLog, debugLog, enablingDeviceLogging. rewrite H, Hd.
  destruct (String.eqb_spec level "standard"); [contradiction|].
  repeat constructor.
Qed.

Lemma unknown_level_silences_every_log_witness :
  Forall (fun outcome => outcome = Some [])
    (log_functions
       {| constructor_name := "Thermostats"; displayName := "Hall";
          platform := {| debugMode := false; options := None |};
          deviceLogging := Some "none"; deviceRefreshRate := JS.undefined;
          context_logging := Some "none"; context_refreshRate := JS.undefined |}
       ["Failed to refresh"] None).
Proof.
  apply (unknown_level_silences_every_log _ "none").
  - reflexivity.
  - reflexivity.
  - discriminate.
Defined.

(** X27.  Where a debug line goes.  [debugLog] prints through [log.info]
    with the [DEBUG] tag at the level "debug" only; at every other level
    that enables logging, "standard" and "debugMode" included, it hands the
    line to [log.debug].  [debugErrorLog] and [debugWarnLog] print at every
    level that contains "debug" and are silent at "standard", where
    [infoLog] prints.  [debugLog], [debugErrorLog] and [infoLog] pass their
    first argument on and drop the others.  [debugWarnLog] does not: it
    takes one object and prints the first element of its [log] member, and
    the empty line when it is called without an argument or with an
    argument that has no such member, a plain message among them. *)
Theorem debug_lines_routing (this : t) (level : string) (log : list string)
    (argument : option WarnArgument) :
  deviceLogging this = Some level ->
  let line := String_of log in
  (level = "debug" -> debugLog this log = Some [log_info ["[DEBUG]"; line]])
  /\ (level <> "debug" -> enablingDeviceLogging this = Some true ->
      debugLog this log = Some [log_debug [line]])
  /\ (includes level "debug" = true ->
      debugErrorLog this log = Some [log_error ["[DEBUG]"; line]]
      /\ debugWarnLog this argument
         = Some [log_warn ["[DEBUG]"; String_of (log_of argument)]]
      /\ (forall l,
            debugWarnLog this (Some {| log := Some l |})
            = Some [log_warn ["[DEBUG]"; String_of l]])
      /\ debugWarnLog this (Some {| log := None |}) = Some [log_warn ["[DEBUG]"; ""]]
      /\ debugWarnLog this None = Some [log_warn ["[DEBUG]"; ""]])
  /\ (level = "standard" ->
      debugWarnLog this argument = Some [] /\ debugErrorLog this log = Some []
      /\ infoLog this log = Some [log_info [line]]).
Proof.
  intros H line. subst line.
  unfold debugLog, debugWarnLog, debugErrorLog, infoLog, enablingDeviceLogging,
    logging_is_debug, logging_includes_debug.
  rewrite H. split; [|split; [|split]].
  - intros ->. reflexivity.
  - intros Hn He. injection He as He. rewrite He.
    destruct (String.eqb_spec level "debug"); [contradiction | reflexivity].
  - intros ->. cbn. repeat split; reflexivity.
  - intros ->. cbn. repeat split; reflexivity.
Qed.

Lemma debug_lines_routing_witness :
  debugLog
    {| constructor_name := "Thermostats"; displayName := "Hall";
       platform := {| debugMode := true; options := None |};
       deviceLogging := Some "debugMode"; deviceRefreshRate := JS.undefined;
       context_logging := Some "debugMode"; context_refreshRate := JS.undefined |}
    ["pushChanges"; "dropped"]
  = Some [log_debug ["pushChanges"]]
  /\ debugWarnLog
       {| constructor_name := "Thermostats"; displayName := "Hall";
          platform := {| debugMode := true; options := None |};
          deviceLogging := Some "debugMode"; deviceRefreshRate := JS.undefined;
          context_logging := Some "debugMode"; context_refreshRate := JS.undefined |}
       (Some {| log := None |})
     = Some [log_warn ["[DEBUG]"; ""]].
Proof.
  pose proof (debug_lines_routing
                {| constructor_name := "Thermostats"; displayName := "Hall";
                   platform := {| debugMode := true; options := None |};
                   deviceLogging := Some "debugMode"; deviceRefreshRate := JS.undefined;
                   context_logging := Some "debugMode";
                   context_refreshRate := JS.undefined |}
                "debugMode" ["pushChanges"; "dropped"] None eq_refl) as H.
  cbv zeta in H. destruct H as (_ & H1 & H2 & _). split.
  - apply H1; [discriminate | reflexivity].
  - apply H2. reflexivity.
Defined.

Section RefreshRateFacts.

Variable show : JS.value -> string.

Lemma refreshRate_run (device : DevicesConfig) (this : t) (level : string) :
  deviceLogging this = Some level ->
  reads_absent_options device this = false ->
  exists calls,
    refreshRate show device this
    = Some (match chosen_rate device this with
            | Some rate => set_refreshRate rate this
            | None => this
            end, calls)
    /\ (List.length calls <= 1)%nat.
Proof.
  intros H. unfold reads_absent_options, refreshRate, chosen_rate, then_debugLog,
    debugLog, enablingDeviceLogging, logging_is_debug.
  cbn [deviceLogging set_refreshRate]. rewrite H.
  destruct (JS.ToBoolean (device_refreshRate device));
    [|destruct (options (platform this)) as [o|];
      [destruct (JS.ToBoolean (Options.refreshRate o))|]];
    cbn [negb andb]; intros Hr; try discriminate Hr;
    destruct (includes level "debug" || (level =? "standard"));
    try destruct (level =? "debug");
    eexists; (split; [reflexivity | cbn; lia]).
Qed.

Lemma refreshRate_raises (device : DevicesConfig) (this : t) :
  reads_absent_options device this = true -> refreshRate show device this = None.
Proof.
  unfold reads_absent_options, refreshRate.
  destruct (JS.ToBoolean (device_refreshRate device)); [discriminate|].
  destruct (options (platform this)); [discriminate | reflexivity].
Qed.

(** X28.  The settings part of the constructor raises exactly when the
    device entry has no truthy refresh rate and the configuration has no
    options object: [refreshRate] then reads a member of [undefined], which
    [logs], run first and to its end, does not.  In every other case it
    completes: [logs] has set the level when [refreshRate] logs.  It then
    leaves a level, and a refresh rate that is the device's when that is
    truthy, else the platform's when that is truthy; a rate of 0, NaN or
    none at both places leaves the rate of the object and of the accessory
    context as they were.  At most two lines are logged. *)
Theorem constructor_settles_the_settings (device : DevicesConfig) (this : t) :
  (reads_absent_options device this = true ->
   constructor show device this = None
   /\ exists this' calls, logs device this = Some (this', calls))
  /\ (reads_absent_options device this = false ->
      exists (this' : t) (calls : list log_call),
        constructor show device this = Some (this', calls)
        /\ (List.length calls <= 2)%nat
        /\ deviceLogging this' <> None
        /\ context_logging this' = deviceLogging this'
        /\ match chosen_rate device this with
           | Some rate =>
               JS.ToBoolean rate = true
               /\ deviceRefreshRate this' = rate /\ context_refreshRate this' = rate
           | None =>
               deviceRefreshRate this' = deviceRefreshRate this
               /\ context_refreshRate this' = context_refreshRate this
           end).
Proof.
  destruct (logs_run device this) as (first & E1 & L1).
  split; intros Hr.
  - split; [|eauto]. unfold constructor. rewrite E1.
    rewrite (refreshRate_raises device (set_logging (chosen_level device this) this) Hr).
    reflexivity.
  - destruct (refreshRate_run device (set_logging (chosen_level device this) this)
                (chosen_level device this) eq_refl Hr) as (second & E2 & L2).
    unfold constructor. rewrite E1, E2.
    change (chosen_rate device (set_logging (chosen_level device this) this))
      with (chosen_rate device this).
    eexists. eexists. split; [reflexivity|].
    split; [rewrite length_app; lia|].
    unfold chosen_rate.
    destruct (JS.ToBoolean (device_refreshRate device)) eqn:D;
      [|destruct (options (platform this)) as [o|];
        [destruct (JS.ToBoolean (Options.refreshRate o)) eqn:P|]];
      cbn; repeat split; try assumption; discriminate.
Qed.

End RefreshRateFacts.

End DeviceBaseFacts.
